(** * Prisma study companion: batching and nudge escalation

    A shallow embedding of the two classes that make up the signal
    pipeline of the browser extension,

      - [TandemProcessor] (tandem-processor.js): the activity buffer, the
        batch scheduler and the batch composer;
      - [PrismaNudgeSystem] (prisma-nudge-system.js): the signal analyzer,
        the escalation engine and the nudge dispatcher;

    of the two scripts around them,

      - the content script (content.js): the diff of the visible text and
        the capture timer;
      - the background script (background.js): the capture store, the
        batch monitor and the manual trigger;

    together with the fragment of the JavaScript string and regular
    expression library they call.

    Conventions of the embedding.
      - A JavaScript string is the list of its UTF-16 code units ([N]).
      - Numbers that the code only uses as integers (clock readings in
        milliseconds, counters, scores, levels) are [Z].
      - [Date.now()] is an argument of the function that reads it; a
        function that reads the clock several times takes several
        arguments.
      - Mutable objects are records threaded through the methods: a
        method returns the new object state next to its result.
      - The language-model round trip ([fetch] and JSON decoding) is an
        input: the text of the reply, or a failure.
      - [String.prototype.toLowerCase] and [toUpperCase] are the Unicode
        mappings on Basic Latin and Latin-1 Supplement; a code unit above
        255 is carried through unchanged. *)

From Stdlib Require Import String Ascii DecimalString.
From Stdlib Require Import ZArith NArith List Bool Lia.
From Stdlib Require Import Permutation Sorted.
Import ListNotations.

(* ===================================================================== *)
(** ** JavaScript strings and regular expressions *)
(* ===================================================================== *)

Module JS.

Definition jsstring := list N.

(** UTF-8 bytes of a source literal to UTF-16 code units. *)
Fixpoint utf16_of_utf8 (bs : list N) : jsstring :=
  match bs with
  | [] => []
  | b :: rest =>
      if (b <? 128)%N then b :: utf16_of_utf8 rest
      else if (b <? 224)%N then
        match rest with
        | c1 :: rest' => ((b - 192) * 64 + (c1 - 128))%N :: utf16_of_utf8 rest'
        | [] => []
        end
      else if (b <? 240)%N then
        match rest with
        | c1 :: c2 :: rest' =>
            ((b - 224) * 4096 + (c1 - 128) * 64 + (c2 - 128))%N :: utf16_of_utf8 rest'
        | _ => []
        end
      else
        match rest with
        | c1 :: c2 :: c3 :: rest' =>
            let cp := ((b - 240) * 262144 + (c1 - 128) * 4096 + (c2 - 128) * 64 + (c3 - 128))%N in
            let v := (cp - 65536)%N in
            (55296 + v / 1024)%N :: (56320 + v mod 1024)%N :: utf16_of_utf8 rest'
        | _ => []
        end
  end.

(** A string literal of the source. *)
Definition js (s : string) : jsstring :=
  utf16_of_utf8 (map N_of_ascii (list_ascii_of_string s)).

(** The double quote, which a literal cannot hold. *)
Definition dq : jsstring := [34%N].

Definition eqb (a b : jsstring) : bool :=
  if list_eq_dec N.eq_dec a b then true else false.

(** Truthiness of a string value: the empty string is falsy. *)
Definition truthy (s : jsstring) : bool :=
  match s with [] => false | _ => true end.

(** [String(n)] for an integer-valued number. *)
Definition decimal (z : Z) : jsstring :=
  js (NilZero.string_of_int (Z.to_int z)).

(** ** Case conversion *)

Definition lowerUnit (c : N) : N :=
  if ((65 <=? c) && (c <=? 90))%N then (c + 32)%N
  else if ((192 <=? c) && (c <=? 222) && negb (c =? 215))%N then (c + 32)%N
  else c.

Definition toLowerCase (s : jsstring) : jsstring := map lowerUnit s.

(** Upper-casing is not one-to-one on Latin-1: sharp s becomes two
    letters, and y-diaeresis and the micro sign leave the range. *)
Definition upperUnit (c : N) : jsstring :=
  if ((97 <=? c) && (c <=? 122))%N then [(c - 32)%N]
  else if ((224 <=? c) && (c <=? 254) && negb (c =? 247))%N then [(c - 32)%N]
  else if (c =? 223)%N then [83%N; 83%N]
  else if (c =? 255)%N then [376%N]
  else if (c =? 181)%N then [924%N]
  else [c].

Definition toUpperCase (s : jsstring) : jsstring := flat_map upperUnit s.

(** ** Searching and trimming *)

Fixpoint startsWith (k s : jsstring) : bool :=
  match k, s with
  | [], _ => true
  | _ :: _, [] => false
  | a :: k', b :: s' => (a =? b)%N && startsWith k' s'
  end.

(** [s.includes(k)] *)
Fixpoint includes (k s : jsstring) : bool :=
  startsWith k s ||
  match s with
  | [] => false
  | _ :: s' => includes k s'
  end.

(** White space and line terminators, as [trim] and the class [\s] read them. *)
Definition isWhiteSpace (c : N) : bool :=
  existsb (N.eqb c)
    [9; 10; 11; 12; 13; 32; 160; 5760; 8192; 8193; 8194; 8195; 8196; 8197;
     8198; 8199; 8200; 8201; 8202; 8232; 8233; 8239; 8287; 12288; 65279]%N.

Fixpoint trimStart (s : jsstring) : jsstring :=
  match s with
  | c :: s' => if isWhiteSpace c then trimStart s' else s
  | [] => []
  end.

Definition trim (s : jsstring) : jsstring :=
  rev (trimStart (rev (trimStart s))).

(** [s.substring(0, n)] *)
Definition substring0 (n : nat) (s : jsstring) : jsstring := firstn n s.

Definition isDigit (c : N) : bool := ((48 <=? c) && (c <=? 57))%N.

(** [parseInt] of a run of decimal digits. *)
Definition parseDigits (s : jsstring) : Z :=
  fold_left (fun acc c => acc * 10 + (Z.of_N c - 48))%Z s 0%Z.

(** ** Regular expressions

    A backtracking matcher in the order of the ECMAScript one: the list
    of results is in priority order, so its head is the match [exec]
    reports.  Only the constructs that the two classes use are here. *)

Inductive regex : Type :=
| Str (s : jsstring)              (* a run of literal characters *)
| Dot                             (* .   : anything but a line terminator *)
| Digit                           (* \d *)
| Space                           (* \s *)
| Class (cs : jsstring)           (* [...] *)
| NotClass (cs : jsstring)        (* [^...] *)
| WordBoundary                    (* \b *)
| Seq (r1 r2 : regex)
| Star (r : regex)                (* r*, greedy *)
| Plus (r : regex)                (* r+, greedy *)
| Group (i : nat) (r : regex).    (* the i-th capturing group *)

(** A position in the subject: the text before it (nearest first), the
    text after it, and the groups captured so far. *)
Record cursor : Type := mkCursor {
  before : jsstring;
  rest : jsstring;
  caps : list (nat * jsstring)
}.

Definition isLineTerminator (c : N) : bool :=
  existsb (N.eqb c) [10; 13; 8232; 8233]%N.

(** [\w]: letters, digits and the underscore of Basic Latin. *)
Definition isWordChar (c : N) : bool :=
  ((65 <=? c) && (c <=? 90) || (97 <=? c) && (c <=? 122) || isDigit c || (c =? 95))%N.

Definition headIsWord (s : jsstring) : bool :=
  match s with c :: _ => isWordChar c | [] => false end.

(** Canonicalize of the [i] flag (no [u] flag): upper-casing, which for
    the Basic Latin letters of the patterns below relates a letter to its
    two cases only. *)
Definition canonicalize (icase : bool) (c : N) : N :=
  if icase && ((97 <=? c) && (c <=? 122))%N then (c - 32)%N else c.

Fixpoint matchStr (icase : bool) (k s : jsstring) : option jsstring :=
  match k, s with
  | [], _ => Some s
  | _ :: _, [] => None
  | a :: k', b :: s' =>
      if (canonicalize icase a =? canonicalize icase b)%N then matchStr icase k' s' else None
  end.

Definition step1 (p : N -> bool) (c : cursor) : list cursor :=
  match rest c with
  | x :: s' => if p x then [mkCursor (x :: before c) s' (caps c)] else []
  | [] => []
  end.

Definition consumed (from to : cursor) : jsstring :=
  firstn (length (rest from) - length (rest to)) (rest from).

Definition advances (from to : cursor) : bool :=
  (length (rest to) <? length (rest from))%nat.

(** The iterations of a greedy star: one more turn of the body that
    moves the cursor, then the rest of the star; or stop here. *)
Fixpoint starLoop (body : cursor -> list cursor) (fuel : nat) (c : cursor)
  : list cursor :=
  match fuel with
  | O => [c]
  | S f => flat_map (starLoop body f) (filter (advances c) (body c)) ++ [c]
  end.

Fixpoint run (icase : bool) (r : regex) (c : cursor) : list cursor :=
  match r with
  | Str k =>
      match matchStr icase k (rest c) with
      | Some s' => [mkCursor (rev (consumed c (mkCursor [] s' [])) ++ before c) s' (caps c)]
      | None => []
      end
  | Dot => step1 (fun x => negb (isLineTerminator x)) c
  | Digit => step1 isDigit c
  | Space => step1 isWhiteSpace c
  | Class cs => step1 (fun x => existsb (N.eqb x) cs) c
  | NotClass cs => step1 (fun x => negb (existsb (N.eqb x) cs)) c
  | WordBoundary =>
      if xorb (headIsWord (before c)) (headIsWord (rest c)) then [c] else []
  | Seq r1 r2 => flat_map (run icase r2) (run icase r1 c)
  | Star r1 => starLoop (run icase r1) (length (rest c)) c
  | Plus r1 =>
      flat_map (fun c1 => starLoop (run icase r1) (length (rest c1)) c1) (run icase r1 c)
  | Group i r1 =>
      map (fun c' => mkCursor (before c') (rest c') ((i, consumed c c') :: caps c'))
          (run icase r1 c)
  end.

(** The match that starts exactly at the cursor, if any. *)
Definition matchAt (icase : bool) (r : regex) (b s : jsstring) : option cursor :=
  hd_error (run icase r (mkCursor b s [])).

(** [r.exec(s)]: the leftmost match, as (text before, match end). *)
Fixpoint execFrom (icase : bool) (r : regex) (b s : jsstring) : option (jsstring * cursor) :=
  match matchAt icase r b s with
  | Some c => Some (b, c)
  | None =>
      match s with
      | x :: s' => execFrom icase r (x :: b) s'
      | [] => None
      end
  end.

(** [r.test(s)] *)
Definition test (icase : bool) (r : regex) (s : jsstring) : bool :=
  match execFrom icase r [] s with Some _ => true | None => false end.

(** The text of capturing group [i] of a match. *)
Definition group (i : nat) (c : cursor) : option jsstring :=
  option_map snd (find (fun p => Nat.eqb (fst p) i) (caps c)).

(** [s.match(r)] without the [g] flag: the capture groups of the
    leftmost match. *)
Definition matchFirst (icase : bool) (r : regex) (s : jsstring) : option cursor :=
  option_map snd (execFrom icase r [] s).

(** [s.match(r)] with the [g] flag: the texts of the successive matches,
    left to right, none overlapping. *)
Fixpoint matchAllFrom (fuel : nat) (icase : bool) (r : regex) (b s : jsstring)
  : list jsstring :=
  match fuel with
  | O => []
  | S f =>
      match matchAt icase r b s with
      | Some c =>
          let m := consumed (mkCursor b s []) c in
          match m, s with
          | [], x :: s' => m :: matchAllFrom f icase r (x :: b) s'
          | [], [] => [m]
          | _, _ => m :: matchAllFrom f icase r (before c) (rest c)
          end
      | None =>
          match s with
          | x :: s' => matchAllFrom f icase r (x :: b) s'
          | [] => []
          end
      end
  end.

Definition matchAll (icase : bool) (r : regex) (s : jsstring) : list jsstring :=
  matchAllFrom (S (length s)) icase r [] s.

(** [s.replace(r, f)] with the [g] flag; [f] builds the replacement from
    the match (the [$1], [$2] of a replacement pattern). *)
Fixpoint replaceAllFrom (fuel : nat) (icase : bool) (r : regex)
    (f : cursor -> jsstring) (b s : jsstring) : jsstring :=
  match fuel with
  | O => s
  | S fu =>
      match matchAt icase r b s with
      | Some c =>
          match consumed (mkCursor b s []) c, s with
          | [], x :: s' => f c ++ x :: replaceAllFrom fu icase r f (x :: b) s'
          | [], [] => f c
          | _, _ => f c ++ replaceAllFrom fu icase r f (before c) (rest c)
          end
      | None =>
          match s with
          | x :: s' => x :: replaceAllFrom fu icase r f (x :: b) s'
          | [] => []
          end
      end
  end.

Definition replaceAll (icase : bool) (r : regex) (f : cursor -> jsstring)
    (s : jsstring) : jsstring :=
  replaceAllFrom (S (length s)) icase r f [] s.

(** [s.split(r)]: [piece] is the text since the last separator, nearest
    first.  A separator that matches the empty string at the start of a
    piece is skipped; elsewhere it ends the piece. *)
Fixpoint splitFrom (fuel : nat) (icase : bool) (r : regex)
    (b piece s : jsstring) : list jsstring :=
  match fuel with
  | O => [rev piece ++ s]
  | S f =>
      match s with
      | [] => [rev piece]
      | x :: s' =>
          match matchAt icase r b s with
          | Some c =>
              if advances (mkCursor b s []) c
              then rev piece :: splitFrom f icase r (before c) [] (rest c)
              else
                match piece with
                | [] => splitFrom f icase r (x :: b) [x] s'
                | _ :: _ => rev piece :: splitFrom f icase r b [] s
                end
          | None => splitFrom f icase r (x :: b) (x :: piece) s'
          end
      end
  end.

Definition split (icase : bool) (r : regex) (s : jsstring) : list jsstring :=
  match s with
  | [] => match matchAt icase r [] [] with Some _ => [] | None => [[]] end
  | _ => splitFrom (S (2 * length s)) icase r [] [] s
  end.

End JS.

Import JS.

Local Open Scope Z_scope.

(** [a.slice(-n)] *)
Definition lastn {A : Type} (n : nat) (l : list A) : list A :=
  skipn (length l - n) l.

(** The size of [new Set(l)] for strings. *)
Definition distinctCount (l : list jsstring) : Z :=
  Z.of_nat (length (nodup (list_eq_dec N.eq_dec) l)).

(** [Math.round(ms / 1000)] for a millisecond count. *)
Definition roundSeconds (ms : Z) : Z := (ms + 500) / 1000.

(** [keywords.some(keyword => text.toLowerCase().includes(keyword))] *)
Definition someIncluded (keywords : list jsstring) (text : jsstring) : bool :=
  existsb (fun keyword => includes keyword (toLowerCase text)) keywords.

(* ===================================================================== *)
(** ** TandemProcessor (tandem-processor.js) *)
(* ===================================================================== *)

Module Tandem.

(** A capture entry as the content script sends it; [capturedAt] is
    [new Date(entry.capturedAt).getTime()]. *)
Record CaptureEntry : Type := {
  timestamp : jsstring;
  diff : jsstring;
  fullText : jsstring;
  url : jsstring;
  capturedAt : Z
}.

(** [{...captureEntry, receivedAt: now}] *)
Record RawEntry : Type := {
  entry : CaptureEntry;
  receivedAt : Z
}.

Record Batch : Type := {
  batchId : jsstring;
  batch_timestamp : Z;
  structuredText : jsstring;
  rawEntryCount : Z;
  timespan : Z
}.

Record Processor : Type := {
  rawCaptureData : list RawEntry;
  structuredBatches : list Batch;
  lastProcessTime : Z;
  lastActivityTime : Z;
  isProcessing : bool
}.

Definition minWaitTime : Z := 15000.
Definition maxWaitTime : Z := 45000.
Definition typingPauseThreshold : Z := 5000.
Definition thoughtCompleteThreshold : Z := 10000.

(** The constructor. *)
Definition new : Processor :=
  {| rawCaptureData := []; structuredBatches := []; lastProcessTime := 0;
     lastActivityTime := 0; isProcessing := false |}.

Definition addCaptureData (p : Processor) (captureEntry : CaptureEntry) (now : Z)
  : Processor :=
  let pushed := rawCaptureData p ++ [{| entry := captureEntry; receivedAt := now |}] in
  let twoMinutesAgo := now - 2 * 60 * 1000 in
  {| rawCaptureData := filter (fun e => receivedAt e >? twoMinutesAgo) pushed;
     structuredBatches := structuredBatches p;
     lastProcessTime := lastProcessTime p;
     lastActivityTime := now;
     isProcessing := isProcessing p |}.

Definition completionIndicators : list jsstring :=
  map js ["done"; "finished"; "complete"; "solved"; "got it"; "understand now";
          "that works"; "perfect"; "success"; "correct"]%string.

Definition detectNaturalBreak (p : Processor) : bool :=
  if (length (rawCaptureData p) <? 3)%nat then false
  else
    let recentEntries := lastn 5 (rawCaptureData p) in
    let completed :=
      match last (map Some recentEntries) None with
      | Some lastEntry =>
          truthy (diff (entry lastEntry)) &&
          someIncluded completionIndicators (diff (entry lastEntry))
      | None => false
      end in
    if completed then true
    else
      let urls := filter truthy (map (fun e => url (entry e)) recentEntries) in
      distinctCount urls >? 1.

Definition urgentKeywords : list jsstring :=
  map js ["error"; "stuck"; "help"; "confused"; "problem"; "issue";
          "broken"; "not working"; "failed"; "wrong"]%string.

Definition hasUrgentSignals (p : Processor) : bool :=
  let recentEntries := lastn 3 (rawCaptureData p) in
  let urgentCount :=
    fold_left
      (fun count e =>
         if truthy (diff (entry e)) && someIncluded urgentKeywords (diff (entry e))
         then count + 1 else count)
      recentEntries 0 in
  urgentCount >=? 2.

Inductive Reason : Type :=
| MaxWaitReached | ThoughtComplete | NaturalBreak | UrgentSignals.

(** [None] is the [false] the method returns. *)
Definition shouldProcessBatch (p : Processor) (now : Z) : option Reason :=
  let timeSinceLastProcess := now - lastProcessTime p in
  let timeSinceLastActivity := now - lastActivityTime p in
  if timeSinceLastActivity >=? maxWaitTime then Some MaxWaitReached
  else if timeSinceLastProcess <? minWaitTime then None
  else if timeSinceLastActivity >=? thoughtCompleteThreshold then Some ThoughtComplete
  else if detectNaturalBreak p then Some NaturalBreak
  else if hasUrgentSignals p then Some UrgentSignals
  else None.

(** *** The composer's content tests *)

(** The counter object of [isRepetitiveContent] is a plain object, so the
    two lower-case names it inherits from [Object.prototype] read as
    truthy non-numbers and turn [maxCount] into NaN. *)
Definition inheritedKey (word : jsstring) : bool :=
  eqb word (js "constructor") || eqb word (js "__proto__").

Definition lookupCount (word : jsstring) (wordCounts : list (jsstring * Z)) : Z :=
  match find (fun kv => eqb (fst kv) word) wordCounts with
  | Some kv => snd kv
  | None => 0
  end.

(** [maxCount > words.length * 0.3]; [None] is NaN.  On integers below
    2^50 the comparison with the double [n * 0.3] is [10 m > 3 n]. *)
Definition isRepetitiveContent (text : jsstring) : bool :=
  if negb (truthy text) || (length text <? 20)%nat then false
  else
    let words := split false (Plus Space) (toLowerCase text) in
    let counted :=
      fold_left
        (fun (acc : list (jsstring * Z) * option Z) word =>
           if (3 <? length word)%nat then
             if inheritedKey word then (fst acc, None)
             else
               let n := lookupCount word (fst acc) + 1 in
               ((word, n) :: fst acc, option_map (Z.max n) (snd acc))
           else acc)
        words ([], Some 0) in
    match snd counted with
    | Some maxCount => 10 * maxCount >? 3 * Z.of_nat (length words)
    | None => false
    end.

Definition errorKeywords : list jsstring :=
  map js ["error"; "problem"; "issue"; "stuck"; "failed"; "wrong"; "broken"]%string.

Definition containsErrorKeywords (text : jsstring) : bool :=
  truthy text && someIncluded errorKeywords text.

Definition confusionKeywords : list jsstring :=
  map js ["confused"; "dont understand"; "don't get"; "lost"; "help"; "unclear"]%string.

Definition containsConfusionKeywords (text : jsstring) : bool :=
  truthy text && someIncluded confusionKeywords text.

Definition searchKeywords : list jsstring :=
  map js ["search"; "find"; "looking for"; "query"; "google"; "stack overflow"]%string.

Definition isSearchActivity (text : jsstring) : bool :=
  truthy text && someIncluded searchKeywords text.

(** [/\b\d+\/\d+\b/] *)
Definition fractionPattern : regex :=
  Seq WordBoundary (Seq (Plus Digit) (Seq (Str (js "/")) (Seq (Plus Digit) WordBoundary))).

(** [/[=+\-*/()^√∫∑∏]/] *)
Definition mathSymbols : regex := Class (js "=+-*/()^√∫∑∏").

Definition mathKeywords : list jsstring :=
  map js ["probability"; "calculate"; "dice"; "roll"; "fraction"; "answer is";
          "equation"; "formula"; "solve"; "result"; "solution"; "theorem"]%string.

Definition isMathematicalContent (text : jsstring) : bool :=
  truthy text &&
  (someIncluded mathKeywords text || test false fractionPattern text
   || test false mathSymbols text).

Definition incorrectDiceAnswers : list jsstring :=
  map js ["1/89"; "1/90"; "1/88"; "2/89"]%string.

(** [/answer is 0\b/i], [/answer is 1\b/i], [/\b1\/89\b/], [/divide by 0/i];
    each pattern is listed with its [i] flag. *)
Definition suspiciousPatterns : list (bool * regex) :=
  [ (true, Seq (Str (js "answer is 0")) WordBoundary);
    (true, Seq (Str (js "answer is 1")) WordBoundary);
    (false, Seq WordBoundary (Seq (Str (js "1/89")) WordBoundary));
    (true, Str (js "divide by 0")) ].

Definition hasIncorrectMathAnswer (text : jsstring) : bool :=
  truthy text &&
  (existsb (fun answer => includes answer text) incorrectDiceAnswers
   || existsb (fun pattern => test (fst pattern) (snd pattern) text) suspiciousPatterns).

(** [/\[DELETED:\s*([^\]]+)\]/g] *)
Definition deletePattern : regex :=
  Seq (Str (js "[DELETED:"))
    (Seq (Star Space) (Seq (Group 1 (Plus (NotClass (js "]")))) (Str (js "]")))).

(** [/\[CHANGED:\s*"([^"]+)"\s*→\s*"([^"]+)"\]/g] *)
Definition changePattern : regex :=
  Seq (Str (js "[CHANGED:"))
    (Seq (Star Space)
       (Seq (Str dq)
          (Seq (Group 1 (Plus (NotClass dq)))
             (Seq (Str dq)
                (Seq (Star Space)
                   (Seq (Str (js "→"))
                      (Seq (Star Space)
                         (Seq (Str dq)
                            (Seq (Group 2 (Plus (NotClass dq)))
                               (Str (dq ++ js "]"))))))))))).

Definition captured (i : nat) (c : cursor) : jsstring :=
  match group i c with Some s => s | None => [] end.

Definition wrap (tag : string) (processed : jsstring) : jsstring :=
  js "<" ++ js tag ++ js ">" ++ processed ++ js "</" ++ js tag ++ js ">".

Definition processDiff (diff fullText : jsstring) : jsstring :=
  if negb (truthy diff) then []
  else
    let processed := diff in
    let processed :=
      replaceAll false deletePattern
        (fun m => js "<deleted>" ++ captured 1 m ++ js "</deleted>") processed in
    let processed :=
      replaceAll false changePattern
        (fun m => js "<changed from=" ++ dq ++ captured 1 m ++ dq ++ js " to=" ++ dq
                  ++ captured 2 m ++ dq ++ js " />") processed in
    let processed :=
      if isRepetitiveContent processed then wrap "repetitive" processed else processed in
    let processed :=
      if containsErrorKeywords processed then wrap "error_signal" processed else processed in
    let processed :=
      if containsConfusionKeywords processed then wrap "confusion_signal" processed
      else processed in
    let processed :=
      if isSearchActivity processed then wrap "search_activity" processed else processed in
    let processed :=
      if isMathematicalContent processed then wrap "mathematical_content" processed
      else processed in
    let processed :=
      if hasIncorrectMathAnswer processed then wrap "incorrect_answer_signal" processed
      else processed in
    processed.

(** The diff after the two marker replacements of [processDiff], before
    any content tag. *)
Definition normalizeMarkers (diff : jsstring) : jsstring :=
  replaceAll false changePattern
    (fun m => js "<changed from=" ++ dq ++ captured 1 m ++ dq ++ js " to=" ++ dq
              ++ captured 2 m ++ dq ++ js " />")
    (replaceAll false deletePattern
       (fun m => js "<deleted>" ++ captured 1 m ++ js "</deleted>") diff).

Definition calculateTimespan (batchData : list RawEntry) : Z :=
  if (length batchData <? 2)%nat then 0
  else
    let times := map (fun e => capturedAt (entry e)) batchData in
    let minTime := fold_right Z.min (hd 0 times) times in
    let maxTime := fold_right Z.max (hd 0 times) times in
    maxTime - minTime.

Definition analyzeBehaviorPatterns (batchData : list RawEntry) : jsstring :=
  let behaviorTags : jsstring := [] in
  let urls := distinctCount (filter truthy (map (fun e => url (entry e)) batchData)) in
  let behaviorTags :=
    if urls >? 3
    then behaviorTags ++ js "<behavior type=" ++ dq ++ js "context_switching" ++ dq
         ++ js " count=" ++ dq ++ decimal urls ++ dq ++ js " />" ++ [10%N]
    else behaviorTags in
  let rapidChanges :=
    filter (fun e => truthy (diff (entry e)) && (length (diff (entry e)) <? 50)%nat)
      batchData in
  let behaviorTags :=
    if Z.of_nat (length rapidChanges) >? 5
    then behaviorTags ++ js "<behavior type=" ++ dq ++ js "rapid_changes" ++ dq
         ++ js " count=" ++ dq ++ decimal (Z.of_nat (length rapidChanges)) ++ dq
         ++ js " />" ++ [10%N]
    else behaviorTags in
  let timespan := calculateTimespan batchData in
  let behaviorTags :=
    if timespan >? 60000
    then behaviorTags ++ js "<behavior type=" ++ dq ++ js "prolonged_focus" ++ dq
         ++ js " duration=" ++ dq ++ decimal (roundSeconds timespan) ++ js "s" ++ dq
         ++ js " />" ++ [10%N]
    else behaviorTags in
  let errorCount :=
    Z.of_nat (length (filter (fun e => containsErrorKeywords (diff (entry e))) batchData)) in
  let behaviorTags :=
    if errorCount >? 2
    then behaviorTags ++ js "<behavior type=" ++ dq ++ js "frequent_errors" ++ dq
         ++ js " count=" ++ dq ++ decimal errorCount ++ dq ++ js " />" ++ [10%N]
    else behaviorTags in
  behaviorTags.

(** [Array.prototype.sort] with the comparator on [capturedAt]: a stable
    sort, here by insertion. *)
Fixpoint insertByTime (e : RawEntry) (sorted : list RawEntry) : list RawEntry :=
  match sorted with
  | [] => [e]
  | x :: rest =>
      if capturedAt (entry e) <=? capturedAt (entry x) then e :: sorted
      else x :: insertByTime e rest
  end.

Definition sortByTime (batchData : list RawEntry) : list RawEntry :=
  fold_right insertByTime [] batchData.

Section Composer.

(** [new URL(url)] of the platform: the host name and the path of a URL
    that parses, [None] when the constructor throws. *)
Variable parseURL : jsstring -> option (jsstring * jsstring).

Definition sanitizeUrl (url : jsstring) : jsstring :=
  match parseURL url with
  | Some (hostname, pathname) => hostname ++ pathname
  | None => substring0 50 url
  end.

(** One turn of the loop over the sorted entries: the text so far and
    [lastTimestamp] ([None] is its initial [null]). *)
Definition composeEntry (acc : jsstring * option Z) (e : RawEntry) : jsstring * option Z :=
  let structuredText := fst acc in
  let currentTime := capturedAt (entry e) in
  let structuredText :=
    match snd acc with
    | Some lastTimestamp =>
        if negb (lastTimestamp =? 0) && (currentTime - lastTimestamp >? 5000)
        then structuredText ++ js "<delay time=" ++ dq
             ++ decimal (roundSeconds (currentTime - lastTimestamp)) ++ js "s" ++ dq
             ++ js " />" ++ [10%N]
        else structuredText
    | None => structuredText
    end in
  let processedDiff := processDiff (diff (entry e)) (fullText (entry e)) in
  let structuredText :=
    if truthy (trim processedDiff)
    then structuredText ++ js "<change timestamp=" ++ dq ++ timestamp (entry e) ++ dq
         ++ js ">" ++ [10%N] ++ processedDiff ++ [10%N] ++ js "</change>" ++ [10%N]
    else structuredText in
  (structuredText, Some currentTime).

(** [now] is the [Date.now()] of the opening tag. *)
Definition createStructuredBatch (batchData : list RawEntry) (now : Z) : jsstring :=
  let structuredText :=
    js "<batch timestamp=" ++ dq ++ decimal now ++ dq ++ js " entries=" ++ dq
    ++ decimal (Z.of_nat (length batchData)) ++ dq ++ js ">" ++ [10%N] in
  let sortedData := sortByTime batchData in
  let structuredText := fst (fold_left composeEntry sortedData (structuredText, None)) in
  let structuredText :=
    match last (map Some sortedData) None with
    | Some lastEntry =>
        if truthy (url (entry lastEntry))
        then structuredText ++ js "<context url=" ++ dq
             ++ sanitizeUrl (url (entry lastEntry)) ++ dq ++ js " />" ++ [10%N]
        else structuredText
    | None => structuredText
    end in
  let structuredText := structuredText ++ analyzeBehaviorPatterns sortedData in
  structuredText ++ js "</batch>".

(** The entries a seal takes from the buffer. *)
Definition batchData (p : Processor) : list RawEntry :=
  filter (fun e => receivedAt e >? lastProcessTime p) (rawCaptureData p).

(** [now] is read by [processBatch], [nowText] by [createStructuredBatch].
    With string fields in every entry nothing inside the [try] throws. *)
Definition processBatch (p : Processor) (now nowText : Z) : Processor * option Batch :=
  let data := batchData p in
  match data with
  | [] =>
      ({| rawCaptureData := rawCaptureData p; structuredBatches := structuredBatches p;
          lastProcessTime := lastProcessTime p; lastActivityTime := lastActivityTime p;
          isProcessing := false |}, None)
  | _ :: _ =>
      let structuredBatch := createStructuredBatch data nowText in
      let b := {| batchId := js "batch_" ++ decimal now;
                  batch_timestamp := now;
                  structuredText := structuredBatch;
                  rawEntryCount := Z.of_nat (length data);
                  timespan := calculateTimespan (sortByTime data) |} in
      let batches := structuredBatches p ++ [b] in
      let batches := if (10 <? length batches)%nat then lastn 10 batches else batches in
      ({| rawCaptureData := rawCaptureData p; structuredBatches := batches;
          lastProcessTime := now; lastActivityTime := lastActivityTime p;
          isProcessing := false |},
       last (map Some batches) None)
  end.

(** The batch a seal pushes, given the two clock readings. *)
Definition sealed (p : Processor) (now nowText : Z) : Batch :=
  {| batchId := js "batch_" ++ decimal now;
     batch_timestamp := now;
     structuredText := createStructuredBatch (batchData p) nowText;
     rawEntryCount := Z.of_nat (length (batchData p));
     timespan := calculateTimespan (sortByTime (batchData p)) |}.

(** One firing of the 5-second interval timer. *)
Definition pollTick (p : Processor) (nowCheck now nowText : Z) : Processor * option Batch :=
  if negb (isProcessing p) && (0 <? length (rawCaptureData p))%nat then
    match shouldProcessBatch p nowCheck with
    | Some _ => processBatch p now nowText
    | None => (p, None)
    end
  else (p, None).

Definition withLastProcessTime (p : Processor) (t : Z) : Processor :=
  {| rawCaptureData := rawCaptureData p; structuredBatches := structuredBatches p;
     lastProcessTime := t; lastActivityTime := lastActivityTime p;
     isProcessing := isProcessing p |}.

Definition forceProcessBatch (p : Processor) (now nowText : Z) : Processor * option Batch :=
  match rawCaptureData p with
  | [] => (p, None)
  | _ :: _ =>
      let originalLastProcessTime := lastProcessTime p in
      let p := withLastProcessTime p 0 in
      let (p, batch) := processBatch p now nowText in
      let p := withLastProcessTime p originalLastProcessTime in
      (p, batch)
  end.

Definition reset (p : Processor) : Processor :=
  {| rawCaptureData := []; structuredBatches := []; lastProcessTime := 0;
     lastActivityTime := lastActivityTime p; isProcessing := false |}.

(** [getLatestStructuredBatch()]; [None] is [undefined]. *)
Definition getLatestStructuredBatch (p : Processor) : option Batch :=
  last (map Some (structuredBatches p)) None.


(** *** Runs of the processor

    The processor is driven by three kinds of events: a capture message
    from the content script, a firing of the interval timer, and a manual
    trigger from the sidebar. *)

Inductive Event : Type :=
| Capture (captureEntry : CaptureEntry) (now : Z)
| Tick (nowCheck now nowText : Z)
| Manual (now nowText : Z).

Definition step (p : Processor) (ev : Event) : Processor * option Batch :=
  match ev with
  | Capture captureEntry now => (addCaptureData p captureEntry now, None)
  | Tick nowCheck now nowText => pollTick p nowCheck now nowText
  | Manual now nowText => forceProcessBatch p now nowText
  end.

Definition run (p : Processor) (evs : list Event) : Processor :=
  fold_left (fun p ev => fst (step p ev)) evs p.

(** The timer fired and sealed a batch. *)
Definition schedulerSeals (p : Processor) (ev : Event) : bool :=
  match ev with
  | Tick _ _ _ => match snd (step p ev) with Some _ => true | None => false end
  | _ => false
  end.

(** No event of the run is a seal by the scheduler. *)
Fixpoint quiet (p : Processor) (evs : list Event) : bool :=
  match evs with
  | [] => true
  | ev :: evs' => negb (schedulerSeals p ev) && quiet (fst (step p ev)) evs'
  end.

End Composer.

(** Every entry a run has received, in order of receipt. *)
Definition received (evs : list Event) : list RawEntry :=
  flat_map
    (fun ev =>
       match ev with
       | Capture captureEntry now => [{| entry := captureEntry; receivedAt := now |}]
       | _ => []
       end) evs.



End Tandem.

(* ===================================================================== *)
(** ** PrismaNudgeSystem (prisma-nudge-system.js) *)
(* ===================================================================== *)

Module Nudge.

Record Patterns : Type := {
  hasErrors : bool;
  hasConfusion : bool;
  hasRepetition : bool;
  hasLongDelays : bool;
  hasContextSwitching : bool;
  hasFrequentErrors : bool;
  hasProlongedFocus : bool;
  hasMathematicalContent : bool;
  hasPotentialIncorrectAnswer : bool;
  hasCompletionSignals : bool;
  hasSuccessIndicators : bool
}.

Inductive Urgency : Type := low | medium | high.

Record Analysis : Type := {
  concerningSignals : Z;
  signalTypes : list jsstring;
  urgency : Urgency;
  patterns : Patterns
}.

Inductive PatternName : Type :=
| Errors | Confusion | Repetition | LongDelays | ContextSwitching | FrequentErrors
| ProlongedFocus | MathematicalContent | PotentialIncorrectAnswer
| CompletionSignals | SuccessIndicators.

(** [analysis.patterns.<name> = true] *)
Definition setPattern (name : PatternName) (a : Analysis) : Analysis :=
  let p := patterns a in
  let flag (n : PatternName) (old : bool) : bool :=
    match name, n with
    | Errors, Errors | Confusion, Confusion | Repetition, Repetition
    | LongDelays, LongDelays | ContextSwitching, ContextSwitching
    | FrequentErrors, FrequentErrors | ProlongedFocus, ProlongedFocus
    | MathematicalContent, MathematicalContent
    | PotentialIncorrectAnswer, PotentialIncorrectAnswer
    | CompletionSignals, CompletionSignals
    | SuccessIndicators, SuccessIndicators => true
    | _, _ => old
    end in
  {| concerningSignals := concerningSignals a;
     signalTypes := signalTypes a;
     urgency := urgency a;
     patterns :=
       {| hasErrors := flag Errors (hasErrors p);
          hasConfusion := flag Confusion (hasConfusion p);
          hasRepetition := flag Repetition (hasRepetition p);
          hasLongDelays := flag LongDelays (hasLongDelays p);
          hasContextSwitching := flag ContextSwitching (hasContextSwitching p);
          hasFrequentErrors := flag FrequentErrors (hasFrequentErrors p);
          hasProlongedFocus := flag ProlongedFocus (hasProlongedFocus p);
          hasMathematicalContent := flag MathematicalContent (hasMathematicalContent p);
          hasPotentialIncorrectAnswer :=
            flag PotentialIncorrectAnswer (hasPotentialIncorrectAnswer p);
          hasCompletionSignals := flag CompletionSignals (hasCompletionSignals p);
          hasSuccessIndicators := flag SuccessIndicators (hasSuccessIndicators p) |} |}.

(** [analysis.concerningSignals += delta] *)
Definition addSignals (delta : Z) (a : Analysis) : Analysis :=
  {| concerningSignals := concerningSignals a + delta;
     signalTypes := signalTypes a; urgency := urgency a; patterns := patterns a |}.

(** [analysis.signalTypes.push(type)] *)
Definition pushType (type : string) (a : Analysis) : Analysis :=
  {| concerningSignals := concerningSignals a;
     signalTypes := signalTypes a ++ [js type];
     urgency := urgency a; patterns := patterns a |}.

Definition setUrgency (u : Urgency) (a : Analysis) : Analysis :=
  {| concerningSignals := concerningSignals a; signalTypes := signalTypes a;
     urgency := u; patterns := patterns a |}.

Definition emptyAnalysis : Analysis :=
  {| concerningSignals := 0; signalTypes := []; urgency := low;
     patterns :=
       {| hasErrors := false; hasConfusion := false; hasRepetition := false;
          hasLongDelays := false; hasContextSwitching := false;
          hasFrequentErrors := false; hasProlongedFocus := false;
          hasMathematicalContent := false; hasPotentialIncorrectAnswer := false;
          hasCompletionSignals := false; hasSuccessIndicators := false |} |}.

(** *** detectMathematicalContent *)

Record MathPatterns : Type := {
  hasMathContent : bool;
  hasIncorrectAnswer : bool;
  mathType : option jsstring
}.

Definition mathKeywords : list jsstring :=
  map js ["probability"; "calculate"; "dice"; "roll"; "fraction"; "answer is";
          "equation"; "formula"; "solve"; "result"; "solution"; "theorem";
          "proof"; "derivative"; "integral"; "matrix"; "vector"; "function"]%string.

(** [/\b\d+\/\d+\b/g] *)
Definition fractionPattern : regex :=
  Seq WordBoundary (Seq (Plus Digit) (Seq (Str (js "/")) (Seq (Plus Digit) WordBoundary))).

(** [/[=+\-*/()^√∫∑∏]/g] *)
Definition mathExpressions : regex := Class (js "=+-*/()^√∫∑∏").

Definition suspiciousFractions : list jsstring :=
  map js ["1/89"; "1/90"; "1/88"; "2/89"]%string.

(** [/answer is 0\b/i], [/answer is 1\b/i], [/\b1\/89\b/], [/divide by 0/i],
    [/infinity/i]; each pattern is listed with its [i] flag. *)
Definition errorPatterns : list (bool * regex) :=
  [ (true, Seq (Str (js "answer is 0")) WordBoundary);
    (true, Seq (Str (js "answer is 1")) WordBoundary);
    (false, Seq WordBoundary (Seq (Str (js "1/89")) WordBoundary));
    (true, Str (js "divide by 0"));
    (true, Str (js "infinity")) ].

Definition detectMathematicalContent (structuredText : jsstring) : MathPatterns :=
  let hasMathKeywords := someIncluded mathKeywords structuredText in
  let fractions := matchAll false fractionPattern structuredText in
  let hasMathSymbols := test false mathExpressions structuredText in
  if hasMathKeywords || (0 <? length fractions)%nat || hasMathSymbols then
    let isDice :=
      includes (js "dice") (toLowerCase structuredText)
      || includes (js "roll") (toLowerCase structuredText) in
    let hasIncorrectDiceAnswer :=
      existsb (fun fraction => includes fraction structuredText) suspiciousFractions in
    let hasErrorPattern :=
      existsb (fun pattern => test (fst pattern) (snd pattern) structuredText)
        errorPatterns in
    {| hasMathContent := true;
       hasIncorrectAnswer := (isDice && hasIncorrectDiceAnswer) || hasErrorPattern;
       mathType := if isDice then Some (js "probability") else None |}
  else
    {| hasMathContent := false; hasIncorrectAnswer := false; mathType := None |}.

(** *** analyzeStructuredText *)

(** [/<delay time="(\d+)s"/g] *)
Definition delayPattern : regex :=
  Seq (Str (js "<delay time=" ++ dq)) (Seq (Group 1 (Plus Digit)) (Str (js "s" ++ dq))).

(** [/(\d+)s/] *)
Definition secondsPattern : regex := Seq (Group 1 (Plus Digit)) (Str (js "s")).

(** [/duration="(\d+)s"/] *)
Definition durationPattern : regex :=
  Seq (Str (js "duration=" ++ dq)) (Seq (Group 1 (Plus Digit)) (Str (js "s" ++ dq))).

(** [parseInt(m.match(r)[1])]; a text with no match has no seconds. *)
Definition capturedSeconds (r : regex) (m : jsstring) : option Z :=
  match matchFirst false r m with
  | Some c => option_map parseDigits (group 1 c)
  | None => None
  end.

Definition exceeds (bound : Z) (seconds : option Z) : bool :=
  match seconds with Some n => n >? bound | None => false end.

Definition longDelays (structuredText : jsstring) : list jsstring :=
  filter (fun m => exceeds 30 (capturedSeconds secondsPattern m))
    (matchAll false delayPattern structuredText).

Definition completionKeywords : list jsstring :=
  map js ["done"; "finished"; "complete"; "solved"; "got it"; "understand now";
          "that works"; "perfect"; "success"; "correct"; "right answer";
          "final answer"; "solution is"; "answer is"; "result is"; "equals"; "="]%string.

(** [/\b15\/36\b/], [/\b5\/12\b/], [/answer.*15/], [/answer.*36/],
    [/15.*out.*36/], [/probability.*15/], [/probability.*5\/12/] *)
Definition mathCompletionPatterns : list regex :=
  [ Seq WordBoundary (Seq (Str (js "15/36")) WordBoundary);
    Seq WordBoundary (Seq (Str (js "5/12")) WordBoundary);
    Seq (Str (js "answer")) (Seq (Star Dot) (Str (js "15")));
    Seq (Str (js "answer")) (Seq (Star Dot) (Str (js "36")));
    Seq (Str (js "15")) (Seq (Star Dot) (Seq (Str (js "out")) (Seq (Star Dot) (Str (js "36")))));
    Seq (Str (js "probability")) (Seq (Star Dot) (Str (js "15")));
    Seq (Str (js "probability")) (Seq (Star Dot) (Str (js "5/12"))) ].

(** [if (c) { ... }] over the analysis under construction. *)
Definition when (c : bool) (update : Analysis -> Analysis) (a : Analysis) : Analysis :=
  if c then update a else a.

Definition analyzeStructuredText (structuredText : jsstring) : Analysis :=
  let analysis := emptyAnalysis in
  let analysis :=
    when (includes (js "<error_signal>") structuredText)
      (fun a => setPattern Errors (pushType "errors" (addSignals 1 a))) analysis in
  let analysis :=
    when (includes (js "<confusion_signal>") structuredText)
      (fun a => setPattern Confusion (pushType "confusion" (addSignals 2 a))) analysis in
  let analysis :=
    when (includes (js "<repetitive>") structuredText)
      (fun a => setPattern Repetition (pushType "repetition" (addSignals 1 a))) analysis in
  let analysis :=
    when (0 <? length (longDelays structuredText))%nat
      (fun a => setPattern LongDelays (pushType "long_delays" (addSignals 1 a))) analysis in
  let analysis :=
    when (includes (js "type=" ++ dq ++ js "context_switching" ++ dq) structuredText)
      (fun a => setPattern ContextSwitching (pushType "context_switching" (addSignals 1 a)))
      analysis in
  let analysis :=
    when (includes (js "type=" ++ dq ++ js "frequent_errors" ++ dq) structuredText)
      (fun a => setPattern FrequentErrors (pushType "frequent_errors" (addSignals 2 a)))
      analysis in
  let analysis :=
    when (includes (js "type=" ++ dq ++ js "prolonged_focus" ++ dq) structuredText
          && exceeds 300 (capturedSeconds durationPattern structuredText))
      (fun a => setPattern ProlongedFocus (pushType "prolonged_focus" (addSignals 1 a)))
      analysis in
  let mathPatterns := detectMathematicalContent structuredText in
  let analysis :=
    when (hasMathContent mathPatterns)
      (fun a =>
         when (hasIncorrectAnswer mathPatterns)
           (fun a => setPattern PotentialIncorrectAnswer
                       (pushType "incorrect_math" (addSignals 2 a)))
           (setPattern MathematicalContent a))
      analysis in
  let analysis :=
    when (includes (js "<incorrect_answer_signal>") structuredText)
      (fun a => setPattern PotentialIncorrectAnswer
                  (pushType "incorrect_answer" (addSignals 3 a))) analysis in
  let hasCompletionWords := someIncluded completionKeywords structuredText in
  let analysis :=
    when hasCompletionWords
      (fun a => pushType "completion" (setPattern CompletionSignals a)) analysis in
  let hasCorrectMathAnswer :=
    existsb (fun pattern => test false pattern (toLowerCase structuredText))
      mathCompletionPatterns in
  let analysis :=
    when (hasMathematicalContent (patterns analysis) && hasCorrectMathAnswer)
      (fun a => pushType "correct_answer" (setPattern SuccessIndicators a)) analysis in
  if concerningSignals analysis >=? 6 then setUrgency high analysis
  else if concerningSignals analysis >=? 3 then setUrgency medium analysis
  else analysis.

(** *** The scoring table as the specification lists it

    One condition per row of the table, read off the text of the batch,
    and the score as the sum of the weights of the rows that hold. *)

Definition rowErrorTag (t : jsstring) : bool := includes (js "<error_signal>") t.
Definition rowConfusionTag (t : jsstring) : bool := includes (js "<confusion_signal>") t.
Definition rowRepetitionTag (t : jsstring) : bool := includes (js "<repetitive>") t.
Definition rowLongDelay (t : jsstring) : bool := (0 <? length (longDelays t))%nat.
Definition rowContextSwitching (t : jsstring) : bool :=
  includes (js "type=" ++ dq ++ js "context_switching" ++ dq) t.
Definition rowFrequentErrors (t : jsstring) : bool :=
  includes (js "type=" ++ dq ++ js "frequent_errors" ++ dq) t.
Definition rowProlongedFocus (t : jsstring) : bool :=
  includes (js "type=" ++ dq ++ js "prolonged_focus" ++ dq) t
  && exceeds 300 (capturedSeconds durationPattern t).
Definition rowIncorrectMath (t : jsstring) : bool :=
  hasMathContent (detectMathematicalContent t)
  && hasIncorrectAnswer (detectMathematicalContent t).
Definition rowIncorrectTag (t : jsstring) : bool :=
  includes (js "<incorrect_answer_signal>") t.

Definition weight (c : bool) (w : Z) : Z := if c then w else 0.

Definition scoreTable (t : jsstring) : Z :=
  weight (rowErrorTag t) 1
  + weight (rowConfusionTag t) 2
  + weight (rowRepetitionTag t) 1
  + weight (rowLongDelay t) 1
  + weight (rowContextSwitching t) 1
  + weight (rowFrequentErrors t) 2
  + weight (rowProlongedFocus t) 1
  + weight (rowIncorrectMath t) 2
  + weight (rowIncorrectTag t) 3.

(** [analysis.patterns.<name>] *)
Definition getPattern (name : PatternName) (p : Patterns) : bool :=
  match name with
  | Errors => hasErrors p
  | Confusion => hasConfusion p
  | Repetition => hasRepetition p
  | LongDelays => hasLongDelays p
  | ContextSwitching => hasContextSwitching p
  | FrequentErrors => hasFrequentErrors p
  | ProlongedFocus => hasProlongedFocus p
  | MathematicalContent => hasMathematicalContent p
  | PotentialIncorrectAnswer => hasPotentialIncorrectAnswer p
  | CompletionSignals => hasCompletionSignals p
  | SuccessIndicators => hasSuccessIndicators p
  end.

Definition sameName (n m : PatternName) : bool :=
  match n, m with
  | Errors, Errors | Confusion, Confusion | Repetition, Repetition
  | LongDelays, LongDelays | ContextSwitching, ContextSwitching
  | FrequentErrors, FrequentErrors | ProlongedFocus, ProlongedFocus
  | MathematicalContent, MathematicalContent
  | PotentialIncorrectAnswer, PotentialIncorrectAnswer
  | CompletionSignals, CompletionSignals
  | SuccessIndicators, SuccessIndicators => true
  | _, _ => false
  end.

(** *** The escalation engine *)

Record Nudge : Type := {
  id : jsstring;
  nudge_timestamp : Z;
  level : Z;
  text : jsstring;
  analysis : Analysis;
  batchId : jsstring;
  manualTrigger : bool;
  forced : bool
}.

Record System : Type := {
  nudgeHistory : list Nudge;
  interferenceLevel : Z;
  lastNudgeTime : Z
}.

(** The constructor. *)
Definition new : System :=
  {| nudgeHistory := []; interferenceLevel := 0; lastNudgeTime := 0 |}.

(** [this.nudgeCooldowns[level]]; a level that is no key reads [undefined]. *)
Definition nudgeCooldowns (level : Z) : option Z :=
  if level =? 0 then Some 10000
  else if level =? 1 then Some 15000
  else if level =? 2 then Some 20000
  else if level =? 3 then Some 30000
  else None.

Definition toLevel1 : Z := 2.
Definition toLevel2 : Z := 4.
Definition toLevel3 : Z := 6.

Definition withLevel (s : System) (l : Z) : System :=
  {| nudgeHistory := nudgeHistory s; interferenceLevel := l;
     lastNudgeTime := lastNudgeTime s |}.

Definition withLastNudgeTime (s : System) (t : Z) : System :=
  {| nudgeHistory := nudgeHistory s; interferenceLevel := interferenceLevel s;
     lastNudgeTime := t |}.

Definition updateInterferenceLevel (s : System) (a : Analysis) (now : Z) : System :=
  let hasSuccess := hasSuccessIndicators (patterns a) in
  if hasSuccess && (concerningSignals a =? 0) then
    withLevel s (Z.max 0 (interferenceLevel s - 1))
  else
    let s :=
      if concerningSignals a >=? toLevel3 then withLevel s (Z.max (interferenceLevel s) 3)
      else if concerningSignals a >=? toLevel2 then withLevel s (Z.max (interferenceLevel s) 2)
      else if concerningSignals a >=? toLevel1 then withLevel s (Z.max (interferenceLevel s) 1)
      else s in
    if (now - lastNudgeTime s >? 300000) && (concerningSignals a <? 2)
    then withLevel s (Z.max 0 (interferenceLevel s - 1))
    else s.

(** The cooldown [shouldNudge] compares the elapsed time with. *)
Definition cooldown (s : System) (a : Analysis) : Z :=
  let hasSuccess := hasSuccessIndicators (patterns a) in
  let hasProblems := concerningSignals a >? 0 in
  let hasMathContent := hasMathematicalContent (patterns a) in
  let cooldown :=
    if hasSuccess && negb hasProblems then 5000
    else match nudgeCooldowns (interferenceLevel s) with
         | Some c => c
         | None => 30000
         end in
  if hasMathContent && hasProblems then Z.min cooldown 8000 else cooldown.

Definition shouldNudge (s : System) (a : Analysis) (now : Z) : bool :=
  let hasSuccess := hasSuccessIndicators (patterns a) in
  let hasProblems := concerningSignals a >? 0 in
  let pastCooldown := now - lastNudgeTime s >? cooldown s a in
  (hasProblems || hasSuccess) && pastCooldown.

(** *** The dispatcher *)

(** What the request to the language model came back with: a failure
    (the request was rejected, the status was not ok, or the body has no
    [content[0].text]), or the text of the reply. *)
Inductive ApiReply : Type :=
| RequestFailed
| ReplyText (text : jsstring).

(** A call that may throw. *)
Inductive outcome (A : Type) : Type :=
| Threw
| Returned (a : A).
Arguments Threw {A}.
Arguments Returned {A} a.

Definition genericPhrases : list jsstring :=
  map js ["It's great that you're practicing"; "Keep up the consistent effort";
          "don't hesitate to reach out"; "That's a key part of the learning process";
          "You're doing well"; "Great job"; "Keep going"; "You've got this"]%string.

(** [callPrisma] after the round trip; [None] is the [null] of a reply
    that chose silence. *)
Definition callPrisma (s : System) (reply : ApiReply) : outcome (option jsstring) :=
  match reply with
  | RequestFailed => Threw
  | ReplyText t =>
      if negb (truthy t) then Threw
      else
        let responseText := trim t in
        if eqb (toUpperCase responseText) (js "SILENT") then Returned None
        else
          let isGeneric :=
            existsb (fun phrase => includes (toLowerCase phrase) (toLowerCase responseText))
              genericPhrases in
          if isGeneric then
            if interferenceLevel s >=? 3 then
              Returned (Some (js "Check the error message carefully - it usually tells you exactly what's wrong."))
            else if interferenceLevel s >=? 2 then
              Returned (Some (js "Try breaking the problem into smaller steps."))
            else
              Returned (Some (js "Take a step back and review what you're trying to accomplish."))
          else Returned (Some responseText)
  end.

(** [this.nudgeHistory.push(nudge); this.lastNudgeTime = now;] and the
    cut to the last 20. *)
Definition record (s : System) (nudge : Nudge) (now : Z) : System :=
  let history := nudgeHistory s ++ [nudge] in
  {| nudgeHistory := if (20 <? length history)%nat then lastn 20 history else history;
     interferenceLevel := interferenceLevel s;
     lastNudgeTime := now |}.

(** The prompt only reaches the model, whose reply is an input here. *)
Definition generateNudge (s : System) (structuredBatch : Tandem.Batch) (a : Analysis)
    (reply : ApiReply) (now : Z) : System * option Nudge :=
  match callPrisma s reply with
  | Threw => (s, None)
  | Returned nudgeText =>
      let cleanedText := trim (match nudgeText with Some t => t | None => [] end) in
      let emit (cleanedText : jsstring) :=
        let nudge :=
          {| id := js "nudge_" ++ decimal now;
             nudge_timestamp := now;
             level := interferenceLevel s;
             text := cleanedText;
             analysis := a;
             batchId := Tandem.batchId structuredBatch;
             manualTrigger := false;
             forced := false |} in
        (record s nudge now, Some nudge) in
      if negb (truthy cleanedText) then
        if concerningSignals a >? 0
        then emit (js "Take a closer look at your reasoning and try to identify any assumptions you may have missed.")
        else (s, None)
      else emit cleanedText
  end.

(** [nowUpdate], [nowCheck] and [now] are the clock readings of
    [updateInterferenceLevel], [shouldNudge] and [generateNudge]. *)
Definition analyzeAndNudge (s : System) (structuredBatch : option Tandem.Batch)
    (apiKey : jsstring) (reply : ApiReply) (nowUpdate nowCheck now : Z)
  : System * option Nudge :=
  match structuredBatch with
  | None => (s, None)
  | Some batch =>
      if negb (truthy apiKey) then (s, None)
      else
        let a := analyzeStructuredText (Tandem.structuredText batch) in
        let s := updateInterferenceLevel s a nowUpdate in
        if shouldNudge s a nowCheck then generateNudge s batch a reply now
        else (s, None)
  end.

Definition generateForcedNudge (s : System) (structuredBatch : Tandem.Batch) (a : Analysis)
    (reply : ApiReply) (now : Z) : System * option Nudge :=
  match callPrisma s reply with
  | Threw => (s, None)
  | Returned nudgeText =>
      let finalText :=
        match nudgeText with
        | Some t => if truthy t then t
                    else js "Keep doing what you're doing - you're on the right track!"
        | None => js "Keep doing what you're doing - you're on the right track!"
        end in
      let nudge :=
        {| id := js "forced_nudge_" ++ decimal now;
           nudge_timestamp := now;
           level := interferenceLevel s;
           text := finalText;
           analysis := a;
           batchId := Tandem.batchId structuredBatch;
           manualTrigger := false;
           forced := true |} in
      (record s nudge now, Some nudge)
  end.

Definition markManual (n : Nudge) : Nudge :=
  {| id := id n; nudge_timestamp := nudge_timestamp n; level := level n;
     text := text n; analysis := analysis n; batchId := batchId n;
     manualTrigger := true; forced := forced n |}.

(** The returned nudge is the object pushed on the history, so setting
    [manualTrigger] on it shows in the history too. *)
Definition markLast (history : list Nudge) : list Nudge :=
  match rev history with
  | n :: earlier => rev (markManual n :: earlier)
  | [] => []
  end.

Definition forceAnalyzeAndNudge (s : System) (structuredBatch : option Tandem.Batch)
    (apiKey : jsstring) (reply : ApiReply) (now : Z) : System * option Nudge :=
  match structuredBatch with
  | None => (s, None)
  | Some batch =>
      if negb (truthy apiKey) then (s, None)
      else
        let a := analyzeStructuredText (Tandem.structuredText batch) in
        let originalLastNudgeTime := lastNudgeTime s in
        let s := withLastNudgeTime s 0 in
        let s := if interferenceLevel s =? 0 then withLevel s 1 else s in
        let (s, nudge) := generateForcedNudge s batch a reply now in
        let s := withLastNudgeTime s originalLastNudgeTime in
        match nudge with
        | Some n =>
            ({| nudgeHistory := markLast (nudgeHistory s);
                interferenceLevel := interferenceLevel s;
                lastNudgeTime := lastNudgeTime s |}, Some (markManual n))
        | None => (s, None)
        end
  end.

Definition reset (s : System) : System :=
  {| nudgeHistory := []; interferenceLevel := 0; lastNudgeTime := 0 |}.

(** *** The prompt builder *)

(** The line feed. *)
Definition nl : jsstring := [10%N].

(** [a.join(sep)] *)
Fixpoint join (sep : jsstring) (a : list jsstring) : jsstring :=
  match a with
  | [] => []
  | [x] => x
  | x :: rest => x ++ sep ++ join sep rest
  end.

(** The urgency as the string the analysis holds. *)
Definition urgencyName (u : Urgency) : jsstring :=
  match u with low => js "low" | medium => js "medium" | high => js "high" end.

Definition successPrompt (structuredText : jsstring) (signalTypes : list jsstring)
  : jsstring :=
    js "You are Tandem DeepSeek, an AI study companion. The user just"
    ++ js " completed something successfully!"
    ++ nl
    ++ nl
    ++ js "Real-time learning data: "
    ++ structuredText
    ++ nl
    ++ nl
    ++ js "Detected success signals: "
    ++ join (js ", ") signalTypes
    ++ nl
    ++ nl
    ++ js "Give a brief congratulatory message (1 sentence). Examples:"
    ++ nl
    ++ js "- "
    ++ dq
    ++ js "Great job getting the right answer!"
    ++ dq
    ++ nl
    ++ js "- "
    ++ dq
    ++ js "Perfect! You solved it correctly."
    ++ dq
    ++ nl
    ++ js "- "
    ++ dq
    ++ js "Excellent work figuring that out!"
    ++ dq
    ++ nl
    ++ nl
    ++ js "Your congratulatory response:".

Definition regularPrompt (structuredText : jsstring) (signalTypes : list jsstring)
    (urgency : Urgency) : jsstring :=
    js "You are Tandem DeepSeek, an AI study companion that monitors"
    ++ js " real-time learning activity. Your job is to either give helpful"
    ++ js " hints when the user is struggling OR stay completely silent when"
    ++ js " they're doing fine."
    ++ nl
    ++ nl
    ++ js "CRITICAL RULES:"
    ++ nl
    ++ js "1. If the user is making progress or doing well, respond with"
    ++ js " exactly: "
    ++ dq
    ++ js "SILENT"
    ++ dq
    ++ js " (nothing else)"
    ++ nl
    ++ js "2. Only give hints when there are clear signs of struggle, confusion,"
    ++ js " or errors"
    ++ nl
    ++ js "3. When you do give hints, be specific and actionable, not generic"
    ++ js " encouragement"
    ++ nl
    ++ js "4. Focus on the actual content/problem they're working on"
    ++ nl
    ++ nl
    ++ js "Real-time learning data: "
    ++ structuredText
    ++ nl
    ++ nl
    ++ js "Detected concerning signals: "
    ++ join (js ", ") signalTypes
    ++ nl
    ++ js "Urgency level: "
    ++ urgencyName urgency
    ++ nl
    ++ nl.

Definition gentleNudgeBlock : jsstring :=
    js "Give a very brief nudge (1 short sentence max). Only hint at the"
    ++ js " direction, don't give solutions. Examples:"
    ++ nl
    ++ js "- "
    ++ dq
    ++ js "Check your syntax carefully."
    ++ dq
    ++ nl
    ++ js "- "
    ++ dq
    ++ js "Consider the sample space size."
    ++ dq
    ++ nl
    ++ js "- "
    ++ dq
    ++ js "Review your variable scope."
    ++ dq
    ++ nl
    ++ nl
    ++ js "Your response (very brief nudge only):".

Definition strongerHintBlock : jsstring :=
    js "Give a specific but brief hint (1-2 short sentences). Point toward"
    ++ js " the issue without solving it. Examples:"
    ++ nl
    ++ js "- "
    ++ dq
    ++ js "That error suggests a variable scope issue."
    ++ dq
    ++ nl
    ++ js "- "
    ++ dq
    ++ js "For probability problems, always count total outcomes first."
    ++ dq
    ++ nl
    ++ js "- "
    ++ dq
    ++ js "Check if your loop condition is correct."
    ++ dq
    ++ nl
    ++ nl
    ++ js "Your response (brief specific hint):".

Definition fullInterferenceBlock : jsstring :=
    js "They're stuck. Give a direct but brief suggestion (2 sentences max)."
    ++ js " Guide them without giving the full answer. Examples:"
    ++ nl
    ++ js "- "
    ++ dq
    ++ js "Your loop isn't incrementing. Add the counter update."
    ++ dq
    ++ nl
    ++ js "- "
    ++ dq
    ++ js "For dice probability: count all possible pairs first, then favorable"
    ++ js " ones."
    ++ dq
    ++ nl
    ++ js "- "
    ++ dq
    ++ js "That fraction looks wrong - there are only 36 total outcomes with two"
    ++ js " dice."
    ++ dq
    ++ nl
    ++ nl
    ++ js "Your response (brief direct guidance):".

Definition defaultBlock : jsstring :=
    js "Analyze the activity. If they're doing fine, respond "
    ++ dq
    ++ js "SILENT"
    ++ dq
    ++ js ". If they need help, give a very brief hint (1 sentence). Your"
    ++ js " response:".

Definition buildPrismaPrompt (s : System) (structuredBatch : Tandem.Batch) (a : Analysis)
  : jsstring :=
  let structuredText := Tandem.structuredText structuredBatch in
  let hasSuccess := hasSuccessIndicators (patterns a) in
  let hasProblems := concerningSignals a >? 0 in
  if hasSuccess && negb hasProblems then successPrompt structuredText (signalTypes a)
  else
    regularPrompt structuredText (signalTypes a) (urgency a)
    ++ (if interferenceLevel s =? 1 then gentleNudgeBlock
        else if interferenceLevel s =? 2 then strongerHintBlock
        else if interferenceLevel s =? 3 then fullInterferenceBlock
        else defaultBlock).

Definition buildForcedPrismaPrompt (structuredBatch : Tandem.Batch) (a : Analysis)
  : jsstring :=
  let structuredText := Tandem.structuredText structuredBatch in
  let signalTypes := signalTypes a in
  let urgency := urgency a in
    js "You are Tandem DeepSeek, an AI study companion. The user has MANUALLY"
    ++ js " requested your input, so you MUST provide a helpful response (you"
    ++ js " cannot stay silent)."
    ++ nl
    ++ nl
    ++ js "Real-time learning data: "
    ++ structuredText
    ++ nl
    ++ nl
    ++ js "Detected signals: "
    ++ join (js ", ") signalTypes
    ++ nl
    ++ js "Urgency level: "
    ++ urgencyName urgency
    ++ nl
    ++ nl
    ++ js "Since this is a manual request, you must either:"
    ++ nl
    ++ js "1. Give a specific hint if you see any areas for improvement"
    ++ nl
    ++ js "2. Give encouragement like "
    ++ dq
    ++ js "Keep doing what you're doing - you're on the right track!"
    ++ dq
    ++ js " if they're doing well"
    ++ nl
    ++ nl
    ++ js "Your response (you MUST respond, do not say SILENT):".


(** *** Runs of the nudge system *)

Inductive Op : Type :=
| Analyze (structuredBatch : option Tandem.Batch) (apiKey : jsstring) (reply : ApiReply)
          (nowUpdate nowCheck now : Z)
| Force (structuredBatch : option Tandem.Batch) (apiKey : jsstring) (reply : ApiReply)
        (now : Z)
| Reset.

Definition apply (s : System) (op : Op) : System * option Nudge :=
  match op with
  | Analyze b k r nowUpdate nowCheck now => analyzeAndNudge s b k r nowUpdate nowCheck now
  | Force b k r now => forceAnalyzeAndNudge s b k r now
  | Reset => (reset s, None)
  end.

Definition runOps (s : System) (ops : list Op) : System :=
  fold_left (fun s op => fst (apply s op)) ops s.

(** The level is one of 0, 1, 2, 3. *)
Definition inRange (s : System) : Prop := 0 <= interferenceLevel s <= 3.

(** *** The cooldown rule as the specification words it *)

Definition cooldownTable (level : Z) : Z :=
  if level =? 0 then 10000
  else if level =? 1 then 15000
  else if level =? 2 then 20000
  else 30000.

(** The level-indexed table value, replaced by a flat 5 seconds for
    success with no concerning signal, capped at 8 seconds for
    mathematical content with a concerning signal. *)
Definition applicableCooldown (level : Z) (a : Analysis) : Z :=
  let base :=
    if hasSuccessIndicators (patterns a) && (concerningSignals a =? 0) then 5000
    else cooldownTable level in
  if hasMathematicalContent (patterns a) && (concerningSignals a >? 0)
  then Z.min base 8000 else base.

End Nudge.

(* ===================================================================== *)
(** ** The content script (content.js) *)
(* ===================================================================== *)

Module Content.

(** The longest common prefix of two strings, and what follows it in
    each. *)
Fixpoint commonPrefix (a b : jsstring) : jsstring * (jsstring * jsstring) :=
  match a, b with
  | x :: a', y :: b' =>
      if (x =? y)%N then
        let r := commonPrefix a' b' in (x :: fst r, snd r)
      else ([], (a, b))
  | _, _ => ([], (a, b))
  end.

(** The template of a replacement, with the three characters the file
    holds between the two quoted parts. *)
Definition changed (removedPart addedPart : jsstring) : jsstring :=
  js "[CHANGED: " ++ dq ++ removedPart ++ dq ++ js " â†’ " ++ dq ++ addedPart ++ dq
  ++ js "]".

Definition deleted (removedPart : jsstring) : jsstring :=
  js "[DELETED: " ++ removedPart ++ js "]".

(** The two loops find the common prefix, then the common suffix of
    what is left of each text. *)
Definition calculateDiff (oldText newText : jsstring) : jsstring :=
  if eqb oldText newText then []
  else if negb (truthy oldText) then newText
  else if negb (truthy newText) then deleted oldText
  else
    let afterPrefix := snd (commonPrefix oldText newText) in
    let beforeSuffix := snd (commonPrefix (rev (fst afterPrefix)) (rev (snd afterPrefix))) in
    let removedPart := rev (fst beforeSuffix) in
    let addedPart := rev (snd beforeSuffix) in
    if truthy removedPart && truthy addedPart then changed removedPart addedPart
    else if truthy addedPart then addedPart
    else if truthy removedPart then deleted removedPart
    else [].

Record Capturer : Type := {
  captureData : list Tandem.CaptureEntry;
  virtualTimestamp : Z;
  lastCapturedText : jsstring
}.

(** [clearCaptureHistory()], also the initial values of the script. *)
Definition cleared : Capturer :=
  {| captureData := []; virtualTimestamp := 0; lastCapturedText := [] |}.

(** [n.toString().padStart(2, '0')] for a counter. *)
Definition padStart2 (n : Z) : jsstring :=
  if (length (decimal n) <? 2)%nat then js "0" ++ decimal n else decimal n.

(** One firing of the 2-second capture timer; [currentText] is what
    [getVisibleText()] returns, [url] the address of the page and
    [capturedAt] the clock.  The entry returned is the one recorded. *)
Definition captureVisibleTextPeriodically (c : Capturer) (currentText url : jsstring)
    (capturedAt : Z) : Capturer * option Tandem.CaptureEntry :=
  let diff := calculateDiff (lastCapturedText c) currentText in
  if truthy (trim diff) then
    let virtualTimestamp := virtualTimestamp c + 1 in
    let captureEntry :=
      {| Tandem.timestamp := padStart2 virtualTimestamp;
         Tandem.diff := diff;
         Tandem.fullText := currentText;
         Tandem.url := url;
         Tandem.capturedAt := capturedAt |} in
    ({| captureData := captureData c ++ [captureEntry];
        virtualTimestamp := virtualTimestamp;
        lastCapturedText := currentText |}, Some captureEntry)
  else (c, None).

End Content.

(* ===================================================================== *)
(** ** The background script (background.js) *)
(* ===================================================================== *)

Module Background.

(** The module-level variables of the script.  The key is the empty
    string while it is [null]; the set of analysed batch ids is the list
    of its members in insertion order. *)
Record State : Type := {
  captureDataStore : list Tandem.CaptureEntry;
  tandemProcessor : option Tandem.Processor;
  prismaNudgeSystem : option Nudge.System;
  storedApiKey : jsstring;
  analyzedBatches : list jsstring
}.

Definition initial : State :=
  {| captureDataStore := []; tandemProcessor := None; prismaNudgeSystem := None;
     storedApiKey := []; analyzedBatches := [] |}.

Definition initializeProcessors (st : State) : State :=
  {| captureDataStore := captureDataStore st;
     tandemProcessor := Some Tandem.new;
     prismaNudgeSystem := Some Nudge.new;
     storedApiKey := storedApiKey st;
     analyzedBatches := analyzedBatches st |}.

(** The [SET_API_KEY] message. *)
Definition setApiKey (st : State) (apiKey : jsstring) : State :=
  {| captureDataStore := captureDataStore st;
     tandemProcessor := tandemProcessor st;
     prismaNudgeSystem := prismaNudgeSystem st;
     storedApiKey := apiKey;
     analyzedBatches := analyzedBatches st |}.

Definition withProcessor (st : State) (p : option Tandem.Processor) : State :=
  {| captureDataStore := captureDataStore st;
     tandemProcessor := p;
     prismaNudgeSystem := prismaNudgeSystem st;
     storedApiKey := storedApiKey st;
     analyzedBatches := analyzedBatches st |}.

Definition withSystem (st : State) (s : option Nudge.System) : State :=
  {| captureDataStore := captureDataStore st;
     tandemProcessor := tandemProcessor st;
     prismaNudgeSystem := s;
     storedApiKey := storedApiKey st;
     analyzedBatches := analyzedBatches st |}.

(** The [CAPTURE_DATA] message; the fields the handler adds to the entry
    ([recordedAt], [tabId], [tabUrl]) are read nowhere. *)
Definition onCaptureData (st : State) (captureEntry : Tandem.CaptureEntry) (now : Z)
  : State :=
  let store := captureDataStore st ++ [captureEntry] in
  let store := if (1000 <? length store)%nat then lastn 1000 store else store in
  let st :=
    {| captureDataStore := store;
       tandemProcessor := tandemProcessor st;
       prismaNudgeSystem := prismaNudgeSystem st;
       storedApiKey := storedApiKey st;
       analyzedBatches := analyzedBatches st |} in
  let meaningful :=
    truthy (Tandem.diff captureEntry) && truthy (trim (Tandem.diff captureEntry)) in
  match tandemProcessor st with
  | Some p =>
      if meaningful
      then withProcessor st (Some (Tandem.addCaptureData p captureEntry now))
      else st
  | None => if meaningful then initializeProcessors st else st
  end.

Definition shouldAnalyzeBatch (st : State) (batch : Tandem.Batch) : bool :=
  negb (existsb (eqb (Tandem.batchId batch)) (analyzedBatches st)).

(** [analyzedBatches.add(id)] and the cut to the 25 most recent ids once
    there are more than 50. *)
Definition markAnalyzed (ids : list jsstring) (id : jsstring) : list jsstring :=
  let ids := if existsb (eqb id) ids then ids else ids ++ [id] in
  if (50 <? length ids)%nat then lastn 25 ids else ids.

(** The nudge, if any, is what the [TANDEM_NUDGE] message carries. *)
Definition analyzeBatchWithPrisma (st : State) (s : Nudge.System) (batch : Tandem.Batch)
    (reply : Nudge.ApiReply) (nowUpdate nowCheck now : Z) : State * option Nudge.Nudge :=
  let ids := markAnalyzed (analyzedBatches st) (Tandem.batchId batch) in
  let (s, nudge) :=
    Nudge.analyzeAndNudge s (Some batch) (storedApiKey st) reply nowUpdate nowCheck now in
  ({| captureDataStore := captureDataStore st;
      tandemProcessor := tandemProcessor st;
      prismaNudgeSystem := Some s;
      storedApiKey := storedApiKey st;
      analyzedBatches := ids |}, nudge).

(** One firing of the 5-second monitor of [startBatchMonitoring]. *)
Definition monitorTick (st : State) (reply : Nudge.ApiReply) (nowUpdate nowCheck now : Z)
  : State * option Nudge.Nudge :=
  match tandemProcessor st, prismaNudgeSystem st with
  | Some p, Some s =>
      if truthy (storedApiKey st) then
        match Tandem.getLatestStructuredBatch p with
        | Some latestBatch =>
            if shouldAnalyzeBatch st latestBatch
            then analyzeBatchWithPrisma st s latestBatch reply nowUpdate nowCheck now
            else (st, None)
        | None => (st, None)
        end
      else (st, None)
  | _, _ => (st, None)
  end.

(** What [handleManualAITrigger] resolves to, or the error it throws. *)
Inductive ManualResult : Type :=
| NotInitialized
| KeyNotConfigured
| NoData
| NudgeGenerated (message : jsstring)
| NoNudge.

Section Manual.

Variable parseURL : jsstring -> option (jsstring * jsstring).

(** [now] and [nowText] are the clock readings of the forced seal,
    [nowNudge] that of the forced nudge. *)
Definition handleManualAITrigger (st : State) (reply : Nudge.ApiReply)
    (now nowText nowNudge : Z) : State * ManualResult :=
  match tandemProcessor st, prismaNudgeSystem st with
  | Some p, Some s =>
      if negb (truthy (storedApiKey st)) then (st, KeyNotConfigured)
      else
        let (p, forcedBatch) := Tandem.forceProcessBatch parseURL p now nowText in
        let st := withProcessor st (Some p) in
        match forcedBatch with
        | None => (st, NoData)
        | Some batch =>
            let (s, nudge) :=
              Nudge.forceAnalyzeAndNudge s (Some batch) (storedApiKey st) reply nowNudge in
            let st := withSystem st (Some s) in
            match nudge with
            | Some n => (st, NudgeGenerated (Nudge.text n))
            | None => (st, NoNudge)
            end
        end
  | _, _ => (st, NotInitialized)
  end.

End Manual.

End Background.

(* ===================================================================== *)
(** ** Sample inputs *)
(* ===================================================================== *)

Module Samples.

(** A sealed batch around a given structured text. *)
Definition batchOf (structuredText : jsstring) : Tandem.Batch :=
  {| Tandem.batchId := js "batch_1700000000000";
     Tandem.batch_timestamp := 1700000000000;
     Tandem.structuredText := structuredText;
     Tandem.rawEntryCount := 1;
     Tandem.timespan := 0 |}.

Definition apiKey : jsstring := js "sk-test".

(** A batch with one error tag and nothing else of concern. *)
Definition errorText : jsstring := js "<error_signal>it failed again</error_signal>".

(** A batch with nothing of concern and no sign of success. *)
Definition calmText : jsstring := js "reading the next chapter".

(** Scenario B: the incorrect-answer tag and the frequent-errors marker. *)
Definition scenarioBText : jsstring :=
  js "<incorrect_answer_signal>twice the sum</incorrect_answer_signal>"
  ++ js "<behavior type=" ++ dq ++ js "frequent_errors" ++ dq
  ++ js " count=" ++ dq ++ js "3" ++ dq ++ js " />".

(** Scenario C: the right answer to the dice problem. *)
Definition scenarioCText : jsstring :=
  js "rolling two dice, the answer is 15/36".

(** The start of the sample sessions, in milliseconds. *)
Definition t0 : Z := 1700000000000.

Fixpoint upTo (stop : N -> bool) (s : jsstring) : jsstring * jsstring :=
  match s with
  | [] => ([], [])
  | c :: s' => if stop c then ([], s)
               else let (a, b) := upTo stop s' in (c :: a, b)
  end.

(** A stand-in for the platform's URL parser that reads the plain
    [https://host/path?query] addresses of the samples. *)
Definition parseURL (url : jsstring) : option (jsstring * jsstring) :=
  match matchStr false (js "https://") url with
  | Some s =>
      let (host, s') := upTo (fun c => existsb (N.eqb c) (js "/?#")) s in
      let (path, _) := upTo (fun c => existsb (N.eqb c) (js "?#")) s' in
      Some (host, match path with [] => js "/" | _ => path end)
  | None => None
  end.

(** What the content script sends while the user types at time [t]. *)
Definition typing (t : Z) : Tandem.CaptureEntry :=
  {| Tandem.timestamp := decimal ((t - t0) / 1000);
     Tandem.diff := js "then add the two cases " ++ decimal ((t - t0) / 1000);
     Tandem.fullText := js "Exercise 4. First split the sample space.";
     Tandem.url := js "https://course.example/sheet4?user=7";
     Tandem.capturedAt := t |}.



(** One capture, a seal by the scheduler 45 seconds later, and a second
    capture. *)
Definition shortSession : list Tandem.Event :=
  [ Tandem.Capture (typing (t0 + 1000)) (t0 + 1000);
    Tandem.Tick (t0 + 46000) (t0 + 46000) (t0 + 46000);
    Tandem.Capture (typing (t0 + 50000)) (t0 + 50000) ].



End Samples.

(* ===================================================================== *)
(** ** Predicates of the properties below *)
(* ===================================================================== *)

Module TandemSpec.
Import Tandem.


(** An entry [hasUrgentSignals] counts. *)
Definition urgent (e : RawEntry) : bool :=
  truthy (diff (entry e)) && someIncluded urgentKeywords (diff (entry e)).

(** The callback of the count in [hasUrgentSignals]. *)
Definition countUrgent (count : Z) (e : RawEntry) : Z :=
  if truthy (diff (entry e)) && someIncluded urgentKeywords (diff (entry e))
  then count + 1 else count.

(** The newest entry reports that something is done. *)
Definition completes (e : RawEntry) : bool :=
  truthy (diff (entry e)) && someIncluded completionIndicators (diff (entry e)).

(** The words [isRepetitiveContent] counts. *)
Definition wordsOf (text : jsstring) : list jsstring :=
  split false (Plus Space) (toLowerCase text).

(** The callback of the word count. *)
Definition countWord (acc : list (jsstring * Z) * option Z) (word : jsstring)
  : list (jsstring * Z) * option Z :=
  if (3 <? length word)%nat then
    if inheritedKey word then (fst acc, None)
    else
      let n := lookupCount word (fst acc) + 1 in
      ((word, n) :: fst acc, option_map (Z.max n) (snd acc))
  else acc.

(** The order of the comparator of [createStructuredBatch]. *)
Definition byTime (a b : RawEntry) : Prop :=
  capturedAt (entry a) <= capturedAt (entry b).

(** The four content tests of [processDiff] before the mathematical
    one. *)
Definition contentTagged (n : jsstring) : bool :=
  isRepetitiveContent n || containsErrorKeywords n || containsConfusionKeywords n
  || isSearchActivity n.

(** The content tags of [processDiff], on the diff with its markers
    rewritten. *)
Definition tagContent (processed : jsstring) : jsstring :=
  let processed :=
    if isRepetitiveContent processed then wrap "repetitive" processed else processed in
  let processed :=
    if containsErrorKeywords processed then wrap "error_signal" processed else processed in
  let processed :=
    if containsConfusionKeywords processed then wrap "confusion_signal" processed
    else processed in
  let processed :=
    if isSearchActivity processed then wrap "search_activity" processed else processed in
  let processed :=
    if isMathematicalContent processed then wrap "mathematical_content" processed
    else processed in
  let processed :=
    if hasIncorrectMathAnswer processed then wrap "incorrect_answer_signal" processed
    else processed in
  processed.

(** One of those steps: the tag is put around the text when the test
    holds. *)
Definition stage (test : jsstring -> bool) (tag : string) (processed : jsstring)
  : jsstring :=
  if test processed then wrap tag processed else processed.

(** The two replacements of [processDiff]. *)
Definition deletedTag (m : cursor) : jsstring :=
  js "<deleted>" ++ captured 1 m ++ js "</deleted>".

Definition changedTag (m : cursor) : jsstring :=
  js "<changed from=" ++ dq ++ captured 1 m ++ dq ++ js " to=" ++ dq
  ++ captured 2 m ++ dq ++ js " />".

End TandemSpec.

Module ContentSpec.
Import Content.

(** What [calculateDiff] writes for a removed and an added part. *)
Definition render (removedPart addedPart : jsstring) : jsstring :=
  match removedPart, addedPart with
  | [], [] => []
  | [], _ :: _ => addedPart
  | _ :: _, [] => deleted removedPart
  | _ :: _, _ :: _ => changed removedPart addedPart
  end.

(** What the capture timer sees at one firing: the visible text, the
    address of the page and the clock. *)
Definition Sighting : Type := (jsstring * jsstring * Z)%type.

Definition see (c : Capturer) (s : Sighting) : Capturer :=
  fst (captureVisibleTextPeriodically c (fst (fst s)) (snd (fst s)) (snd s)).

Definition watch (c : Capturer) (l : list Sighting) : Capturer := fold_left see l c.

(** [startPeriodicCapture()]: the text on the page becomes the baseline
    of the first diff. *)
Definition startPeriodicCapture (c : Capturer) (visibleText : jsstring) : Capturer :=
  {| captureData := captureData c; virtualTimestamp := virtualTimestamp c;
     lastCapturedText := visibleText |}.

(** A log whose entries are numbered from [k + 1] and each hold the diff
    from the text of the entry before, the first from [prev]. *)
Fixpoint chained (prev : jsstring) (k : Z) (log : list Tandem.CaptureEntry) : Prop :=
  match log with
  | [] => True
  | e :: log' =>
      Tandem.timestamp e = padStart2 (k + 1)
      /\ Tandem.diff e = calculateDiff prev (Tandem.fullText e)
      /\ truthy (trim (Tandem.diff e)) = true
      /\ chained (Tandem.fullText e) (k + 1) log'
  end.

End ContentSpec.

Module PipelineSpec.
Import Tandem.

(** An entry whose diff holds an error keyword and no bracket, so no
    marker of the content script. *)
Definition plainError (e : RawEntry) : bool :=
  containsErrorKeywords (diff (entry e)) && negb (includes (js "[") (diff (entry e))).

(** An entry whose diff holds one of the listed wrong answers to the
    dice problem and no bracket. *)
Definition wrongAnswer (e : RawEntry) : bool :=
  existsb (fun answer => includes answer (diff (entry e))) incorrectDiceAnswers
  && negb (includes (js "[") (diff (entry e))).

End PipelineSpec.

Module NudgeSpec.
Import Nudge.

(** The test of [callPrisma] for a generic reply. *)
Definition isGenericText (responseText : jsstring) : bool :=
  existsb (fun phrase => includes (toLowerCase phrase) (toLowerCase responseText))
    genericPhrases.

(** The flags that come with a weight. *)
Definition anyConcern (p : Patterns) : bool :=
  hasErrors p || hasConfusion p || hasRepetition p || hasLongDelays p
  || hasContextSwitching p || hasFrequentErrors p || hasProlongedFocus p
  || hasPotentialIncorrectAnswer p.


End NudgeSpec.

(** More sample inputs. *)
Module Scenarios.

(** What the content script sends when the user writes that they are
    stuck. *)
Definition struggling (t : Z) : Tandem.CaptureEntry :=
  {| Tandem.timestamp := decimal ((t - Samples.t0) / 1000);
     Tandem.diff := js "this is wrong, I am stuck";
     Tandem.fullText := js "Exercise 4. this is wrong, I am stuck";
     Tandem.url := js "https://course.example/sheet4?user=7";
     Tandem.capturedAt := t |}.

(** Two such captures in a row, 16 seconds into the session. *)
Definition stuckProcessor : Tandem.Processor :=
  Tandem.run Samples.parseURL Tandem.new
    [ Tandem.Capture (struggling (Samples.t0 + 16000)) (Samples.t0 + 16000);
      Tandem.Capture (struggling (Samples.t0 + 18000)) (Samples.t0 + 18000) ].

(** An automatic analysis of the error batch at a new system, answered
    with a generic phrase, and the nudge it returns. *)
Definition genericReply : Nudge.Op :=
  Nudge.Analyze (Some (Samples.batchOf Samples.errorText)) Samples.apiKey
    (Nudge.ReplyText (js "Great job, keep going!"))
    1700000000000 1700000000000 1700000000000.

Definition cannedNudge : Nudge.Nudge :=
  {| Nudge.id := js "nudge_1700000000000";
     Nudge.nudge_timestamp := 1700000000000;
     Nudge.level := 0;
     Nudge.text := js "Take a step back and review what you're trying to accomplish.";
     Nudge.analysis := Nudge.analyzeStructuredText Samples.errorText;
     Nudge.batchId := js "batch_1700000000000";
     Nudge.manualTrigger := false;
     Nudge.forced := false |}.

(** The background script once its processors exist and the key is
    set. *)
Definition ready : Background.State :=
  Background.setApiKey (Background.initializeProcessors Background.initial) Samples.apiKey.


Definition firstEntry : Tandem.CaptureEntry :=
  {| Tandem.timestamp := js "01";
     Tandem.diff := js "x = 2";
     Tandem.fullText := js "x = 2";
     Tandem.url := js "https://course.example/sheet4";
     Tandem.capturedAt := Samples.t0 |}.

(** The background script after that capture has arrived. *)
Definition fed : Background.State :=
  Background.onCaptureData ready firstEntry (Samples.t0 + 10).

(** A text that repeats one word, which is the name of a property every
    object inherits. *)
Definition inheritedWords : jsstring :=
  js "constructor constructor constructor constructor".

(** The same with another word. *)
Definition plainWords : jsstring :=
  js "destructor destructor destructor destructor".

(** Three captures, the last one reporting success, 16 seconds into the
    session. *)
Definition doneProcessor : Tandem.Processor :=
  Tandem.run Samples.parseURL Tandem.new
    [ Tandem.Capture (Samples.typing (Samples.t0 + 12000)) (Samples.t0 + 12000);
      Tandem.Capture (Samples.typing (Samples.t0 + 14000)) (Samples.t0 + 14000);
      Tandem.Capture
        {| Tandem.timestamp := js "16";
           Tandem.diff := js "ok that works";
           Tandem.fullText := js "Exercise 4. ok that works";
           Tandem.url := js "https://course.example/sheet4?user=7";
           Tandem.capturedAt := Samples.t0 + 16000 |} (Samples.t0 + 16000) ].

(** A line the user wrote and then removed. *)
Definition removedLine : jsstring := js "so the answer is 1/6".

(** A batch of two captures, the second with a listed wrong answer. *)
Definition wrongAnswerBatch : list Tandem.RawEntry :=
  [ {| Tandem.entry := Samples.typing (Samples.t0 + 12000);
       Tandem.receivedAt := Samples.t0 + 12000 |};
    {| Tandem.entry :=
         {| Tandem.timestamp := js "14";
            Tandem.diff := js "so it must be 1/89";
            Tandem.fullText := js "Exercise 4. so it must be 1/89";
            Tandem.url := js "https://course.example/sheet4?user=7";
            Tandem.capturedAt := Samples.t0 + 14000 |};
       Tandem.receivedAt := Samples.t0 + 14000 |} ].

(** Three such captures, as a batch holds them. *)
Definition threeErrors : list Tandem.RawEntry :=
  map (fun t => {| Tandem.entry := struggling t; Tandem.receivedAt := t |})
    [Samples.t0 + 16000; Samples.t0 + 18000; Samples.t0 + 20000].

(** The same three captures in a batch that also holds a capture of
    plain typing, taken between the first two. *)
Definition errorsAmongTyping : list Tandem.RawEntry :=
  {| Tandem.entry := Samples.typing (Samples.t0 + 17000);
     Tandem.receivedAt := Samples.t0 + 17000 |}
  :: threeErrors.

Definition fedProcessor : Tandem.Processor :=
  Tandem.addCaptureData Tandem.new firstEntry (Samples.t0 + 10).

(** The manual trigger 5 seconds later, answered with a hint. *)
Definition triggered : Background.State * Background.ManualResult :=
  Background.handleManualAITrigger Samples.parseURL fed
    (Nudge.ReplyText (js "Check the sign of x."))
    (Samples.t0 + 5000) (Samples.t0 + 5000) (Samples.t0 + 5000).

End Scenarios.

Example js_arrow : js "a→b" = [97; 8594; 98]%N.
Proof. reflexivity. Qed.

Example split_words :
  split false (Plus Space) (js " ab  c ") = [[]; js "ab"; js "c"; []].
Proof. vm_compute. reflexivity. Qed.

Example match_delay :
  matchAll false (Seq (Str (js "<d=")) (Seq (Group 1 (Plus Digit)) (Str (js "s"))))
    (js "x<d=12s y <d=s <d=345s") = [js "<d=12s"; js "<d=345s"].
Proof. vm_compute. reflexivity. Qed.

Example split_between_letters :
  split false (Star (Str (js "x"))) (js "abxxc") = [js "a"; js "b"; js "c"].
Proof. vm_compute. reflexivity. Qed.

Example processDiff_tags :
  Tandem.processDiff (js "I am stuck [DELETED:  foo]") (js "")
  = js "<mathematical_content><error_signal>I am stuck <deleted>foo</deleted></error_signal></mathematical_content>".
Proof. vm_compute. reflexivity. Qed.

Example silent_in_any_case :
  eqb (toUpperCase (trim (js "  Silent "))) (js "SILENT") = true.
Proof. vm_compute. reflexivity. Qed.

Example test_boundary :
  test true (Seq (Str (js "answer is 1")) WordBoundary) (js "the Answer IS 15") = false
  /\ test true (Seq (Str (js "answer is 1")) WordBoundary) (js "the Answer IS 1.") = true.
Proof. vm_compute. split; reflexivity. Qed.

(* ===================================================================== *)
(** ** Facts about lists *)
(* ===================================================================== *)

Lemma lastn_all {A : Type} (n : nat) (l : list A) :
  (length l <= n)%nat -> lastn n l = l.
Proof.
  intros H. unfold lastn.
  replace (length l - n)%nat with 0%nat by lia. reflexivity.
Qed.

Lemma lastn_length {A : Type} (n : nat) (l : list A) :
  (length (lastn n l) <= n)%nat.
Proof. unfold lastn. rewrite length_skipn. lia. Qed.

Lemma lastn_snoc {A : Type} (n : nat) (l : list A) (x : A) :
  lastn (S n) (l ++ [x]) = lastn n l ++ [x].
Proof.
  unfold lastn. rewrite length_app. simpl.
  replace (length l + 1 - S n)%nat with (length l - n)%nat by lia.
  rewrite skipn_app.
  replace (length l - n - length l)%nat with 0%nat by lia. reflexivity.
Qed.

Lemma cut_lastn {A : Type} (n : nat) (l : list A) :
  (if (n <? length l)%nat then lastn n l else l) = lastn n l.
Proof.
  destruct (Nat.ltb_spec n (length l)); [reflexivity|].
  symmetry. apply lastn_all. assumption.
Qed.



Lemma last_snoc_Some {A : Type} (l : list A) (x : A) :
  last (map Some (l ++ [x])) None = Some x.
Proof. rewrite map_app. simpl. apply last_last. Qed.

(* ===================================================================== *)
(** ** Facts about strings and the matcher *)
(* ===================================================================== *)

Module JSFacts.

Lemma startsWith_app (k s : jsstring) : startsWith k (k ++ s) = true.
Proof.
  induction k as [|c k IH]; simpl; [reflexivity|].
  rewrite N.eqb_refl. exact IH.
Qed.

Lemma startsWith_split (k s : jsstring) :
  startsWith k s = true -> exists b, s = k ++ b.
Proof.
  revert s. induction k as [|c k IH]; intros s H.
  - exists s. reflexivity.
  - destruct s as [|x s]; [discriminate|]. simpl in H.
    apply andb_true_iff in H. destruct H as [E H].
    apply N.eqb_eq in E. subst x.
    destruct (IH s H) as [b ->]. exists b. reflexivity.
Qed.

Lemma includes_unfold (k s : jsstring) :
  includes k s =
  startsWith k s || match s with [] => false | _ :: s' => includes k s' end.
Proof. destruct s; reflexivity. Qed.

Lemma includes_app (k a b : jsstring) : includes k (a ++ k ++ b) = true.
Proof.
  induction a as [|x a IH].
  - simpl app. rewrite includes_unfold, startsWith_app. reflexivity.
  - simpl. rewrite IH. apply orb_true_r.
Qed.

Lemma includes_split (k t : jsstring) :
  includes k t = true -> exists a b, t = a ++ k ++ b.
Proof.
  induction t as [|x t IH]; simpl; intros H.
  - rewrite orb_false_r in H. apply startsWith_split in H.
    destruct H as [b E]. exists [], b. exact E.
  - apply orb_true_iff in H. destruct H as [H|H].
    + apply startsWith_split in H. destruct H as [b E]. exists [], b. exact E.
    + destruct (IH H) as (a & b & ->). exists (x :: a), b. reflexivity.
Qed.

Lemma includes_trans (k m t : jsstring) :
  includes k m = true -> includes m t = true -> includes k t = true.
Proof.
  intros H1 H2.
  apply includes_split in H1. destruct H1 as (a1 & b1 & ->).
  apply includes_split in H2. destruct H2 as (a2 & b2 & ->).
  replace (a2 ++ (a1 ++ k ++ b1) ++ b2) with ((a2 ++ a1) ++ k ++ (b1 ++ b2))
    by (rewrite <- !app_assoc; reflexivity).
  apply includes_app.
Qed.

Lemma toLowerCase_app (a b : jsstring) :
  toLowerCase (a ++ b) = toLowerCase a ++ toLowerCase b.
Proof. apply map_app. Qed.

Lemma includes_toLowerCase (k t : jsstring) :
  includes k t = true -> includes (toLowerCase k) (toLowerCase t) = true.
Proof.
  intros H. apply includes_split in H. destruct H as (a & b & ->).
  rewrite !toLowerCase_app. apply includes_app.
Qed.

(** A match at some position makes [test] succeed. *)
Lemma execFrom_finds (icase : bool) (r : regex) (a s b : jsstring) :
  run icase r (mkCursor (rev a ++ b) s []) <> [] ->
  execFrom icase r b (a ++ s) <> None.
Proof.
  revert b. induction a as [|x a IH]; intros b H.
  - simpl in *. destruct s; simpl; unfold matchAt;
      destruct (run icase r _); simpl; congruence.
  - simpl. destruct (matchAt icase r b (x :: a ++ s)); [discriminate|].
    apply IH. simpl in H. rewrite <- app_assoc in H. exact H.
Qed.

Lemma test_intro (icase : bool) (r : regex) (a s : jsstring) :
  run icase r (mkCursor (rev a) s []) <> [] -> test icase r (a ++ s) = true.
Proof.
  intros H. unfold test.
  pose proof (execFrom_finds icase r a s [] ) as F. rewrite app_nil_r in F.
  destruct (execFrom icase r [] (a ++ s)); [reflexivity|]. exfalso. apply (F H). reflexivity.
Qed.

Lemma matchStr_app (k s : jsstring) : matchStr false k (k ++ s) = Some s.
Proof.
  induction k as [|c k IH]; simpl; [destruct s; reflexivity|].
  rewrite N.eqb_refl. exact IH.
Qed.

Lemma run_Str (k s bf : jsstring) (cp : list (nat * jsstring)) :
  exists bf', run false (Str k) (mkCursor bf (k ++ s) cp) = [mkCursor bf' s cp].
Proof. simpl. rewrite matchStr_app. eexists. reflexivity. Qed.

Lemma starLoop_S (body : cursor -> list cursor) (fuel : nat) (c : cursor) :
  starLoop body (S fuel) c =
  flat_map (starLoop body fuel) (filter (advances c) (body c)) ++ [c].
Proof. reflexivity. Qed.

Lemma advances_cons (x : N) (s bf bf' : jsstring) (cp cp' : list (nat * jsstring)) :
  advances (mkCursor bf (x :: s) cp) (mkCursor bf' s cp') = true.
Proof. unfold advances. simpl. apply Nat.ltb_lt. lia. Qed.

Lemma starLoop_Dot (mid s : jsstring) :
  forallb (fun c => negb (isLineTerminator c)) mid = true ->
  forall (fuel : nat) (bf : jsstring) (cp : list (nat * jsstring)),
    (length (mid ++ s) <= fuel)%nat ->
    exists bf', In (mkCursor bf' s cp)
                  (starLoop (run false Dot) fuel (mkCursor bf (mid ++ s) cp)).
Proof.
  induction mid as [|x mid IH]; intros Hm fuel bf cp Hf.
  - exists bf. destruct fuel; simpl; [left; reflexivity|].
    apply in_or_app. right. left. reflexivity.
  - simpl in Hm. apply andb_true_iff in Hm. destruct Hm as [Hx Hm].
    destruct fuel as [|fuel]; [simpl in Hf; lia|].
    destruct (IH Hm fuel (x :: bf) cp) as [bf' Hin]; [simpl in Hf; lia|].
    exists bf'. rewrite starLoop_S. apply in_or_app. left.
    change (run false Dot (mkCursor bf ((x :: mid) ++ s) cp))
      with (if negb (isLineTerminator x)
            then [mkCursor (x :: bf) (mid ++ s) cp] else []).
    rewrite Hx. cbn [filter app]. rewrite advances_cons.
    cbn [flat_map]. rewrite app_nil_r. exact Hin.
Qed.

(** [/k1.*k2/] matches where [k1], a stretch of one line, and [k2] follow
    one another. *)
Lemma run_Str_any_Str (k1 mid k2 s bf : jsstring) :
  forallb (fun c => negb (isLineTerminator c)) mid = true ->
  run false (Seq (Str k1) (Seq (Star Dot) (Str k2)))
      (mkCursor bf (k1 ++ mid ++ k2 ++ s) []) <> [].
Proof.
  intros Hm.
  destruct (run_Str k1 (mid ++ k2 ++ s) bf []) as [bf1 E1].
  destruct (starLoop_Dot mid (k2 ++ s) Hm (length (mid ++ k2 ++ s)) bf1 [] (le_n _))
    as [bf2 H2].
  destruct (run_Str k2 s bf2 []) as [bf3 E3].
  assert (In (mkCursor bf3 s [])
            (run false (Seq (Str k1) (Seq (Star Dot) (Str k2)))
               (mkCursor bf (k1 ++ mid ++ k2 ++ s) []))).
  { cbn [run]. cbn [run] in E1, E3. rewrite E1. simpl flat_map. rewrite app_nil_r.
    apply in_flat_map. exists (mkCursor bf2 (k2 ++ s) []). split.
    - exact H2.
    - rewrite E3. left. reflexivity. }
  intros E. rewrite E in H. exact H.
Qed.

Lemma test_Class (cs a b : jsstring) (c : N) :
  existsb (N.eqb c) cs = true -> test false (Class cs) (a ++ c :: b) = true.
Proof.
  intros H. apply test_intro. simpl. unfold step1. simpl. rewrite H. discriminate.
Qed.

End JSFacts.

(* ===================================================================== *)
(** ** The escalation engine and the dispatcher *)
(* ===================================================================== *)

Module NudgeProofs.
Import Nudge.

(** *** What each operation does to the level *)

Ltac low_signals :=
  replace (_ <? 2) with false by (symmetry; apply Z.ltb_ge; lia);
  rewrite andb_false_r; simpl; split; [lia | reflexivity].

Lemma escalate_cases (s : System) (a : Analysis) (now : Z) :
  let l := interferenceLevel s in
  let l' := interferenceLevel
              (let s :=
                 if concerningSignals a >=? toLevel3 then withLevel s (Z.max (interferenceLevel s) 3)
                 else if concerningSignals a >=? toLevel2 then withLevel s (Z.max (interferenceLevel s) 2)
                 else if concerningSignals a >=? toLevel1 then withLevel s (Z.max (interferenceLevel s) 1)
                 else s in
               if (now - lastNudgeTime s >? 300000) && (concerningSignals a <? 2)
               then withLevel s (Z.max 0 (interferenceLevel s - 1))
               else s) in
  let cs := concerningSignals a in
  (6 <= cs /\ l' = Z.max l 3)
  \/ (4 <= cs < 6 /\ l' = Z.max l 2)
  \/ (2 <= cs < 4 /\ l' = Z.max l 1)
  \/ (cs < 2 /\ now - lastNudgeTime s > 300000 /\ l' = Z.max 0 (l - 1))
  \/ (cs < 2 /\ l' = l).
Proof.
  cbv zeta. unfold toLevel1, toLevel2, toLevel3.
  destruct (Z.geb_spec (concerningSignals a) 6); [left; low_signals |].
  destruct (Z.geb_spec (concerningSignals a) 4); [right; left; low_signals |].
  destruct (Z.geb_spec (concerningSignals a) 2); [right; right; left; low_signals |].
  right; right; right.
  replace (concerningSignals a <? 2) with true by (symmetry; apply Z.ltb_lt; lia).
  rewrite andb_true_r.
  destruct (Z.gtb_spec (now - lastNudgeTime s) 300000); [left | right];
    simpl; repeat split; lia.
Qed.

(** The five ways [updateInterferenceLevel] can go. *)
Lemma update_cases (s : System) (a : Analysis) (now : Z) :
  let l := interferenceLevel s in
  let l' := interferenceLevel (updateInterferenceLevel s a now) in
  let cs := concerningSignals a in
  (hasSuccessIndicators (patterns a) = true /\ cs = 0 /\ l' = Z.max 0 (l - 1))
  \/ (6 <= cs /\ l' = Z.max l 3)
  \/ (4 <= cs < 6 /\ l' = Z.max l 2)
  \/ (2 <= cs < 4 /\ l' = Z.max l 1)
  \/ (cs < 2 /\ now - lastNudgeTime s > 300000 /\ l' = Z.max 0 (l - 1))
  \/ (cs < 2 /\ l' = l).
Proof.
  cbv zeta. unfold updateInterferenceLevel.
  destruct (hasSuccessIndicators (patterns a)) eqn:Hs; simpl andb.
  - destruct (Z.eqb_spec (concerningSignals a) 0) as [E|E].
    + left. auto.
    + right. apply escalate_cases.
  - right. apply escalate_cases.
Qed.

Lemma update_keeps (s : System) (a : Analysis) (now : Z) :
  nudgeHistory (updateInterferenceLevel s a now) = nudgeHistory s
  /\ lastNudgeTime (updateInterferenceLevel s a now) = lastNudgeTime s.
Proof.
  unfold updateInterferenceLevel.
  repeat match goal with |- context [if ?c then _ else _] => destruct c end;
    split; reflexivity.
Qed.

Lemma level_generateNudge s b a r now :
  interferenceLevel (fst (generateNudge s b a r now)) = interferenceLevel s.
Proof.
  unfold generateNudge.
  destruct (callPrisma s r) as [|t]; [reflexivity|].
  destruct (negb _); [destruct (_ >? _)|]; reflexivity.
Qed.

Lemma level_generateForcedNudge s b a r now :
  interferenceLevel (fst (generateForcedNudge s b a r now)) = interferenceLevel s.
Proof.
  unfold generateForcedNudge.
  destruct (callPrisma s r) as [|t]; reflexivity.
Qed.

Lemma level_analyzeAndNudge s b k r n1 n2 n3 :
  interferenceLevel (fst (analyzeAndNudge s (Some b) k r n1 n2 n3)) =
  if truthy k
  then interferenceLevel
         (updateInterferenceLevel s (analyzeStructuredText (Tandem.structuredText b)) n1)
  else interferenceLevel s.
Proof.
  unfold analyzeAndNudge.
  destruct (truthy k); simpl; [|reflexivity].
  destruct (shouldNudge _ _ _); [apply level_generateNudge | reflexivity].
Qed.

Lemma level_forceAnalyzeAndNudge s b k r now :
  interferenceLevel (fst (forceAnalyzeAndNudge s (Some b) k r now)) =
  if truthy k
  then (if interferenceLevel s =? 0 then 1 else interferenceLevel s)
  else interferenceLevel s.
Proof.
  unfold forceAnalyzeAndNudge.
  destruct (truthy k); simpl; [|reflexivity].
  match goal with |- context [generateForcedNudge ?s' ?b' ?a' ?r' ?n'] =>
    pose proof (level_generateForcedNudge s' b' a' r' n') as H;
    destruct (generateForcedNudge s' b' a' r' n') as [s2 [n|]] end;
  simpl in *; rewrite H; destruct (interferenceLevel s =? 0); reflexivity.
Qed.

Lemma apply_inRange (s : System) (op : Op) : inRange s -> inRange (fst (apply s op)).
Proof.
  unfold inRange. intros H.
  destruct op as [[b|] k r n1 n2 n3 | [b|] k r now | ]; unfold apply;
    try (simpl; lia).
  - rewrite level_analyzeAndNudge. destruct (truthy k); [|lia].
    pose proof (update_cases s (analyzeStructuredText (Tandem.structuredText b)) n1) as U.
    cbv zeta in U. lia.
  - rewrite level_forceAnalyzeAndNudge. destruct (truthy k); [|lia].
    destruct (Z.eqb_spec (interferenceLevel s) 0); lia.
Qed.

Lemma runOps_snoc (s : System) (ops : list Op) (op : Op) :
  runOps s (ops ++ [op]) = fst (apply (runOps s ops) op).
Proof. unfold runOps. rewrite fold_left_app. reflexivity. Qed.

Lemma runOps_inRange (ops : list Op) : inRange (runOps new ops).
Proof.
  induction ops as [|op ops IH] using rev_ind.
  - unfold inRange. simpl. lia.
  - rewrite runOps_snoc. apply apply_inRange, IH.
Qed.

(** C7. Whatever analyses, manual triggers and resets a freshly
    constructed nudge system has gone through, its interference level is
    one of 0, 1, 2, 3: this holds of the state before every operation and
    of the state after it. *)
Theorem level_bounds (ops : list Op) (op : Op) :
  In (interferenceLevel (runOps new ops)) [0; 1; 2; 3]
  /\ In (interferenceLevel (fst (apply (runOps new ops) op))) [0; 1; 2; 3].
Proof.
  pose proof (runOps_inRange ops) as H1.
  pose proof (runOps_inRange (ops ++ [op])) as H2.
  rewrite runOps_snoc in H2. unfold inRange in *. simpl.
  split; lia.
Qed.

(** *** C4: when the level moves *)






(** *** C5: history and the time of the last nudge *)

Lemma record_history (s : System) (n : Nudge) (now : Z) :
  nudgeHistory (record s n now) = lastn 20 (nudgeHistory s ++ [n]).
Proof. unfold record. simpl. apply cut_lastn. Qed.

Lemma markLast_snoc (l : list Nudge) (n : Nudge) :
  markLast (l ++ [n]) = l ++ [markManual n].
Proof.
  unfold markLast. rewrite rev_app_distr. simpl. rewrite rev_involutive. reflexivity.
Qed.

Lemma generateNudge_emits s b a r now s' n :
  generateNudge s b a r now = (s', Some n) ->
  s' = record s n now /\ nudge_timestamp n = now.
Proof.
  unfold generateNudge.
  destruct (callPrisma s r) as [|t]; [discriminate|].
  destruct (negb _); [destruct (_ >? _)|]; intros E; inversion E; subst;
    split; reflexivity.
Qed.

Lemma generateForcedNudge_emits s b a r now s' n :
  generateForcedNudge s b a r now = (s', Some n) ->
  s' = record s n now /\ nudge_timestamp n = now.
Proof.
  unfold generateForcedNudge.
  destruct (callPrisma s r) as [|t]; [discriminate|].
  intros E; inversion E; subst. split; reflexivity.
Qed.

(** C5, as stated, fails for a manual trigger: the nudge is emitted at
    1700000000000, and once the operation is over [lastNudgeTime] is back
    at its earlier value 0. *)
Lemma forced_nudge_leaves_lastNudgeTime :
  option_map nudge_timestamp
    (snd (forceAnalyzeAndNudge new (Some (Samples.batchOf Samples.calmText))
            Samples.apiKey (ReplyText (js "Try the next exercise.")) 1700000000000))
  = Some 1700000000000
  /\ lastNudgeTime
       (fst (forceAnalyzeAndNudge new (Some (Samples.batchOf Samples.calmText))
               Samples.apiKey (ReplyText (js "Try the next exercise.")) 1700000000000))
     = 0.
Proof. vm_compute. split; reflexivity. Qed.

(** C5, amended. Every nudge an operation returns is the newest entry
    of [nudgeHistory], which keeps the 20 most recent entries; after the
    automatic path [lastNudgeTime] is the nudge's emission time, and
    after a manual trigger [lastNudgeTime] is the value it had before the
    trigger. *)
Theorem emitted_nudge_is_recorded (s s' : System) (op : Op) (n : Nudge)
    (H : apply s op = (s', Some n)) :
  nudgeHistory s' = lastn 20 (nudgeHistory s ++ [n])
  /\ (length (nudgeHistory s') <= 20)%nat
  /\ match op with
     | Analyze _ _ _ _ _ now => nudge_timestamp n = now /\ lastNudgeTime s' = now
     | Force _ _ _ now => nudge_timestamp n = now /\ lastNudgeTime s' = lastNudgeTime s
     | Reset => False
     end.
Proof.
  assert (L : forall h : list Nudge, (length (lastn 20 h) <= 20)%nat)
    by (intros h; apply lastn_length).
  destruct op as [[b|] k r n1 n2 n3 | [b|] k r now | ]; unfold apply in H;
    try (simpl in H; discriminate).
  - unfold analyzeAndNudge in H.
    destruct (negb (truthy k)); [discriminate|].
    destruct (shouldNudge _ _ _); [|discriminate].
    apply generateNudge_emits in H. destruct H as [-> Ht].
    rewrite record_history.
    destruct (update_keeps s (analyzeStructuredText (Tandem.structuredText b)) n1) as [-> _].
    repeat split; auto.
  - unfold forceAnalyzeAndNudge in H.
    destruct (negb (truthy k)); [discriminate|].
    match type of H with context [generateForcedNudge ?s0 ?b0 ?a0 ?r0 ?t0] =>
      pose proof (generateForcedNudge_emits s0 b0 a0 r0 t0) as G;
      destruct (generateForcedNudge s0 b0 a0 r0 t0) as [s2 [n0|]] end;
      [|discriminate].
    destruct (G s2 n0 eq_refl) as [-> Ht].
    inversion H; subst s' n. clear H G.
    cbn [nudgeHistory lastNudgeTime withLastNudgeTime record].
    destruct (interferenceLevel s =? 0);
      cbn [nudgeHistory withLevel withLastNudgeTime];
      rewrite cut_lastn;
      change 20%nat with (S 19) at 1 2; rewrite !lastn_snoc, markLast_snoc;
      (repeat split; auto); rewrite <- lastn_snoc; apply L.
Qed.

(** An automatic analysis at a fresh system whose reply is a proper
    hint: the hint is recorded and its time is the time of the last
    nudge. *)
Lemma emitted_nudge_is_recorded_witness :
  exists (s' : System) (n : Nudge),
    apply new (Analyze (Some (Samples.batchOf Samples.errorText)) Samples.apiKey
                 (ReplyText (js "Read the stack trace."))
                 1700000000000 1700000000000 1700000000000) = (s', Some n)
    /\ nudgeHistory s' = lastn 20 (nudgeHistory new ++ [n])
    /\ nudge_timestamp n = 1700000000000
    /\ lastNudgeTime s' = 1700000000000.
Proof.
  destruct (apply new (Analyze (Some (Samples.batchOf Samples.errorText)) Samples.apiKey
                         (ReplyText (js "Read the stack trace."))
                         1700000000000 1700000000000 1700000000000))
    as [s' [n|]] eqn:E.
  - exists s', n. split; [reflexivity|].
    destruct (emitted_nudge_is_recorded new s' _ n E) as [Hh [_ [Ht Hl]]].
    repeat split; assumption.
  - vm_compute in E. discriminate E.
Defined.

(** *** C8: the cooldown *)

Lemma cooldown_matches (s : System) (a : Analysis) :
  0 <= interferenceLevel s <= 3 -> 0 <= concerningSignals a ->
  cooldown s a = applicableCooldown (interferenceLevel s) a.
Proof.
  intros Hl Hc. unfold cooldown, applicableCooldown, nudgeCooldowns, cooldownTable.
  assert (E : negb (concerningSignals a >? 0) = (concerningSignals a =? 0)).
  { destruct (Z.gtb_spec (concerningSignals a) 0), (Z.eqb_spec (concerningSignals a) 0);
      simpl; try reflexivity; lia. }
  rewrite E.
  destruct (Z.eqb_spec (interferenceLevel s) 0); [reflexivity|].
  destruct (Z.eqb_spec (interferenceLevel s) 1); [reflexivity|].
  destruct (Z.eqb_spec (interferenceLevel s) 2); [reflexivity|].
  destruct (Z.eqb_spec (interferenceLevel s) 3); [reflexivity|]. lia.
Qed.

(** C8. For an analysis (its score is never negative) and an engine
    whose level is one of 0..3: when the time since [lastNudgeTime] does
    not exceed the applicable cooldown (10, 15, 20 or 30 seconds by
    level; 5 seconds flat for success with no concerning signal; at most
    8 seconds for mathematical content with a concerning signal),
    [shouldNudge] answers false. *)
Theorem cooldown_respected (s : System) (a : Analysis) (now : Z)
    (Hlevel : 0 <= interferenceLevel s <= 3)
    (Hscore : 0 <= concerningSignals a)
    (Helapsed : now - lastNudgeTime s <= applicableCooldown (interferenceLevel s) a) :
  shouldNudge s a now = false.
Proof.
  unfold shouldNudge. rewrite (cooldown_matches s a Hlevel Hscore).
  replace (now - lastNudgeTime s >? applicableCooldown (interferenceLevel s) a)
    with false.
  - apply andb_false_r.
  - symmetry. rewrite Z.gtb_ltb. apply Z.ltb_ge. exact Helapsed.
Qed.

(** The two side conditions hold of every state a fresh system reaches
    and of every analysis of a text; the score is the sum of the weights
    of the rows of the scoring table, none of them negative. *)
Lemma cooldown_matches_reachable (ops : list Op) (a : Analysis) :
  0 <= concerningSignals a ->
  cooldown (runOps new ops) a
  = applicableCooldown (interferenceLevel (runOps new ops)) a.
Proof. intros H. apply cooldown_matches; [apply runOps_inRange | exact H]. Qed.

(** Seven seconds after a nudge, at level 2 and with an error tag in the
    batch: the applicable cooldown is the 8-second cap. *)
Lemma cooldown_respected_witness :
  applicableCooldown 2 (analyzeStructuredText Samples.errorText) = 8000
  /\ shouldNudge {| nudgeHistory := []; interferenceLevel := 2;
                    lastNudgeTime := 1700000000000 |}
       (analyzeStructuredText Samples.errorText) 1700000007000 = false.
Proof.
  split; [vm_compute; reflexivity|].
  apply (cooldown_respected
           {| nudgeHistory := []; interferenceLevel := 2; lastNudgeTime := 1700000000000 |}
           (analyzeStructuredText Samples.errorText) 1700000007000).
  - simpl. lia.
  - vm_compute. discriminate.
  - vm_compute. discriminate.
Defined.

(** *** C1: a reply of SILENT *)

(** What [generateNudge] does with a reply that is SILENT once trimmed
    and upper-cased: the [null] of [callPrisma] is read as an empty text,
    so silence is kept only when the batch has no concerning signal. *)
Lemma generateNudge_silent (s : System) (b : Tandem.Batch) (a : Analysis)
    (t : jsstring) (now : Z) :
  truthy t = true ->
  toUpperCase (trim t) = js "SILENT" ->
  generateNudge s b a (ReplyText t) now =
    if concerningSignals a >? 0 then
      let nudge :=
        {| id := js "nudge_" ++ decimal now; nudge_timestamp := now;
           level := interferenceLevel s;
           text := js "Take a closer look at your reasoning and try to identify any assumptions you may have missed.";
           analysis := a; batchId := Tandem.batchId b;
           manualTrigger := false; forced := false |} in
      (record s nudge now, Some nudge)
    else (s, None).
Proof.
  intros Ht Hs. unfold generateNudge, callPrisma.
  rewrite Ht, Hs. simpl negb. cbv iota.
  replace (eqb (js "SILENT") (js "SILENT")) with true by reflexivity.
  cbv iota beta.
  replace (trim []) with (@nil N) by reflexivity. simpl truthy. simpl negb. cbv iota.
  destruct (concerningSignals a >? 0); reflexivity.
Qed.

(** C1 at a failing input. The batch carries one error tag
    ([concerningSignals] = 1), the request is automatic, and the model
    replies SILENT: a nudge with the generic fallback text is emitted
    all the same, the history grows from 0 to 1 entry, and
    [lastNudgeTime] moves from 0 to the emission time. *)
Theorem silent_reply_still_nudges :
  concerningSignals (analyzeStructuredText Samples.errorText) = 1
  /\ toUpperCase (trim (js "SILENT")) = js "SILENT"
  /\ option_map text
       (snd (analyzeAndNudge new (Some (Samples.batchOf Samples.errorText)) Samples.apiKey
               (ReplyText (js "SILENT")) 1700000000000 1700000000000 1700000000000))
     = Some (js "Take a closer look at your reasoning and try to identify any assumptions you may have missed.")
  /\ length (nudgeHistory new) = 0%nat
  /\ length
       (nudgeHistory
          (fst (analyzeAndNudge new (Some (Samples.batchOf Samples.errorText)) Samples.apiKey
                  (ReplyText (js "SILENT")) 1700000000000 1700000000000 1700000000000)))
     = 1%nat
  /\ lastNudgeTime new = 0
  /\ lastNudgeTime
       (fst (analyzeAndNudge new (Some (Samples.batchOf Samples.errorText)) Samples.apiKey
               (ReplyText (js "SILENT")) 1700000000000 1700000000000 1700000000000))
     = 1700000000000.
Proof. vm_compute. repeat split; reflexivity. Qed.

End NudgeProofs.

(* ===================================================================== *)
(** ** The signal analyzer *)
(* ===================================================================== *)

Module AnalyzerProofs.
Import Nudge JSFacts.

(** *** One step of the analysis at a time *)

Lemma cs_signal c d name ty a :
  concerningSignals (when c (fun a => setPattern name (pushType ty (addSignals d a))) a)
  = concerningSignals a + weight c d.
Proof. destruct c; simpl; lia. Qed.

Lemma cs_mark c name ty a :
  concerningSignals (when c (fun a => pushType ty (setPattern name a)) a)
  = concerningSignals a.
Proof. destruct c; reflexivity. Qed.

Lemma cs_math c1 c2 a :
  concerningSignals
    (when c1 (fun a => when c2 (fun a => setPattern PotentialIncorrectAnswer
                                  (pushType "incorrect_math" (addSignals 2 a)))
                         (setPattern MathematicalContent a)) a)
  = concerningSignals a + weight (c1 && c2) 2.
Proof. destruct c1, c2; simpl; lia. Qed.

Lemma cs_final a :
  concerningSignals
    (if concerningSignals a >=? 6 then setUrgency high a
     else if concerningSignals a >=? 3 then setUrgency medium a else a)
  = concerningSignals a.
Proof. destruct (_ >=? 6); [reflexivity|]. destruct (_ >=? 3); reflexivity. Qed.

Lemma get_signal n c d name ty a :
  getPattern n (patterns (when c (fun a => setPattern name (pushType ty (addSignals d a))) a))
  = (c && sameName n name) || getPattern n (patterns a).
Proof. destruct c; simpl; [destruct n, name; reflexivity | reflexivity]. Qed.

Lemma get_mark n c name ty a :
  getPattern n (patterns (when c (fun a => pushType ty (setPattern name a)) a))
  = (c && sameName n name) || getPattern n (patterns a).
Proof. destruct c; simpl; [destruct n, name; reflexivity | reflexivity]. Qed.

Lemma get_math n c1 c2 a :
  getPattern n (patterns
    (when c1 (fun a => when c2 (fun a => setPattern PotentialIncorrectAnswer
                                  (pushType "incorrect_math" (addSignals 2 a)))
                         (setPattern MathematicalContent a)) a))
  = (c1 && (sameName n MathematicalContent || (c2 && sameName n PotentialIncorrectAnswer)))
    || getPattern n (patterns a).
Proof. destruct c1, c2, n; simpl; try reflexivity; rewrite ?orb_true_r; reflexivity. Qed.

Lemma get_final n a :
  getPattern n (patterns
    (if concerningSignals a >=? 6 then setUrgency high a
     else if concerningSignals a >=? 3 then setUrgency medium a else a))
  = getPattern n (patterns a).
Proof. destruct (_ >=? 6); [reflexivity|]. destruct (_ >=? 3); reflexivity. Qed.

Lemma urgency_signal c d name ty a :
  urgency (when c (fun a => setPattern name (pushType ty (addSignals d a))) a) = urgency a.
Proof. destruct c; reflexivity. Qed.

Lemma urgency_mark c name ty a :
  urgency (when c (fun a => pushType ty (setPattern name a)) a) = urgency a.
Proof. destruct c; reflexivity. Qed.

Lemma urgency_math c1 c2 a :
  urgency
    (when c1 (fun a => when c2 (fun a => setPattern PotentialIncorrectAnswer
                                  (pushType "incorrect_math" (addSignals 2 a)))
                         (setPattern MathematicalContent a)) a)
  = urgency a.
Proof. destruct c1, c2; reflexivity. Qed.

Lemma urgency_final a :
  urgency
    (if concerningSignals a >=? 6 then setUrgency high a
     else if concerningSignals a >=? 3 then setUrgency medium a else a)
  = if concerningSignals a >=? 6 then high
    else if concerningSignals a >=? 3 then medium else urgency a.
Proof. destruct (_ >=? 6); [reflexivity|]. destruct (_ >=? 3); reflexivity. Qed.

(** *** The analysis, field by field *)

(** The score the method accumulates is the score of the table. *)
Lemma analyze_score (t : jsstring) :
  concerningSignals (analyzeStructuredText t) = scoreTable t.
Proof.
  unfold analyzeStructuredText. cbv zeta.
  rewrite cs_final, !cs_mark, cs_signal, cs_math, !cs_signal.
  unfold scoreTable, rowErrorTag, rowConfusionTag, rowRepetitionTag, rowLongDelay,
    rowContextSwitching, rowFrequentErrors, rowProlongedFocus, rowIncorrectMath,
    rowIncorrectTag.
  simpl concerningSignals. lia.
Qed.

Lemma weight_nonneg (c : bool) (w : Z) : 0 <= w -> 0 <= weight c w.
Proof. destruct c; simpl; lia. Qed.

Lemma analyze_nonneg (t : jsstring) : 0 <= concerningSignals (analyzeStructuredText t).
Proof.
  rewrite analyze_score. unfold scoreTable.
  repeat apply Z.add_nonneg_nonneg; apply weight_nonneg; lia.
Qed.

Lemma analyze_urgency (t : jsstring) :
  urgency (analyzeStructuredText t) =
  if scoreTable t >=? 6 then high else if scoreTable t >=? 3 then medium else low.
Proof.
  rewrite <- analyze_score.
  unfold analyzeStructuredText at 1. cbv zeta.
  rewrite urgency_final, !urgency_mark, urgency_signal, urgency_math, !urgency_signal.
  change (urgency emptyAnalysis) with low.
  rewrite !cs_mark, cs_signal, cs_math, !cs_signal.
  unfold analyzeStructuredText. cbv zeta.
  rewrite cs_final, !cs_mark, cs_signal, cs_math, !cs_signal.
  reflexivity.
Qed.

Lemma analyze_pattern (n : PatternName) (t : jsstring) :
  getPattern n (patterns (analyzeStructuredText t)) =
  match n with
  | Errors => rowErrorTag t
  | Confusion => rowConfusionTag t
  | Repetition => rowRepetitionTag t
  | LongDelays => rowLongDelay t
  | ContextSwitching => rowContextSwitching t
  | FrequentErrors => rowFrequentErrors t
  | ProlongedFocus => rowProlongedFocus t
  | MathematicalContent => hasMathContent (detectMathematicalContent t)
  | PotentialIncorrectAnswer => rowIncorrectMath t || rowIncorrectTag t
  | CompletionSignals => someIncluded completionKeywords t
  | SuccessIndicators =>
      hasMathContent (detectMathematicalContent t)
      && existsb (fun pattern => test false pattern (toLowerCase t)) mathCompletionPatterns
  end.
Proof.
  unfold analyzeStructuredText. cbv zeta.
  rewrite get_final, get_mark.
  change (hasMathematicalContent (patterns ?a))
    with (getPattern MathematicalContent (patterns a)).
  rewrite !get_mark, !get_signal, !get_math, !get_signal.
  unfold rowErrorTag, rowConfusionTag, rowRepetitionTag, rowLongDelay,
    rowContextSwitching, rowFrequentErrors, rowProlongedFocus, rowIncorrectMath,
    rowIncorrectTag.
  destruct n; simpl;
    rewrite ?andb_false_r, ?andb_true_r, ?orb_false_r, ?orb_false_l; try reflexivity.
  rewrite orb_comm. reflexivity.
Qed.

(** *** Scenario B *)

(** C2. A batch text that holds the incorrect-answer tag and the
    frequent-errors marker, and for which no other row of the scoring
    table fires, scores 3 + 2 = 5 with urgency medium, and the update
    that follows leaves the interference level at 2 or more. *)
Theorem scenario_B (t : jsstring) (s : System) (now : Z)
    (Htag : rowIncorrectTag t = true)
    (Hfrequent : rowFrequentErrors t = true)
    (Herror : rowErrorTag t = false)
    (Hconfusion : rowConfusionTag t = false)
    (Hrepetition : rowRepetitionTag t = false)
    (Hdelay : rowLongDelay t = false)
    (Hswitching : rowContextSwitching t = false)
    (Hfocus : rowProlongedFocus t = false)
    (Hmath : rowIncorrectMath t = false) :
  concerningSignals (analyzeStructuredText t) = 5
  /\ urgency (analyzeStructuredText t) = medium
  /\ 2 <= interferenceLevel (updateInterferenceLevel s (analyzeStructuredText t) now).
Proof.
  assert (Hs : scoreTable t = 5).
  { unfold scoreTable.
    rewrite Htag, Hfrequent, Herror, Hconfusion, Hrepetition, Hdelay, Hswitching,
      Hfocus, Hmath. reflexivity. }
  split; [rewrite analyze_score; exact Hs|].
  split; [rewrite analyze_urgency, Hs; reflexivity|].
  pose proof (NudgeProofs.update_cases s (analyzeStructuredText t) now) as U.
  cbv zeta in U. rewrite analyze_score, Hs in U. lia.
Qed.

(** The incorrect-answer tag around a plain phrase, followed by the
    frequent-errors marker. *)
Lemma scenario_B_witness :
  concerningSignals (analyzeStructuredText Samples.scenarioBText) = 5
  /\ urgency (analyzeStructuredText Samples.scenarioBText) = medium
  /\ 2 <= interferenceLevel
            (updateInterferenceLevel new (analyzeStructuredText Samples.scenarioBText)
               1700000000000).
Proof.
  apply (scenario_B Samples.scenarioBText new 1700000000000); vm_compute; reflexivity.
Defined.

(** *** Scenario C *)

Lemma answer_is_keyword (t : jsstring) :
  includes (js "the answer is 15/36") t = true ->
  someIncluded mathKeywords t = true.
Proof.
  intros H. apply includes_toLowerCase in H.
  assert (K : includes (js "answer is") (toLowerCase t) = true).
  { apply (includes_trans _ (toLowerCase (js "the answer is 15/36"))); [|exact H].
    vm_compute. reflexivity. }
  unfold someIncluded, mathKeywords. cbn [map existsb].
  rewrite K. rewrite ?orb_true_r. reflexivity.
Qed.

Lemma answer_is_math (t : jsstring) :
  includes (js "the answer is 15/36") t = true ->
  hasMathContent (detectMathematicalContent t) = true.
Proof.
  intros H. unfold detectMathematicalContent.
  rewrite (answer_is_keyword t H). reflexivity.
Qed.

Lemma answer_is_correct (t : jsstring) :
  includes (js "the answer is 15/36") t = true ->
  existsb (fun pattern => test false pattern (toLowerCase t)) mathCompletionPatterns = true.
Proof.
  intros H. apply includes_toLowerCase in H.
  apply includes_split in H. destruct H as (a & b & E).
  assert (T : test false (Seq (Str (js "answer")) (Seq (Star Dot) (Str (js "15"))))
                (toLowerCase t) = true).
  { rewrite E.
    replace (a ++ toLowerCase (js "the answer is 15/36") ++ b)
      with ((a ++ js "the ") ++ (js "answer" ++ js " is " ++ js "15" ++ (js "/36" ++ b)))
      by (rewrite <- !app_assoc; reflexivity).
    apply test_intro, run_Str_any_Str. reflexivity. }
  unfold mathCompletionPatterns. cbn [existsb].
  rewrite T. rewrite ?orb_true_r. reflexivity.
Qed.

(** C6. A batch text that holds the phrase "the answer is 15/36" and
    for which no row of the scoring table fires (whether or not it also
    speaks of dice or probability) is analysed as a success with no
    concerning signal; the update that follows lowers the level by one,
    not below 0; and the cooldown [shouldNudge] applies is 5 seconds,
    whatever the level. *)
Theorem scenario_C (t : jsstring) (s : System) (now : Z)
    (Hanswer : includes (js "the answer is 15/36") t = true)
    (Herror : rowErrorTag t = false)
    (Hconfusion : rowConfusionTag t = false)
    (Hrepetition : rowRepetitionTag t = false)
    (Hdelay : rowLongDelay t = false)
    (Hswitching : rowContextSwitching t = false)
    (Hfrequent : rowFrequentErrors t = false)
    (Hfocus : rowProlongedFocus t = false)
    (Hmath : rowIncorrectMath t = false)
    (Htag : rowIncorrectTag t = false) :
  hasSuccessIndicators (patterns (analyzeStructuredText t)) = true
  /\ concerningSignals (analyzeStructuredText t) = 0
  /\ interferenceLevel (updateInterferenceLevel s (analyzeStructuredText t) now)
     = Z.max 0 (interferenceLevel s - 1)
  /\ forall (s' : System) (now' : Z),
       cooldown s' (analyzeStructuredText t) = 5000
       /\ shouldNudge s' (analyzeStructuredText t) now'
          = (now' - lastNudgeTime s' >? 5000).
Proof.
  assert (Hs : concerningSignals (analyzeStructuredText t) = 0).
  { rewrite analyze_score. unfold scoreTable.
    rewrite Htag, Hfrequent, Herror, Hconfusion, Hrepetition, Hdelay, Hswitching,
      Hfocus, Hmath. reflexivity. }
  assert (Hok : hasSuccessIndicators (patterns (analyzeStructuredText t)) = true).
  { change (getPattern SuccessIndicators (patterns (analyzeStructuredText t)) = true).
    rewrite analyze_pattern, (answer_is_math t Hanswer), (answer_is_correct t Hanswer).
    reflexivity. }
  split; [exact Hok|]. split; [exact Hs|]. split.
  - unfold updateInterferenceLevel. rewrite Hok, Hs. reflexivity.
  - intros s' now'.
    assert (C : cooldown s' (analyzeStructuredText t) = 5000).
    { unfold cooldown. rewrite Hok, Hs. simpl. rewrite andb_false_r. reflexivity. }
    split; [exact C|].
    unfold shouldNudge. rewrite C, Hok, Hs. reflexivity.
Qed.

(** The phrase in a sentence about two dice, at a system on level 2. *)
Lemma scenario_C_witness :
  hasSuccessIndicators (patterns (analyzeStructuredText Samples.scenarioCText)) = true
  /\ concerningSignals (analyzeStructuredText Samples.scenarioCText) = 0
  /\ interferenceLevel
       (updateInterferenceLevel
          {| nudgeHistory := []; interferenceLevel := 2; lastNudgeTime := 1700000000000 |}
          (analyzeStructuredText Samples.scenarioCText) 1700000030000)
     = 1.
Proof.
  destruct (scenario_C Samples.scenarioCText
              {| nudgeHistory := []; interferenceLevel := 2; lastNudgeTime := 1700000000000 |}
              1700000030000) as (H1 & H2 & H3 & _);
    try (vm_compute; reflexivity).
  repeat split; assumption.
Defined.

End AnalyzerProofs.

(* ===================================================================== *)
(** ** The activity buffer and the batch scheduler *)
(* ===================================================================== *)

Module TandemProofs.
Import Tandem.

Section Runs.

Variable parseURL : jsstring -> option (jsstring * jsstring).

Local Abbreviation processBatch := (processBatch parseURL).
Local Abbreviation pollTick := (pollTick parseURL).
Local Abbreviation forceProcessBatch := (forceProcessBatch parseURL).
Local Abbreviation createStructuredBatch := (createStructuredBatch parseURL).
Local Abbreviation step := (step parseURL).
Local Abbreviation run := (run parseURL).
Local Abbreviation quiet := (quiet parseURL).
Local Abbreviation sealed := (sealed parseURL).
Local Abbreviation schedulerSeals := (schedulerSeals parseURL).

Lemma processBatch_seals (p : Processor) (now nowText : Z) :
  batchData p <> [] ->
  processBatch p now nowText =
    ({| rawCaptureData := rawCaptureData p;
        structuredBatches := lastn 10 (structuredBatches p ++ [sealed p now nowText]);
        lastProcessTime := now;
        lastActivityTime := lastActivityTime p;
        isProcessing := false |}, Some (sealed p now nowText)).
Proof.
  intros H. unfold Tandem.processBatch, Tandem.sealed.
  destruct (batchData p) as [|e data] eqn:E; [contradiction|].
  rewrite cut_lastn. f_equal.
  change 10%nat with (S 9). rewrite lastn_snoc. apply last_snoc_Some.
Qed.

Lemma processBatch_empty (p : Processor) (now nowText : Z) :
  batchData p = [] ->
  processBatch p now nowText =
    ({| rawCaptureData := rawCaptureData p; structuredBatches := structuredBatches p;
        lastProcessTime := lastProcessTime p; lastActivityTime := lastActivityTime p;
        isProcessing := false |}, None).
Proof. intros H. unfold Tandem.processBatch. rewrite H. reflexivity. Qed.

Lemma processBatch_keeps (p : Processor) (now nowText : Z) :
  rawCaptureData (fst (processBatch p now nowText)) = rawCaptureData p
  /\ lastActivityTime (fst (processBatch p now nowText)) = lastActivityTime p
  /\ isProcessing (fst (processBatch p now nowText)) = false.
Proof.
  destruct (batchData p) as [|e data] eqn:E.
  - rewrite processBatch_empty by assumption. repeat split.
  - rewrite processBatch_seals by congruence. repeat split.
Qed.


Lemma forceProcessBatch_keeps (p : Processor) (now nowText : Z) :
  rawCaptureData (fst (forceProcessBatch p now nowText)) = rawCaptureData p
  /\ lastActivityTime (fst (forceProcessBatch p now nowText)) = lastActivityTime p
  /\ lastProcessTime (fst (forceProcessBatch p now nowText)) = lastProcessTime p
  /\ (isProcessing p = false -> isProcessing (fst (forceProcessBatch p now nowText)) = false).
Proof.
  unfold Tandem.forceProcessBatch.
  destruct (rawCaptureData p) as [|e raw] eqn:E; [simpl; repeat split; auto|].
  destruct (processBatch_keeps (withLastProcessTime p 0) now nowText) as (H1 & H2 & H3).
  destruct (processBatch (withLastProcessTime p 0) now nowText) as [p1 b].
  simpl in *. rewrite H1, H2, H3. repeat split; auto.
Qed.

(** *** The buffer along a run *)




Lemma run_cons (p : Processor) (ev : Event) (evs : list Event) :
  run p (ev :: evs) = run (fst (step p ev)) evs.
Proof. reflexivity. Qed.



(** *** C3: the 45-second ceiling *)




(** *** C10: a manual trigger and the next seal of the scheduler *)

Lemma step_quiet_lastProcessTime (p : Processor) (ev : Event) :
  schedulerSeals p ev = false ->
  lastProcessTime (fst (step p ev)) = lastProcessTime p.
Proof.
  destruct ev as [e now | nowCheck now nowText | now nowText];
    unfold Tandem.schedulerSeals, Tandem.step; intros H.
  - reflexivity.
  - unfold Tandem.pollTick in *.
    destruct (negb (isProcessing p) && _); [|reflexivity].
    destruct (shouldProcessBatch p nowCheck); [|reflexivity].
    destruct (batchData p) as [|x data] eqn:E.
    + rewrite processBatch_empty by assumption. reflexivity.
    + rewrite processBatch_seals in H by congruence. discriminate H.
  - apply forceProcessBatch_keeps.
Qed.

Lemma quiet_lastProcessTime (evs : list Event) (p : Processor) :
  quiet p evs = true -> lastProcessTime (run p evs) = lastProcessTime p.
Proof.
  revert p. induction evs as [|ev evs IH]; intros p H; [reflexivity|].
  simpl in H. apply andb_true_iff in H. destruct H as [H1 H2].
  apply negb_true_iff in H1.
  rewrite run_cons, (IH _ H2). apply step_quiet_lastProcessTime. exact H1.
Qed.

Lemma pollTick_result (p : Processor) (nowCheck now nowText : Z) (b : Batch) :
  snd (pollTick p nowCheck now nowText) = Some b -> b = sealed p now nowText.
Proof.
  unfold Tandem.pollTick.
  destruct (negb (isProcessing p) && _); [|discriminate].
  destruct (shouldProcessBatch p nowCheck); [|discriminate].
  destruct (batchData p) as [|x data] eqn:E.
  - rewrite processBatch_empty by assumption. discriminate.
  - rewrite processBatch_seals by congruence. simpl. congruence.
Qed.

(** C10, amended. [forceProcessBatch] leaves [lastProcessTime] at the
    value it had before the forced seal.  So an entry of the forced
    batch that was received later than the previous seal of the
    scheduler, and that is still in the buffer when the scheduler seals
    next, is in that batch too; an entry the scheduler had sealed before
    the trigger is not sealed again. *)
Theorem forced_entries_sealed_again (p : Processor) (now nowText : Z)
    (evs : list Event) (e : RawEntry) (nowCheck' now' nowText' : Z) (b : Batch)
    (Hforced : In e (batchData (withLastProcessTime p 0)))
    (Hquiet : quiet (fst (forceProcessBatch p now nowText)) evs = true)
    (Hbuffered : In e (rawCaptureData (run (fst (forceProcessBatch p now nowText)) evs)))
    (Hnext : snd (pollTick (run (fst (forceProcessBatch p now nowText)) evs)
                    nowCheck' now' nowText') = Some b) :
  let p' := run (fst (forceProcessBatch p now nowText)) evs in
  lastProcessTime (fst (forceProcessBatch p now nowText)) = lastProcessTime p
  /\ structuredText b = createStructuredBatch (batchData p') nowText'
  /\ rawEntryCount b = Z.of_nat (length (batchData p'))
  /\ (In e (batchData p') <-> receivedAt e > lastProcessTime p).
Proof.
  cbv zeta.
  destruct (forceProcessBatch_keeps p now nowText) as (_ & _ & Hlast & _).
  split; [exact Hlast|].
  apply pollTick_result in Hnext. subst b.
  split; [reflexivity|]. split; [reflexivity|].
  unfold batchData at 1.
  rewrite (quiet_lastProcessTime evs _ Hquiet), Hlast.
  rewrite filter_In. split.
  - intros [_ H]. apply Z.gtb_lt in H. lia.
  - intros H. split; [exact Hbuffered|]. apply Z.gtb_lt. lia.
Qed.

End Runs.

(** *** The sample sessions *)


(** C10, as stated, fails: the entry received at [t0 + 1000] was sealed
    by the scheduler at [t0 + 46000]; the manual trigger at [t0 + 51000]
    puts it in the forced batch again, next to the entry received at
    [t0 + 50000]; both are still in the buffer when the scheduler seals
    at [t0 + 61000], and that batch holds the second entry only. *)
Lemma forced_batch_entry_not_sealed_again :
  lastProcessTime (Tandem.run Samples.parseURL new Samples.shortSession)
  = Samples.t0 + 46000
  /\ map receivedAt
       (batchData (withLastProcessTime
                     (Tandem.run Samples.parseURL new Samples.shortSession) 0))
     = [Samples.t0 + 1000; Samples.t0 + 50000]
  /\ option_map rawEntryCount
       (snd (Tandem.forceProcessBatch Samples.parseURL
               (Tandem.run Samples.parseURL new Samples.shortSession)
               (Samples.t0 + 51000) (Samples.t0 + 51000)))
     = Some 2
  /\ map receivedAt
       (rawCaptureData
          (Tandem.run Samples.parseURL new
             (Samples.shortSession
              ++ [Manual (Samples.t0 + 51000) (Samples.t0 + 51000)])))
     = [Samples.t0 + 1000; Samples.t0 + 50000]
  /\ option_map rawEntryCount
       (snd (Tandem.pollTick Samples.parseURL
               (Tandem.run Samples.parseURL new
                  (Samples.shortSession
                   ++ [Manual (Samples.t0 + 51000) (Samples.t0 + 51000)]))
               (Samples.t0 + 61000) (Samples.t0 + 61000) (Samples.t0 + 61000)))
     = Some 1
  /\ map receivedAt
       (batchData
          (Tandem.run Samples.parseURL new
             (Samples.shortSession
              ++ [Manual (Samples.t0 + 51000) (Samples.t0 + 51000)])))
     = [Samples.t0 + 50000].
Proof. vm_compute. repeat split; reflexivity. Qed.


(** The short session, a manual trigger, and the scheduler's seal ten
    seconds later: the entry received at [t0 + 50000] is sealed again. *)
Lemma forced_entries_sealed_again_witness :
  In {| entry := Samples.typing (Samples.t0 + 50000); receivedAt := Samples.t0 + 50000 |}
    (batchData
       (Tandem.run Samples.parseURL
          (fst (Tandem.forceProcessBatch Samples.parseURL
                  (Tandem.run Samples.parseURL new Samples.shortSession)
                  (Samples.t0 + 51000) (Samples.t0 + 51000)))
          []))
  <-> Samples.t0 + 50000 > Samples.t0 + 46000.
Proof.
  pose (p := Tandem.run Samples.parseURL new Samples.shortSession).
  pose (e := {| entry := Samples.typing (Samples.t0 + 50000);
                receivedAt := Samples.t0 + 50000 |}).
  destruct (Tandem.pollTick Samples.parseURL
              (Tandem.run Samples.parseURL
                 (fst (Tandem.forceProcessBatch Samples.parseURL p
                         (Samples.t0 + 51000) (Samples.t0 + 51000))) [])
              (Samples.t0 + 61000) (Samples.t0 + 61000) (Samples.t0 + 61000))
    as [p3 [b|]] eqn:E.
  - destruct (forced_entries_sealed_again Samples.parseURL p (Samples.t0 + 51000) (Samples.t0 + 51000)
                [] e (Samples.t0 + 61000) (Samples.t0 + 61000) (Samples.t0 + 61000) b)
      as (_ & _ & _ & H).
    + right. left. reflexivity.
    + reflexivity.
    + right. left. reflexivity.
    + rewrite E. reflexivity.
    + exact H.
  - vm_compute in E. discriminate E.
Defined.

End TandemProofs.

(* ===================================================================== *)
(** ** From the composer to the analyzer *)
(* ===================================================================== *)

Module PipelineProofs.
Import Tandem Nudge JSFacts.

Lemma composeEntry_extends (acc : jsstring * option Z) (e : RawEntry) :
  exists suffix, fst (composeEntry acc e) = fst acc ++ suffix.
Proof.
  unfold composeEntry.
  destruct (snd acc) as [lastTimestamp|];
    [destruct (negb (lastTimestamp =? 0) && _)|];
    destruct (truthy (trim _)); cbn [fst];
    rewrite <- ?app_assoc; eexists; try reflexivity;
    symmetry; apply app_nil_r.
Qed.

Lemma compose_extends (l : list RawEntry) (acc : jsstring * option Z) :
  exists suffix, fst (fold_left composeEntry l acc) = fst acc ++ suffix.
Proof.
  revert acc. induction l as [|e l IH]; intros acc.
  - exists []. symmetry. apply app_nil_r.
  - simpl. destruct (IH (composeEntry acc e)) as [s1 E1].
    destruct (composeEntry_extends acc e) as [s2 E2].
    exists (s2 ++ s1). rewrite E1, E2, app_assoc. reflexivity.
Qed.

(** Every composed batch opens with [<batch timestamp=]. *)
Lemma createStructuredBatch_opening (parseURL : jsstring -> option (jsstring * jsstring))
    (data : list RawEntry) (now : Z) :
  exists body,
    createStructuredBatch parseURL data now = js "<batch timestamp" ++ js "=" ++ body.
Proof.
  unfold createStructuredBatch.
  match goal with |- context [fold_left composeEntry ?l ?acc] =>
    destruct (compose_extends l acc) as [s1 E1]; rewrite E1 end.
  cbn [fst].
  replace (js "<batch timestamp=") with (js "<batch timestamp" ++ js "=")
    by (vm_compute; reflexivity).
  set (opening := js "<batch timestamp").
  set (sign := js "=").
  destruct (last (map Some (sortByTime data)) None) as [lastEntry|];
    [destruct (truthy (url (entry lastEntry)))|];
    rewrite <- ?app_assoc; eexists; reflexivity.
Qed.

Lemma equals_sign_is_math (t : jsstring) :
  includes (js "=") t = true -> hasMathContent (detectMathematicalContent t) = true.
Proof.
  intros H. apply includes_split in H. destruct H as (a & b & ->).
  unfold detectMathematicalContent.
  replace (test false mathExpressions (a ++ js "=" ++ b)) with true.
  - rewrite !orb_true_r. reflexivity.
  - symmetry. apply (test_Class _ a b 61%N). reflexivity.
Qed.

Lemma equals_sign_is_completion (t : jsstring) :
  includes (js "=") t = true -> someIncluded completionKeywords t = true.
Proof.
  intros H. apply includes_toLowerCase in H.
  change (toLowerCase (js "=")) with (js "=") in H.
  unfold someIncluded, completionKeywords. cbn [map existsb].
  rewrite H. rewrite ?orb_true_r. reflexivity.
Qed.

(** C9. The text [createStructuredBatch] produces for a non-empty entry
    set holds the equals sign (its opening tag starts with
    [<batch timestamp=]), so its analysis has
    [hasMathematicalContent] and [hasCompletionSignals] set, and as soon
    as the analysis has a concerning signal the cooldown of
    [shouldNudge] is the level's table value cut to 8 seconds. *)
Theorem composed_batch_reads_as_mathematical
    (parseURL : jsstring -> option (jsstring * jsstring))
    (data : list RawEntry) (now : Z) (Hdata : data <> []) :
  let t := createStructuredBatch parseURL data now in
  let a := analyzeStructuredText t in
  includes (js "=") t = true
  /\ hasMathematicalContent (patterns a) = true
  /\ hasCompletionSignals (patterns a) = true
  /\ forall s : System,
       concerningSignals a > 0 ->
       cooldown s a
       = Z.min (match nudgeCooldowns (interferenceLevel s) with
                | Some c => c
                | None => 30000
                end) 8000
       /\ cooldown s a <= 8000.
Proof.
  cbv zeta.
  destruct (createStructuredBatch_opening parseURL data now) as [body E].
  assert (H : includes (js "=") (createStructuredBatch parseURL data now) = true)
    by (rewrite E; apply includes_app).
  set (t := createStructuredBatch parseURL data now) in *.
  assert (Hm : hasMathematicalContent (patterns (analyzeStructuredText t)) = true).
  { change (getPattern MathematicalContent (patterns (analyzeStructuredText t)) = true).
    rewrite AnalyzerProofs.analyze_pattern. apply equals_sign_is_math, H. }
  assert (Hc : hasCompletionSignals (patterns (analyzeStructuredText t)) = true).
  { change (getPattern CompletionSignals (patterns (analyzeStructuredText t)) = true).
    rewrite AnalyzerProofs.analyze_pattern. apply equals_sign_is_completion, H. }
  repeat split; try assumption.
  - unfold cooldown. rewrite Hm.
    replace (concerningSignals (analyzeStructuredText t) >? 0) with true
      by (symmetry; apply Z.gtb_lt; lia).
    rewrite andb_false_r. reflexivity.
  - unfold cooldown. rewrite Hm.
    replace (concerningSignals (analyzeStructuredText t) >? 0) with true
      by (symmetry; apply Z.gtb_lt; lia).
    cbn [andb]. lia.
Qed.

(** The batch the scheduler would seal after the short session. *)
Lemma composed_batch_reads_as_mathematical_witness :
  includes (js "=")
    (createStructuredBatch Samples.parseURL
       (rawCaptureData (Tandem.run Samples.parseURL Tandem.new Samples.shortSession))
       (Samples.t0 + 61000)) = true
  /\ hasMathematicalContent
       (patterns
          (analyzeStructuredText
             (createStructuredBatch Samples.parseURL
                (rawCaptureData (Tandem.run Samples.parseURL Tandem.new Samples.shortSession))
                (Samples.t0 + 61000)))) = true.
Proof.
  destruct (composed_batch_reads_as_mathematical Samples.parseURL
              (rawCaptureData (Tandem.run Samples.parseURL Tandem.new Samples.shortSession))
              (Samples.t0 + 61000)) as (H1 & H2 & _).
  - vm_compute. discriminate.
  - split; assumption.
Defined.

End PipelineProofs.

(* ===================================================================== *)
(** ** The buffer, the batch history and the manual seal *)
(* ===================================================================== *)

Module HistoryProofs.
Import Tandem TandemSpec JSFacts.

(** *** The buffer *)

(** X1. A capture is appended to the buffer with the clock reading of
    its arrival, and the buffer then holds exactly the entries, old and
    new, received less than two minutes before that reading; the time of
    the last activity is that reading, and neither the time of the last
    seal nor the batch history moves. *)
Theorem capture_keeps_last_two_minutes (p : Processor) (e : CaptureEntry) (now : Z) :
  let arrived := {| entry := e; receivedAt := now |} in
  let p' := addCaptureData p e now in
  (exists kept, rawCaptureData p' = kept ++ [arrived])
  /\ (forall x, In x (rawCaptureData p') <->
                receivedAt x > now - 120000 /\ (In x (rawCaptureData p) \/ x = arrived))
  /\ lastActivityTime p' = now
  /\ lastProcessTime p' = lastProcessTime p
  /\ structuredBatches p' = structuredBatches p.
Proof.
  cbv zeta. unfold addCaptureData. cbn [rawCaptureData lastActivityTime lastProcessTime structuredBatches].
  replace (now - 2 * 60 * 1000) with (now - 120000) by lia.
  repeat split; try reflexivity.
  - rewrite filter_app. cbn [filter receivedAt].
    replace (now >? now - 120000) with true by (symmetry; apply Z.gtb_lt; lia).
    eexists. reflexivity.
  - rewrite filter_In in H. destruct H as [_ H]. apply Z.gtb_lt in H. lia.
  - rewrite filter_In, in_app_iff in H. destruct H as [[H|[H|[]]] _]; auto.
  - intros [H1 H2]. apply filter_In. split.
    + apply in_app_iff. destruct H2 as [H2|H2]; [left; exact H2 | right; left; auto].
    + apply Z.gtb_lt. lia.
Qed.


(** *** The batch history *)


Section History.

Variable parseURL : jsstring -> option (jsstring * jsstring).




(** *** A manual seal *)

Lemma batchData_all (p : Processor) :
  (forall e, In e (rawCaptureData p) -> receivedAt e > 0) ->
  batchData (withLastProcessTime p 0) = rawCaptureData p.
Proof.
  intros H. unfold batchData. cbn [lastProcessTime rawCaptureData withLastProcessTime].
  induction (rawCaptureData p) as [|x l IH]; [reflexivity|].
  simpl. replace (receivedAt x >? 0) with true.
  - f_equal. apply IH. intros e He. apply H. right. exact He.
  - symmetry. apply Z.gtb_lt. specialize (H x (or_introl eq_refl)). lia.
Qed.

Lemma forceProcessBatch_seals (p : Processor) (now nowText : Z) :
  rawCaptureData p <> [] ->
  (forall e, In e (rawCaptureData p) -> receivedAt e > 0) ->
  forceProcessBatch parseURL p now nowText
  = ({| rawCaptureData := rawCaptureData p;
        structuredBatches :=
          lastn 10 (structuredBatches p
                    ++ [sealed parseURL (withLastProcessTime p 0) now nowText]);
        lastProcessTime := lastProcessTime p;
        lastActivityTime := lastActivityTime p;
        isProcessing := false |},
     Some (sealed parseURL (withLastProcessTime p 0) now nowText)).
Proof.
  intros Hne Hclock. pose proof (batchData_all p Hclock) as Hall.
  unfold forceProcessBatch.
  destruct (rawCaptureData p) as [|x raw] eqn:E; [contradiction|].
  rewrite TandemProofs.processBatch_seals by (rewrite Hall; discriminate).
  unfold withLastProcessTime. cbn [rawCaptureData structuredBatches lastProcessTime
    lastActivityTime isProcessing]. rewrite E. reflexivity.
Qed.

(** X3. [forceProcessBatch] on an empty buffer returns nothing and
    changes nothing; on a buffer of entries received at positive clock
    readings it seals one batch from the whole buffer, whatever was
    sealed before, and leaves the buffer and [lastProcessTime] as they
    were. *)
Theorem manual_seal_takes_whole_buffer (p : Processor) (now nowText : Z)
    (Hclock : forall e, In e (rawCaptureData p) -> receivedAt e > 0) :
  match rawCaptureData p with
  | [] => forceProcessBatch parseURL p now nowText = (p, None)
  | _ :: _ =>
      exists b,
        snd (forceProcessBatch parseURL p now nowText) = Some b
        /\ rawEntryCount b = Z.of_nat (length (rawCaptureData p))
        /\ structuredText b = createStructuredBatch parseURL (rawCaptureData p) nowText
        /\ batch_timestamp b = now
        /\ getLatestStructuredBatch (fst (forceProcessBatch parseURL p now nowText)) = Some b
        /\ rawCaptureData (fst (forceProcessBatch parseURL p now nowText)) = rawCaptureData p
        /\ lastProcessTime (fst (forceProcessBatch parseURL p now nowText)) = lastProcessTime p
  end.
Proof.
  pose proof (batchData_all p Hclock) as Hall.
  unfold forceProcessBatch.
  destruct (rawCaptureData p) as [|x raw] eqn:E; [reflexivity|].
  rewrite TandemProofs.processBatch_seals by (rewrite Hall; discriminate).
  exists (sealed parseURL (withLastProcessTime p 0) now nowText).
  unfold sealed. rewrite Hall.
  unfold getLatestStructuredBatch, withLastProcessTime.
  cbn [fst snd rawEntryCount structuredText batch_timestamp rawCaptureData lastProcessTime
       structuredBatches].
  change 10%nat with (S 9). rewrite lastn_snoc, last_snoc_Some.
  rewrite ?E. repeat split; reflexivity.
Qed.

End History.

Lemma manual_seal_takes_whole_buffer_witness :
  exists b,
    snd (forceProcessBatch Samples.parseURL
           (Tandem.run Samples.parseURL new Samples.shortSession)
           (Samples.t0 + 51000) (Samples.t0 + 51000)) = Some b
    /\ rawEntryCount b = 2.
Proof.
  pose proof (manual_seal_takes_whole_buffer Samples.parseURL
                (Tandem.run Samples.parseURL new Samples.shortSession)
                (Samples.t0 + 51000) (Samples.t0 + 51000)) as H.
  assert (Hc : forall e, In e (rawCaptureData
                                 (Tandem.run Samples.parseURL new Samples.shortSession)) ->
                         receivedAt e > 0).
  { intros e He. vm_compute in He.
    destruct He as [<-|[<-|[]]]; reflexivity. }
  specialize (H Hc).
  destruct (rawCaptureData (Tandem.run Samples.parseURL new Samples.shortSession))
    as [|x raw] eqn:E; [vm_compute in E; discriminate E|].
  destruct H as (b & H1 & H2 & _).
  exists b. split; [exact H1|]. rewrite H2.
  assert (L : length (rawCaptureData (Tandem.run Samples.parseURL new Samples.shortSession))
              = 2%nat) by (vm_compute; reflexivity).
  rewrite E in L. rewrite L. reflexivity.
Defined.

End HistoryProofs.

(* ===================================================================== *)
(** ** The scheduler and the order of a batch *)
(* ===================================================================== *)

Module SchedulerProofs.
Import Tandem TandemSpec JSFacts.

(** *** Urgent signals *)

Lemma countUrgent_grows (l : list RawEntry) (c : Z) : c <= fold_left countUrgent l c.
Proof.
  revert c. induction l as [|x l IH]; intros c; simpl; [lia|].
  specialize (IH (countUrgent c x)). unfold countUrgent in *.
  destruct (truthy _ && _); lia.
Qed.

Lemma two_urgent_entries (p : Processor) (older : list RawEntry) (e1 e2 : RawEntry) :
  rawCaptureData p = older ++ [e1; e2] ->
  urgent e1 = true -> urgent e2 = true ->
  hasUrgentSignals p = true.
Proof.
  intros E H1 H2. unfold hasUrgentSignals. rewrite E.
  replace (older ++ [e1; e2]) with ((older ++ [e1]) ++ [e2])
    by (rewrite <- app_assoc; reflexivity).
  change 3%nat with (S (S 1)). rewrite !lastn_snoc.
  rewrite <- app_assoc. cbn [app].
  change (fun (count : Z) (e : RawEntry) =>
            if truthy (diff (entry e)) && someIncluded urgentKeywords (diff (entry e))
            then count + 1 else count) with countUrgent.
  rewrite fold_left_app. cbn [fold_left].
  unfold urgent in H1, H2. unfold countUrgent at 1 2. rewrite H1, H2.
  apply Z.geb_le. pose proof (countUrgent_grows (lastn 1 older) 0). lia.
Qed.

Section Scheduler.

Variable parseURL : jsstring -> option (jsstring * jsstring).

(** X4. When the two newest entries of the buffer both hold an urgent
    keyword and at least 15 seconds have passed since the previous seal,
    the tick seals a batch with the newest entry in it, however recent
    the last capture is. *)
Theorem urgent_signals_seal_early (p : Processor) (older : list RawEntry)
    (e1 e2 : RawEntry) (nowCheck now nowText : Z)
    (Hidle : isProcessing p = false)
    (Hbuffer : rawCaptureData p = older ++ [e1; e2])
    (Hfirst : urgent e1 = true)
    (Hsecond : urgent e2 = true)
    (Hfresh : receivedAt e2 > lastProcessTime p)
    (Hgate : nowCheck - lastProcessTime p >= minWaitTime) :
  shouldProcessBatch p nowCheck <> None
  /\ snd (pollTick parseURL p nowCheck now nowText) = Some (sealed parseURL p now nowText)
  /\ In e2 (batchData p)
  /\ lastProcessTime (fst (pollTick parseURL p nowCheck now nowText)) = now.
Proof.
  pose proof (two_urgent_entries p older e1 e2 Hbuffer Hfirst Hsecond) as Hu.
  assert (Hin : In e2 (batchData p)).
  { unfold batchData. apply filter_In. split.
    - rewrite Hbuffer. apply in_or_app. right. right. left. reflexivity.
    - apply Z.gtb_lt. lia. }
  assert (Hne : batchData p <> []) by (intros E; rewrite E in Hin; exact Hin).
  assert (Hs : shouldProcessBatch p nowCheck <> None).
  { unfold shouldProcessBatch.
    destruct (_ >=? maxWaitTime); [discriminate|].
    destruct (Z.ltb_spec (nowCheck - lastProcessTime p) minWaitTime); [lia|].
    destruct (_ >=? thoughtCompleteThreshold); [discriminate|].
    destruct (detectNaturalBreak p); [discriminate|].
    rewrite Hu. discriminate. }
  split; [exact Hs|].
  unfold pollTick. rewrite Hidle, Hbuffer.
  replace (0 <? length (older ++ [e1; e2]))%nat with true
    by (symmetry; apply Nat.ltb_lt; rewrite length_app; simpl; lia).
  cbn [negb andb].
  destruct (shouldProcessBatch p nowCheck); [|contradiction].
  rewrite (TandemProofs.processBatch_seals parseURL p now nowText Hne).
  repeat split; [exact Hin].
Qed.

(** X6. Less than 45 seconds after the last capture and less than 15
    seconds after the previous seal, a tick changes nothing, whatever the
    buffer holds. *)
Theorem min_wait_gate (p : Processor) (nowCheck now nowText : Z)
    (Hrecent : nowCheck - lastActivityTime p < maxWaitTime)
    (Hgate : nowCheck - lastProcessTime p < minWaitTime) :
  pollTick parseURL p nowCheck now nowText = (p, None).
Proof.
  unfold pollTick, shouldProcessBatch.
  destruct (Z.geb_spec (nowCheck - lastActivityTime p) maxWaitTime); [lia|].
  destruct (Z.ltb_spec (nowCheck - lastProcessTime p) minWaitTime); [|lia].
  destruct (negb (isProcessing p) && _); reflexivity.
Qed.

End Scheduler.

Lemma urgent_signals_seal_early_witness :
  shouldProcessBatch Scenarios.stuckProcessor (Samples.t0 + 19000) <> None
  /\ snd (pollTick Samples.parseURL Scenarios.stuckProcessor
            (Samples.t0 + 19000) (Samples.t0 + 19000) (Samples.t0 + 19000))
     = Some (sealed Samples.parseURL Scenarios.stuckProcessor
               (Samples.t0 + 19000) (Samples.t0 + 19000))
  /\ In {| entry := Scenarios.struggling (Samples.t0 + 18000);
           receivedAt := Samples.t0 + 18000 |}
        (batchData Scenarios.stuckProcessor)
  /\ lastProcessTime
       (fst (pollTick Samples.parseURL Scenarios.stuckProcessor
               (Samples.t0 + 19000) (Samples.t0 + 19000) (Samples.t0 + 19000)))
     = Samples.t0 + 19000.
Proof.
  apply (urgent_signals_seal_early Samples.parseURL Scenarios.stuckProcessor []
           {| entry := Scenarios.struggling (Samples.t0 + 16000);
              receivedAt := Samples.t0 + 16000 |}
           {| entry := Scenarios.struggling (Samples.t0 + 18000);
              receivedAt := Samples.t0 + 18000 |}
           (Samples.t0 + 19000) (Samples.t0 + 19000) (Samples.t0 + 19000));
    vm_compute; first [reflexivity | discriminate].
Defined.

Lemma min_wait_gate_witness :
  pollTick Samples.parseURL (Tandem.run Samples.parseURL new Samples.shortSession)
    (Samples.t0 + 51000) (Samples.t0 + 51000) (Samples.t0 + 51000)
  = (Tandem.run Samples.parseURL new Samples.shortSession, None).
Proof.
  apply (min_wait_gate Samples.parseURL
           (Tandem.run Samples.parseURL new Samples.shortSession)
           (Samples.t0 + 51000) (Samples.t0 + 51000) (Samples.t0 + 51000));
    vm_compute; reflexivity.
Defined.

(** *** The composer *)

Lemma insertByTime_perm (e : RawEntry) (l : list RawEntry) :
  Permutation (insertByTime e l) (e :: l).
Proof.
  induction l as [|x l IH]; simpl; [reflexivity|].
  destruct (capturedAt (entry e) <=? capturedAt (entry x)); [reflexivity|].
  rewrite IH. apply perm_swap.
Qed.

Lemma insertByTime_sorted (e : RawEntry) (l : list RawEntry) :
  Sorted byTime l -> Sorted byTime (insertByTime e l).
Proof.
  induction l as [|x l IH]; intros H; simpl.
  - repeat constructor.
  - destruct (Z.leb_spec (capturedAt (entry e)) (capturedAt (entry x))).
    + constructor; [exact H|]. constructor. exact H0.
    + inversion H as [|? ? Hs Hh]; subst. constructor; [apply IH, Hs|].
      destruct l as [|y l]; simpl.
      * constructor. unfold byTime. lia.
      * destruct (Z.leb_spec (capturedAt (entry e)) (capturedAt (entry y))).
        -- constructor. unfold byTime. lia.
        -- constructor. inversion Hh; subst. assumption.
Qed.

Lemma insertByTime_stable (k : Z) (e : RawEntry) (l : list RawEntry) :
  filter (fun x => capturedAt (entry x) =? k) (insertByTime e l)
  = filter (fun x => capturedAt (entry x) =? k) (e :: l).
Proof.
  induction l as [|x l IH]; [reflexivity|].
  simpl insertByTime.
  destruct (Z.leb_spec (capturedAt (entry e)) (capturedAt (entry x))); [reflexivity|].
  simpl filter at 1. rewrite IH. simpl.
  destruct (Z.eqb_spec (capturedAt (entry x)) k), (Z.eqb_spec (capturedAt (entry e)) k);
    try reflexivity. lia.
Qed.

Lemma sortByTime_perm (data : list RawEntry) : Permutation (sortByTime data) data.
Proof.
  induction data as [|e data IH]; [constructor|].
  unfold sortByTime in *. simpl fold_right. rewrite insertByTime_perm.
  constructor. exact IH.
Qed.

(** X7. The order in which the composer walks a batch is a stable sort of
    it by capture time: the same entries, in non-decreasing order of
    [capturedAt], entries captured at the same time in their order of
    receipt. *)
Theorem composer_order_is_stable_sort (data : list RawEntry) :
  Permutation (sortByTime data) data
  /\ Sorted byTime (sortByTime data)
  /\ forall k, filter (fun x => capturedAt (entry x) =? k) (sortByTime data)
               = filter (fun x => capturedAt (entry x) =? k) data.
Proof.
  induction data as [|e data (IH1 & IH2 & IH3)].
  - repeat split; constructor.
  - unfold sortByTime in *. simpl fold_right. repeat split.
    + rewrite insertByTime_perm. constructor. exact IH1.
    + apply insertByTime_sorted, IH2.
    + intros k. rewrite insertByTime_stable. simpl. rewrite IH3. reflexivity.
Qed.

Lemma fold_min_le (l : list Z) (d x : Z) : In x l -> fold_right Z.min d l <= x.
Proof.
  induction l as [|y l IH]; simpl; [tauto|].
  intros [->|H]; [lia|]. specialize (IH H). lia.
Qed.

Lemma fold_max_ge (l : list Z) (d x : Z) : In x l -> x <= fold_right Z.max d l.
Proof.
  induction l as [|y l IH]; simpl; [tauto|].
  intros [->|H]; [lia|]. specialize (IH H). lia.
Qed.

(** X8. The timespan of a batch is never negative and bounds the
    distance in capture time between any two of its entries. *)
Theorem timespan_bounds_every_pair (data : list RawEntry) (x y : RawEntry)
    (Hx : In x data) (Hy : In y data) :
  0 <= calculateTimespan data
  /\ capturedAt (entry x) - capturedAt (entry y) <= calculateTimespan data.
Proof.
  unfold calculateTimespan.
  destruct (Nat.ltb_spec (length data) 2) as [Hl|Hl].
  - destruct data as [|a [|b data]]; simpl in Hl; try lia; [contradiction|].
    destruct Hx as [<-|[]], Hy as [<-|[]]. lia.
  - set (times := map (fun e => capturedAt (entry e)) data).
    assert (Tx : In (capturedAt (entry x)) times) by (apply in_map_iff; eauto).
    assert (Ty : In (capturedAt (entry y)) times) by (apply in_map_iff; eauto).
    pose proof (fold_min_le times (hd 0 times) _ Ty).
    pose proof (fold_max_ge times (hd 0 times) _ Tx).
    pose proof (fold_min_le times (hd 0 times) _ Tx).
    lia.
Qed.

Lemma timespan_bounds_every_pair_witness :
  0 <= calculateTimespan (received Samples.shortSession)
  /\ (Samples.t0 + 50000) - (Samples.t0 + 1000)
     <= calculateTimespan (received Samples.shortSession).
Proof.
  apply (timespan_bounds_every_pair (received Samples.shortSession)
           {| entry := Samples.typing (Samples.t0 + 50000); receivedAt := Samples.t0 + 50000 |}
           {| entry := Samples.typing (Samples.t0 + 1000); receivedAt := Samples.t0 + 1000 |}).
  - right. left. reflexivity.
  - left. reflexivity.
Defined.

End SchedulerProofs.

(* ===================================================================== *)
(** ** Natural breaks and repeated words *)
(* ===================================================================== *)

Module BreakProofs.
Import Tandem TandemSpec JSFacts.

Lemma completed_is_a_break (p : Processor) (older : list RawEntry) (e : RawEntry) :
  rawCaptureData p = older ++ [e] ->
  (2 <= length older)%nat ->
  completes e = true ->
  detectNaturalBreak p = true.
Proof.
  intros E Hl Hc. unfold detectNaturalBreak. rewrite E.
  replace (length (older ++ [e]) <? 3)%nat with false
    by (symmetry; apply Nat.ltb_ge; rewrite length_app; simpl; lia).
  cbv zeta. change 5%nat with (S 4). rewrite lastn_snoc, last_snoc_Some.
  unfold completes in Hc. rewrite Hc. reflexivity.
Qed.

Section Scheduler.

Variable parseURL : jsstring -> option (jsstring * jsstring).

(** X5. When the newest of at least three buffered entries holds a
    completion word and at least 15 seconds have passed since the previous
    seal, the tick seals a batch with that entry in it, however recent the
    last capture is. *)
Theorem completion_word_seals_early (p : Processor) (older : list RawEntry)
    (e : RawEntry) (nowCheck now nowText : Z)
    (Hidle : isProcessing p = false)
    (Hbuffer : rawCaptureData p = older ++ [e])
    (Hthree : (2 <= length older)%nat)
    (Hdone : completes e = true)
    (Hfresh : receivedAt e > lastProcessTime p)
    (Hgate : nowCheck - lastProcessTime p >= minWaitTime) :
  shouldProcessBatch p nowCheck <> None
  /\ snd (pollTick parseURL p nowCheck now nowText) = Some (sealed parseURL p now nowText)
  /\ In e (batchData p)
  /\ lastProcessTime (fst (pollTick parseURL p nowCheck now nowText)) = now.
Proof.
  pose proof (completed_is_a_break p older e Hbuffer Hthree Hdone) as Hb.
  assert (Hin : In e (batchData p)).
  { unfold batchData. apply filter_In. split.
    - rewrite Hbuffer. apply in_or_app. right. left. reflexivity.
    - apply Z.gtb_lt. lia. }
  assert (Hne : batchData p <> []) by (intros E; rewrite E in Hin; exact Hin).
  assert (Hs : shouldProcessBatch p nowCheck <> None).
  { unfold shouldProcessBatch.
    destruct (_ >=? maxWaitTime); [discriminate|].
    destruct (Z.ltb_spec (nowCheck - lastProcessTime p) minWaitTime); [lia|].
    destruct (_ >=? thoughtCompleteThreshold); [discriminate|].
    rewrite Hb. discriminate. }
  split; [exact Hs|].
  unfold pollTick. rewrite Hidle, Hbuffer.
  replace (0 <? length (older ++ [e]))%nat with true
    by (symmetry; apply Nat.ltb_lt; rewrite length_app; simpl; lia).
  cbn [negb andb].
  destruct (shouldProcessBatch p nowCheck); [|contradiction].
  rewrite (TandemProofs.processBatch_seals parseURL p now nowText Hne).
  repeat split; [exact Hin].
Qed.

End Scheduler.

Lemma completion_word_seals_early_witness :
  shouldProcessBatch Scenarios.doneProcessor (Samples.t0 + 17000) <> None
  /\ snd (pollTick Samples.parseURL Scenarios.doneProcessor
            (Samples.t0 + 17000) (Samples.t0 + 17000) (Samples.t0 + 17000))
     = Some (sealed Samples.parseURL Scenarios.doneProcessor
               (Samples.t0 + 17000) (Samples.t0 + 17000))
  /\ In {| entry := {| timestamp := js "16";
                       diff := js "ok that works";
                       fullText := js "Exercise 4. ok that works";
                       url := js "https://course.example/sheet4?user=7";
                       capturedAt := Samples.t0 + 16000 |};
           receivedAt := Samples.t0 + 16000 |}
        (batchData Scenarios.doneProcessor)
  /\ lastProcessTime
       (fst (pollTick Samples.parseURL Scenarios.doneProcessor
               (Samples.t0 + 17000) (Samples.t0 + 17000) (Samples.t0 + 17000)))
     = Samples.t0 + 17000.
Proof.
  apply (completion_word_seals_early Samples.parseURL Scenarios.doneProcessor
           [ {| entry := Samples.typing (Samples.t0 + 12000);
                receivedAt := Samples.t0 + 12000 |};
             {| entry := Samples.typing (Samples.t0 + 14000);
                receivedAt := Samples.t0 + 14000 |} ]
           {| entry := {| timestamp := js "16";
                          diff := js "ok that works";
                          fullText := js "Exercise 4. ok that works";
                          url := js "https://course.example/sheet4?user=7";
                          capturedAt := Samples.t0 + 16000 |};
              receivedAt := Samples.t0 + 16000 |}
           (Samples.t0 + 17000) (Samples.t0 + 17000) (Samples.t0 + 17000));
    vm_compute; first [reflexivity | discriminate | lia].
Defined.

Lemma countWord_stays (words : list jsstring) (acc : list (jsstring * Z) * option Z) :
  snd acc = None -> snd (fold_left countWord words acc) = None.
Proof.
  revert acc. induction words as [|w words IH]; intros acc H; [exact H|].
  cbn [fold_left]. apply IH. unfold countWord.
  destruct (3 <? length w)%nat; [|exact H].
  destruct (inheritedKey w); [reflexivity|]. cbn [snd]. rewrite H. reflexivity.
Qed.

Lemma inheritedKey_long (w : jsstring) :
  inheritedKey w = true -> (3 <? length w)%nat = true.
Proof.
  unfold inheritedKey, eqb. intros H. apply orb_true_iff in H.
  destruct H as [H|H];
    match type of H with (if ?c then _ else _) = _ => destruct c as [->|] end;
    first [reflexivity | discriminate H].
Qed.

Lemma countWord_inherited (words : list jsstring) (acc : list (jsstring * Z) * option Z) :
  existsb inheritedKey words = true -> snd (fold_left countWord words acc) = None.
Proof.
  revert acc. induction words as [|w words IH]; intros acc H; [discriminate H|].
  cbn [existsb] in H. cbn [fold_left]. destruct (inheritedKey w) eqn:K.
  - apply countWord_stays. unfold countWord. rewrite (inheritedKey_long w K), K. reflexivity.
  - apply IH. exact H.
Qed.

(** X10. A text one of whose words is constructor or __proto__ is never
    reported as repetitive, however often a word is repeated in it: the
    counter is a plain object, the count of such a word is no number, and
    no comparison with the maximum holds from then on. *)
Theorem inherited_word_hides_repetition (text : jsstring)
    (Hword : existsb inheritedKey (wordsOf text) = true) :
  isRepetitiveContent text = false.
Proof.
  unfold isRepetitiveContent. destruct (negb (truthy text) || _); [reflexivity|].
  cbv zeta. fold (wordsOf text).
  change (fold_left _ (wordsOf text) ([], Some 0))
    with (fold_left countWord (wordsOf text) ([], Some 0)).
  rewrite (countWord_inherited (wordsOf text) _ Hword). reflexivity.
Qed.

Lemma inherited_word_hides_repetition_witness :
  isRepetitiveContent Scenarios.inheritedWords = false
  /\ isRepetitiveContent Scenarios.plainWords = true.
Proof.
  split; [|vm_compute; reflexivity].
  apply (inherited_word_hides_repetition Scenarios.inheritedWords).
  vm_compute. reflexivity.
Defined.

End BreakProofs.

(* ===================================================================== *)
(** ** The content tags of a diff *)
(* ===================================================================== *)

Module DiffProofs.
Import Tandem TandemSpec JSFacts.

Lemma includes_mid (k a t b : jsstring) :
  includes k t = true -> includes k (a ++ t ++ b) = true.
Proof.
  intros H. apply includes_split in H. destruct H as (x & y & ->).
  replace (a ++ (x ++ k ++ y) ++ b) with ((a ++ x) ++ k ++ (y ++ b))
    by (rewrite <- !app_assoc; reflexivity).
  apply includes_app.
Qed.

Lemma includes_wrap (k : jsstring) (tag : string) (p : jsstring) :
  includes k p = true -> includes k (wrap tag p) = true.
Proof.
  intros H. unfold wrap.
  replace (js "<" ++ js tag ++ js ">" ++ p ++ js "</" ++ js tag ++ js ">")
    with ((js "<" ++ js tag ++ js ">") ++ p ++ (js "</" ++ js tag ++ js ">"))
    by (rewrite <- !app_assoc; reflexivity).
  apply includes_mid, H.
Qed.

Lemma someIncluded_wrap (keywords : list jsstring) (tag : string) (p : jsstring) :
  someIncluded keywords p = true -> someIncluded keywords (wrap tag p) = true.
Proof.
  unfold someIncluded. intros H. apply existsb_exists in H.
  destruct H as (k & Hk & H). apply existsb_exists. exists k. split; [exact Hk|].
  unfold wrap. rewrite !toLowerCase_app.
  replace (toLowerCase (js "<") ++ toLowerCase (js tag) ++ toLowerCase (js ">")
           ++ toLowerCase p ++ toLowerCase (js "</") ++ toLowerCase (js tag)
           ++ toLowerCase (js ">"))
    with ((toLowerCase (js "<") ++ toLowerCase (js tag) ++ toLowerCase (js ">"))
          ++ toLowerCase p ++ (toLowerCase (js "</") ++ toLowerCase (js tag)
          ++ toLowerCase (js ">")))
    by (rewrite <- !app_assoc; reflexivity).
  apply includes_mid, H.
Qed.

Lemma wrap_truthy (tag : string) (p : jsstring) : truthy (wrap tag p) = true.
Proof. reflexivity. Qed.

(** The closing tag of a wrapped text holds the slash of the symbol
    class. *)
Lemma wrap_is_mathematical (tag : string) (p : jsstring) :
  isMathematicalContent (wrap tag p) = true.
Proof.
  unfold isMathematicalContent. rewrite wrap_truthy. cbn [andb].
  replace (test false mathSymbols (wrap tag p)) with true;
    [rewrite orb_true_r; reflexivity|].
  symmetry. unfold wrap, mathSymbols.
  replace (js "<" ++ js tag ++ js ">" ++ p ++ js "</" ++ js tag ++ js ">")
    with ((js "<" ++ js tag ++ js ">" ++ p ++ js "<") ++ 47%N :: (js tag ++ js ">"))
    by (rewrite <- !app_assoc; reflexivity).
  apply (test_Class _ _ _ 47%N). reflexivity.
Qed.

Lemma processDiff_stages (d fullText : jsstring) :
  processDiff d fullText
  = if negb (truthy d) then [] else tagContent (normalizeMarkers d).
Proof. unfold processDiff, tagContent, normalizeMarkers. cbv zeta. reflexivity. Qed.

Lemma tagContent_stages (n : jsstring) :
  tagContent n
  = stage hasIncorrectMathAnswer "incorrect_answer_signal"
      (stage isMathematicalContent "mathematical_content"
         (stage isSearchActivity "search_activity"
            (stage containsConfusionKeywords "confusion_signal"
               (stage containsErrorKeywords "error_signal"
                  (stage isRepetitiveContent "repetitive" n))))).
Proof. reflexivity. Qed.

Lemma stage_math (test : jsstring -> bool) (tag : string) (q : jsstring) :
  isMathematicalContent q = true -> isMathematicalContent (stage test tag q) = true.
Proof.
  intros H. unfold stage. destruct (test q); [apply wrap_is_mathematical | exact H].
Qed.

Lemma stage_fires (test : jsstring -> bool) (tag : string) (q : jsstring) :
  test q = true -> isMathematicalContent (stage test tag q) = true.
Proof. intros H. unfold stage. rewrite H. apply wrap_is_mathematical. Qed.

Lemma stage_keeps_error (test : jsstring -> bool) (tag : string) (q : jsstring) :
  containsErrorKeywords q = true -> containsErrorKeywords (stage test tag q) = true.
Proof.
  unfold containsErrorKeywords, stage. intros H. destruct (test q); [|exact H].
  apply andb_true_iff in H. rewrite wrap_truthy. apply someIncluded_wrap, H.
Qed.

Lemma stage_keeps_confusion (test : jsstring -> bool) (tag : string) (q : jsstring) :
  containsConfusionKeywords q = true -> containsConfusionKeywords (stage test tag q) = true.
Proof.
  unfold containsConfusionKeywords, stage. intros H. destruct (test q); [|exact H].
  apply andb_true_iff in H. rewrite wrap_truthy. apply someIncluded_wrap, H.
Qed.

Lemma stage_keeps_search (test : jsstring -> bool) (tag : string) (q : jsstring) :
  isSearchActivity q = true -> isSearchActivity (stage test tag q) = true.
Proof.
  unfold isSearchActivity, stage. intros H. destruct (test q); [|exact H].
  apply andb_true_iff in H. rewrite wrap_truthy. apply someIncluded_wrap, H.
Qed.

Lemma stage_includes (k : jsstring) (test : jsstring -> bool) (tag : string)
    (q : jsstring) :
  includes k q = true -> includes k (stage test tag q) = true.
Proof. intros H. unfold stage. destruct (test q); [apply includes_wrap|]; exact H. Qed.

Lemma stage_true (test : jsstring -> bool) (tag : string) (q : jsstring) :
  test q = true -> stage test tag q = wrap tag q.
Proof. intros H. unfold stage. rewrite H. reflexivity. Qed.

Lemma wrap_opening (tag : string) (q : jsstring) :
  includes (js "<" ++ js tag ++ js ">") (wrap tag q) = true.
Proof.
  unfold wrap.
  replace (js "<" ++ js tag ++ js ">" ++ q ++ js "</" ++ js tag ++ js ">")
    with ((js "<" ++ js tag ++ js ">") ++ q ++ js "</" ++ js tag ++ js ">")
    by (rewrite <- !app_assoc; reflexivity).
  apply (includes_app _ []).
Qed.

(** The mathematical tag shows in the result as soon as the text is
    mathematical when its turn comes. *)
Lemma tagContent_shows (n : jsstring) :
  isMathematicalContent
    (stage isSearchActivity "search_activity"
       (stage containsConfusionKeywords "confusion_signal"
          (stage containsErrorKeywords "error_signal"
             (stage isRepetitiveContent "repetitive" n)))) = true ->
  includes (js "<mathematical_content>") (tagContent n) = true.
Proof.
  intros M. rewrite tagContent_stages.
  apply stage_includes. rewrite (stage_true _ _ _ M).
  assert (Hlit : js "<" ++ js "mathematical_content" ++ js ">" = js "<mathematical_content>")
    by (vm_compute; reflexivity).
  rewrite <- Hlit. apply wrap_opening.
Qed.

Lemma processDiff_marks_math (d fullText : jsstring) :
  truthy d = true ->
  isMathematicalContent (normalizeMarkers d) = true ->
  includes (js "<mathematical_content>") (processDiff d fullText) = true.
Proof.
  intros Hdiff Hmath. rewrite processDiff_stages, Hdiff. cbn [negb].
  apply tagContent_shows. do 4 apply stage_math. exact Hmath.
Qed.

(** X9. A diff that earns one of the tags repetitive, error_signal,
    confusion_signal or search_activity is always tagged
    mathematical_content as well: the closing tag that was just added holds
    a slash, which the symbol class of [isMathematicalContent] accepts. *)
Theorem tagged_diff_is_mathematical (d fullText : jsstring)
    (Hdiff : truthy d = true)
    (Htag : contentTagged (normalizeMarkers d) = true) :
  includes (js "<mathematical_content>") (processDiff d fullText) = true.
Proof.
  rewrite processDiff_stages, Hdiff. cbn [negb]. apply tagContent_shows.
  set (n := normalizeMarkers d) in *. unfold contentTagged in Htag.
  destruct (isRepetitiveContent n) eqn:E1.
  { do 3 apply stage_math. apply stage_fires, E1. }
  destruct (containsErrorKeywords n) eqn:E2.
  { do 2 apply stage_math. apply stage_fires. apply stage_keeps_error, E2. }
  destruct (containsConfusionKeywords n) eqn:E3.
  { apply stage_math. apply stage_fires. do 2 apply stage_keeps_confusion. exact E3. }
  cbn [orb] in Htag. apply stage_fires. do 3 apply stage_keeps_search. exact Htag.
Qed.

Lemma tagged_diff_is_mathematical_witness :
  includes (js "<mathematical_content>")
    (processDiff (js "I am stuck on this step") (js "")) = true.
Proof.
  apply (tagged_diff_is_mathematical (js "I am stuck on this step") (js ""));
    vm_compute; reflexivity.
Defined.

End DiffProofs.

(* ===================================================================== *)
(** ** The diff and the capture log of the content script *)
(* ===================================================================== *)

Module ContentProofs.
Import Content ContentSpec Tandem JSFacts.

Lemma commonPrefix_spec (a b : jsstring) :
  a = fst (commonPrefix a b) ++ fst (snd (commonPrefix a b))
  /\ b = fst (commonPrefix a b) ++ snd (snd (commonPrefix a b))
  /\ (fst (snd (commonPrefix a b)) = [] \/ snd (snd (commonPrefix a b)) = []
      \/ hd_error (fst (snd (commonPrefix a b))) <> hd_error (snd (snd (commonPrefix a b)))).
Proof.
  revert b. induction a as [|x a IH]; intros b.
  - simpl. auto.
  - destruct b as [|y b]; [simpl; auto|].
    simpl. destruct (N.eqb_spec x y) as [->|N].
    + destruct (IH b) as (H1 & H2 & H3). cbn [fst snd].
      repeat split; [simpl; f_equal; exact H1 | simpl; f_equal; exact H2 | exact H3].
    + cbn [fst snd app]. repeat split. right. right. simpl. congruence.
Qed.

Lemma eqb_eq (a b : jsstring) : eqb a b = true <-> a = b.
Proof. unfold eqb. destruct (list_eq_dec N.eq_dec a b); split; congruence. Qed.

Lemma hd_rev_last (l : jsstring) : hd_error (rev l) = last (map Some l) None.
Proof.
  destruct l as [|x l] using rev_ind; [reflexivity|].
  rewrite rev_app_distr. simpl. symmetry. apply last_snoc_Some.
Qed.

Lemma calculateDiff_window (oldText newText : jsstring) :
  exists prefix removedPart addedPart suffix,
    oldText = prefix ++ removedPart ++ suffix
    /\ newText = prefix ++ addedPart ++ suffix
    /\ (removedPart = [] \/ addedPart = []
        \/ (hd_error removedPart <> hd_error addedPart
            /\ last (map Some removedPart) None <> last (map Some addedPart) None))
    /\ calculateDiff oldText newText = render removedPart addedPart.
Proof.
  destruct (commonPrefix_spec oldText newText) as (P1 & P2 & P3).
    set (pre := fst (commonPrefix oldText newText)) in *.
    set (ao := fst (snd (commonPrefix oldText newText))) in *.
    set (an := snd (snd (commonPrefix oldText newText))) in *.
    destruct (commonPrefix_spec (rev ao) (rev an)) as (S1 & S2 & S3).
    set (suf := fst (commonPrefix (rev ao) (rev an))) in *.
    set (ro := fst (snd (commonPrefix (rev ao) (rev an)))) in *.
    set (rn := snd (snd (commonPrefix (rev ao) (rev an)))) in *.
    assert (A1 : ao = rev ro ++ rev suf)
      by (rewrite <- rev_app_distr, <- S1, rev_involutive; reflexivity).
    assert (A2 : an = rev rn ++ rev suf)
      by (rewrite <- rev_app_distr, <- S2, rev_involutive; reflexivity).
    exists pre, (rev ro), (rev rn), (rev suf).
    split; [rewrite <- A1; exact P1|]. split; [rewrite <- A2; exact P2|].
    assert (M : rev ro = [] \/ rev rn = []
                \/ hd_error (rev ro) <> hd_error (rev rn)
                   /\ last (map Some (rev ro)) None <> last (map Some (rev rn)) None).
    { destruct ro as [|x ro]; [left; reflexivity|].
      destruct rn as [|y rn]; [right; left; reflexivity|].
      right. right.
      destruct S3 as [S3|[S3|S3]]; try discriminate S3.
      split.
      - assert (Ho : hd_error ao = hd_error (rev (x :: ro))).
        { rewrite A1. destruct (rev (x :: ro)) eqn:E; [|reflexivity].
          apply (f_equal (@length N)) in E. rewrite length_rev in E. discriminate E. }
        assert (Hn : hd_error an = hd_error (rev (y :: rn))).
        { rewrite A2. destruct (rev (y :: rn)) eqn:E; [|reflexivity].
          apply (f_equal (@length N)) in E. rewrite length_rev in E. discriminate E. }
        rewrite <- Ho, <- Hn.
        destruct P3 as [P3|[P3|P3]]; [| |exact P3].
        + rewrite P3 in Ho. destruct (rev (x :: ro)) eqn:E; [|discriminate Ho].
          apply (f_equal (@length N)) in E. rewrite length_rev in E. discriminate E.
        + rewrite P3 in Hn. destruct (rev (y :: rn)) eqn:E; [|discriminate Hn].
          apply (f_equal (@length N)) in E. rewrite length_rev in E. discriminate E.
      - rewrite <- !hd_rev_last, !rev_involutive. exact S3. }
    split; [exact M|].
    unfold calculateDiff.
    destruct (eqb oldText newText) eqn:E.
    { apply eqb_eq in E.
      assert (R : rev ro = rev rn).
      { rewrite P1, P2, A1, A2 in E. apply app_inv_head in E.
        apply app_inv_tail in E. exact E. }
      destruct M as [M|[M|[M _]]].
      - rewrite <- R, M. reflexivity.
      - rewrite R, M. reflexivity.
      - rewrite R in M. contradiction. }
    destruct oldText as [|o oldText].
    { destruct newText as [|n newText]; [discriminate E|].
      cbn [truthy negb]. subst ro rn. unfold an, ao. cbn [commonPrefix fst snd]. change (rev []) with (@nil N). cbn [commonPrefix fst snd].
      rewrite rev_involutive. reflexivity. }
    destruct newText as [|n newText].
    { cbn [truthy negb]. subst ro rn. unfold an, ao. cbn [commonPrefix fst snd].
      change (rev []) with (@nil N).
      destruct (rev (o :: oldText)) eqn:R.
      - apply (f_equal (@length N)) in R. rewrite length_rev in R. discriminate R.
      - cbn [commonPrefix fst snd]. rewrite <- R, rev_involutive. reflexivity. }
    cbn [truthy negb]. fold ao an. fold ro rn.
    destruct (rev ro), (rev rn); reflexivity.
Qed.

(** X11. The diff is computed from the longest common prefix and, in what
    is left, the longest common suffix: the two texts are the same
    outside a removed and an added part, which neither start nor end
    alike, and the diff is empty exactly when the texts are equal. *)
Theorem diff_is_the_changed_window (oldText newText : jsstring) :
  (exists prefix removedPart addedPart suffix,
     oldText = prefix ++ removedPart ++ suffix
     /\ newText = prefix ++ addedPart ++ suffix
     /\ (removedPart = [] \/ addedPart = []
         \/ (hd_error removedPart <> hd_error addedPart
             /\ last (map Some removedPart) None <> last (map Some addedPart) None))
     /\ calculateDiff oldText newText = render removedPart addedPart)
  /\ (calculateDiff oldText newText = [] <-> oldText = newText).
Proof.
  pose proof (calculateDiff_window oldText newText) as D.
  split; [exact D|].
  split.
  - intros E. destruct D as (pre & r & a & suf & -> & -> & _ & R).
    rewrite R in E. destruct r, a; try discriminate E. reflexivity.
  - intros ->. unfold calculateDiff.
    replace (eqb newText newText) with true by (symmetry; apply eqb_eq; reflexivity).
    reflexivity.
Qed.

Lemma last_cons {A : Type} (a d : A) (m : list A) : last (a :: m) d = last m a.
Proof.
  revert a d. induction m as [|b m IH]; intros a d; [reflexivity|].
  change (last (a :: b :: m) d) with (last (b :: m) d).
  rewrite !IH. reflexivity.
Qed.

Lemma last_snoc {A : Type} (a d : A) (m : list A) : last (m ++ [a]) d = a.
Proof.
  induction m as [|b m IH]; [reflexivity|].
  cbn [app]. rewrite last_cons. destruct m; [reflexivity|].
  cbn [app] in *. rewrite last_cons in IH. rewrite last_cons. exact IH.
Qed.

Lemma chained_snoc (prev : jsstring) (k : Z) (log : list CaptureEntry) (e : CaptureEntry) :
  chained prev k log ->
  timestamp e = padStart2 (k + Z.of_nat (length log) + 1) ->
  diff e = calculateDiff (last (map fullText log) prev) (fullText e) ->
  truthy (trim (diff e)) = true ->
  chained prev k (log ++ [e]).
Proof.
  revert prev k. induction log as [|x log IH]; intros prev k H Ht Hd Hb.
  - simpl in *. replace (k + 0 + 1) with (k + 1) in Ht by lia. auto.
  - destruct H as (H1 & H2 & H3 & H4). cbn [app chained]. repeat split; try assumption.
    apply IH; try assumption.
    + rewrite Ht. f_equal. cbn [length]. lia.
    + rewrite Hd. f_equal. cbn [map]. apply last_cons.
Qed.

(** X12. From the start of the periodic capture on, the log of the content
    script is a chain: the counter is the number of entries, the entries
    are numbered 01, 02, ... in order, each holds the non-blank diff from
    the text of the entry before it (the first from the baseline), and the
    text the next diff starts from is that of the last entry. *)
Theorem capture_log_is_a_chain (baseline : jsstring) (l : list Sighting) :
  let c := watch (startPeriodicCapture cleared baseline) l in
  virtualTimestamp c = Z.of_nat (length (captureData c))
  /\ chained baseline 0 (captureData c)
  /\ lastCapturedText c = last (map fullText (captureData c)) baseline.
Proof.
  cbv zeta.
  assert (G : forall c,
             virtualTimestamp c = Z.of_nat (length (captureData c))
             /\ chained baseline 0 (captureData c)
             /\ lastCapturedText c = last (map fullText (captureData c)) baseline ->
             virtualTimestamp (watch c l) = Z.of_nat (length (captureData (watch c l)))
             /\ chained baseline 0 (captureData (watch c l))
             /\ lastCapturedText (watch c l)
                = last (map fullText (captureData (watch c l))) baseline).
  { induction l as [|s l IH]; intros c H; [exact H|].
    unfold watch. cbn [fold_left]. apply IH.
    destruct H as (H1 & H2 & H3).
    unfold see, captureVisibleTextPeriodically.
    destruct (truthy (trim (calculateDiff (lastCapturedText c) (fst (fst s))))) eqn:E;
      cbn [fst captureData virtualTimestamp lastCapturedText]; [|auto].
    split; [|split].
    - rewrite length_app, H1. simpl. lia.
    - apply chained_snoc; cbn [timestamp diff fullText]; try assumption.
      + rewrite H1. reflexivity.
      + rewrite H3. reflexivity.
    - rewrite map_app. cbn [map fullText]. symmetry. apply last_snoc. }
  apply G. repeat split.
Qed.

End ContentProofs.

(* ===================================================================== *)
(** ** The markers of the content script in the composer *)
(* ===================================================================== *)

Module MarkerProofs.
Import Tandem TandemSpec JSFacts.

(** *** What a match consumes *)

Lemma matchStr_exact (k s s' : jsstring) :
  matchStr false k s = Some s' -> s = k ++ s'.
Proof.
  revert s. induction k as [|a k IH]; intros s H.
  - simpl in H. injection H as ->. reflexivity.
  - destruct s as [|b s]; [discriminate H|].
    simpl in H. unfold canonicalize in H. cbn [andb] in H.
    destruct (N.eqb_spec a b) as [->|]; [|discriminate H].
    simpl. f_equal. apply IH, H.
Qed.

Lemma step1_rest (p : N -> bool) (c c' : cursor) :
  In c' (step1 p c) -> exists x, rest c = x :: rest c' /\ caps c' = caps c.
Proof.
  unfold step1. destruct (rest c) as [|x s]; [intros []|].
  destruct (p x); [|intros []]. intros [<-|[]]. exists x. split; reflexivity.
Qed.

(** A cursor reached from another: it stands later in the same text,
    and the groups it holds are the earlier ones or parts of the text
    in between. *)
Definition reached (c c' : cursor) : Prop :=
  (exists m, rest c = m ++ rest c')
  /\ forall i t, In (i, t) (caps c') -> In (i, t) (caps c) \/ incl t (rest c).

Lemma reached_refl (c : cursor) : reached c c.
Proof. split; [exists []; reflexivity | intros i t H; left; exact H]. Qed.

Lemma reached_trans (c1 c2 c3 : cursor) : reached c1 c2 -> reached c2 c3 -> reached c1 c3.
Proof.
  intros [[m1 E1] H1] [[m2 E2] H2]. split.
  - exists (m1 ++ m2). rewrite E1, E2, app_assoc. reflexivity.
  - intros i t H. destruct (H2 i t H) as [K|K]; [apply H1, K|].
    right. intros x Hx. rewrite E1. apply in_or_app. right. apply K, Hx.
Qed.

Lemma starLoop_reached (body : cursor -> list cursor) :
  (forall c c', In c' (body c) -> reached c c') ->
  forall fuel c c', In c' (starLoop body fuel c) -> reached c c'.
Proof.
  intros Hbody. induction fuel as [|fuel IH]; intros c c' H.
  - destruct H as [<-|[]]. apply reached_refl.
  - rewrite starLoop_S in H. apply in_app_or in H. destruct H as [H|[<-|[]]].
    + apply in_flat_map in H. destruct H as (c1 & H1 & H2).
      apply filter_In in H1. destruct H1 as [H1 _].
      apply (reached_trans c c1 c'); [apply Hbody, H1 | apply IH, H2].
    + apply reached_refl.
Qed.

Lemma step1_reached (p : N -> bool) (c c' : cursor) : In c' (step1 p c) -> reached c c'.
Proof.
  intros H. apply step1_rest in H. destruct H as (x & E & K). split.
  - exists [x]. exact E.
  - intros i t Ht. left. rewrite <- K. exact Ht.
Qed.

Lemma consumed_incl (c c' : cursor) : incl (consumed c c') (rest c).
Proof.
  unfold consumed. intros x Hx.
  rewrite <- (firstn_skipn (length (rest c) - length (rest c')) (rest c)).
  apply in_or_app. left. exact Hx.
Qed.

Lemma run_reached (icase : bool) (r : regex) :
  forall c c', In c' (JS.run icase r c) -> reached c c'.
Proof.
  induction r as [k| | | |cs|cs| |r1 IH1 r2 IH2|r1 IH1|r1 IH1|i r1 IH1]; intros c c' H;
    cbn [JS.run] in H; try (apply step1_reached in H; exact H).
  - destruct (matchStr icase k (rest c)) as [s'|] eqn:E; [|destruct H].
    destruct H as [<-|[]]. split; cbn [rest caps].
    + assert (L : exists m, rest c = m ++ s'); [|exact L].
      clear -E. revert E. generalize (rest c). induction k as [|a k IH]; intros s E.
      * simpl in E. exists []. injection E as ->. reflexivity.
      * destruct s as [|b s]; [discriminate E|]. simpl in E.
        destruct (_ =? _)%N; [|discriminate E].
        destruct (IH s E) as [m ->]. exists (b :: m). reflexivity.
    + intros i t Ht. left. exact Ht.
  - destruct (xorb _ _); [|destruct H]. destruct H as [<-|[]]. apply reached_refl.
  - apply in_flat_map in H. destruct H as (c1 & H1 & H2).
    apply (reached_trans c c1 c'); [apply IH1, H1 | apply IH2, H2].
  - apply (starLoop_reached (JS.run icase r1) IH1) in H. exact H.
  - apply in_flat_map in H. destruct H as (c1 & H1 & H2).
    apply (reached_trans c c1 c'); [apply IH1, H1|].
    apply (starLoop_reached (JS.run icase r1) IH1) in H2. exact H2.
  - apply in_map_iff in H. destruct H as (c1 & <- & H1).
    destruct (IH1 c c1 H1) as [E K]. split; cbn [rest caps]; [exact E|].
    intros j t [Ht|Ht]; [|apply K, Ht].
    right. inversion Ht; subst. apply consumed_incl.
Qed.

(** A literal of the pattern is in the text the match starts from. *)
Lemma seq_needs (icase : bool) (r1 r2 : regex) (x : N) (c c' : cursor) :
  (forall c1 c2, In c2 (JS.run icase r2 c1) -> In x (rest c1)) ->
  In c' (JS.run icase (Seq r1 r2) c) -> In x (rest c).
Proof.
  intros H2 H. cbn [JS.run] in H. apply in_flat_map in H. destruct H as (c1 & K1 & K2).
  apply run_reached in K1. destruct K1 as [[m E] _].
  rewrite E. apply in_or_app. right. apply (H2 c1 c'), K2.
Qed.

Lemma str_needs (k : jsstring) (x : N) (c c' : cursor) :
  In x k -> In c' (JS.run false (Str k) c) -> In x (rest c).
Proof.
  intros Hx H. cbn [JS.run] in H.
  destruct (matchStr false k (rest c)) as [s'|] eqn:E; [|destruct H].
  apply matchStr_exact in E. rewrite E. apply in_or_app. left. exact Hx.
Qed.

Lemma changePattern_needs (c c' : cursor) :
  In c' (JS.run false changePattern c) -> In 8594%N (rest c) /\ In 93%N (rest c).
Proof.
  intros H. split.
  - revert c c' H. unfold changePattern.
    do 6 (intros c c'; apply seq_needs; clear c c').
    intros c c' H. cbn [JS.run] in H. apply in_flat_map in H. destruct H as (c1 & K1 & _).
    apply (str_needs _ 8594%N) in K1; [exact K1|]. vm_compute. auto.
  - revert c c' H. unfold changePattern.
    do 10 (intros c c'; apply seq_needs; clear c c').
    intros c c'. apply str_needs. vm_compute. auto.
Qed.

Lemma replaceAllFrom_without (x : N) (r : regex) (f : cursor -> jsstring) :
  (forall c c', In c' (JS.run false r c) -> In x (rest c)) ->
  forall fuel b s, ~ In x s -> replaceAllFrom fuel false r f b s = s.
Proof.
  intros Hr. induction fuel as [|fuel IH]; intros b s Hs; [reflexivity|].
  cbn [replaceAllFrom]. unfold matchAt.
  destruct (JS.run false r (mkCursor b s [])) as [|c l] eqn:E.
  - cbn [hd_error]. destruct s as [|y s]; [reflexivity|].
    f_equal. apply IH. intros K. apply Hs. right. exact K.
  - exfalso. apply Hs. apply (Hr (mkCursor b s []) c). rewrite E. left. reflexivity.
Qed.

Lemma includes_single (x : N) (s : jsstring) : includes [x] s = false -> ~ In x s.
Proof.
  induction s as [|y s IH]; intros H; [intros []|].
  rewrite includes_unfold in H. apply orb_false_iff in H. destruct H as [H1 H2].
  cbn [startsWith] in H1. rewrite andb_true_r in H1. apply N.eqb_neq in H1.
  intros [K|K]; [congruence | exact (IH H2 K)].
Qed.

Lemma normalizeMarkers_eq (d : jsstring) :
  normalizeMarkers d
  = replaceAll false changePattern changedTag (replaceAll false deletePattern deletedTag d).
Proof. reflexivity. Qed.

Lemma captured_incl (i : nat) (b s : jsstring) (r : regex) (c : cursor) :
  In c (JS.run false r (mkCursor b s [])) -> incl (captured i c) s.
Proof.
  intros H. apply run_reached in H. destruct H as [_ H]. cbn [caps rest] in H.
  unfold captured, group.
  destruct (find (fun p => Nat.eqb (fst p) i) (caps c)) as [[j t]|] eqn:E;
    [|intros x []].
  apply find_some in E. destruct E as [E _]. cbn [option_map snd].
  destruct (H j t E) as [[]|K]. exact K.
Qed.

Lemma replaceAllFrom_incl (r : regex) (f : cursor -> jsstring) (lit : jsstring) :
  (forall b s c, In c (JS.run false r (mkCursor b s [])) -> incl (f c) (lit ++ s)) ->
  forall fuel b s, incl (replaceAllFrom fuel false r f b s) (lit ++ s).
Proof.
  intros Hf. induction fuel as [|fuel IH]; intros b s;
    [intros x Hx; apply in_or_app; right; exact Hx|].
  cbn [replaceAllFrom]. unfold matchAt.
  destruct (JS.run false r (mkCursor b s [])) as [|c l] eqn:E; cbn [hd_error].
  - destruct s as [|y s]; [intros x []|].
    intros x [<-|Hx]; [apply in_or_app; right; left; reflexivity|].
    apply IH in Hx. apply in_app_or in Hx. apply in_or_app.
    destruct Hx; [left | right; right]; assumption.
  - assert (Hc : In c (JS.run false r (mkCursor b s []))) by (rewrite E; left; reflexivity).
    pose proof (Hf b s c Hc) as Fc.
    assert (Hrest : incl (lit ++ rest c) (lit ++ s)).
    { apply run_reached in Hc. destruct Hc as [[m Em] _]. cbn [rest] in Em.
      intros x Hx. apply in_app_or in Hx. apply in_or_app.
      destruct Hx as [Hx|Hx]; [left; exact Hx|]. right. rewrite Em.
      apply in_or_app. right. exact Hx. }
    destruct (consumed (mkCursor b s []) c) as [|z zs]; [destruct s as [|y s]|].
    + exact Fc.
    + intros x Hx. apply in_app_or in Hx. destruct Hx as [Hx|[<-|Hx]].
      * apply Fc, Hx.
      * apply in_or_app. right. left. reflexivity.
      * apply IH in Hx. apply in_app_or in Hx. apply in_or_app.
        destruct Hx; [left | right; right]; assumption.
    + intros x Hx. apply in_app_or in Hx. destruct Hx as [Hx|Hx]; [apply Fc, Hx|].
      apply Hrest. apply (IH (before c) (rest c)). exact Hx.
Qed.

Lemma deleted_stage_incl (d : jsstring) :
  incl (replaceAll false deletePattern deletedTag d) (js "<deleted></deleted>" ++ d).
Proof.
  unfold replaceAll. apply replaceAllFrom_incl. intros b s c Hc x Hx.
  unfold deletedTag in Hx. apply in_app_or in Hx. destruct Hx as [Hx|Hx].
  - apply in_or_app. left.
    change (js "<deleted></deleted>") with (js "<deleted>" ++ js "</deleted>").
    apply in_or_app. left. exact Hx.
  - apply in_app_or in Hx. destruct Hx as [Hx|Hx].
    + apply in_or_app. right. apply (captured_incl 1 b s deletePattern c Hc), Hx.
    + apply in_or_app. left.
      change (js "<deleted></deleted>") with (js "<deleted>" ++ js "</deleted>").
      apply in_or_app. right. exact Hx.
Qed.

(** The [CHANGED] replacement leaves a text without the arrow, or
    without a closing bracket, as it is. *)
Lemma changed_stage_id (x : N) (t : jsstring) :
  x = 8594%N \/ x = 93%N -> ~ In x t -> replaceAll false changePattern changedTag t = t.
Proof.
  intros Hx Ht. unfold replaceAll. apply (replaceAllFrom_without x); [|exact Ht].
  intros c c' H. apply changePattern_needs in H. destruct Hx as [->| ->]; tauto.
Qed.

Lemma normalizeMarkers_without_arrow (d : jsstring) :
  includes (js "→") d = false ->
  normalizeMarkers d = replaceAll false deletePattern deletedTag d.
Proof.
  intros H. rewrite normalizeMarkers_eq. apply (changed_stage_id 8594%N); [auto|].
  intros K. apply deleted_stage_incl in K. apply in_app_or in K. destruct K as [K|K].
  - vm_compute in K. repeat (destruct K as [K|K]; [discriminate K|]). exact K.
  - revert K. apply includes_single, H.
Qed.

(** *** The deletion marker *)

Lemma starLoop_greedy (body : cursor -> list cursor) (p : N -> bool)
    (Hbody : forall c, body c = step1 p c) (mid s : jsstring) :
  forallb p mid = true ->
  match s with [] => True | y :: _ => p y = false end ->
  forall (fuel : nat) (bf : jsstring) (cp : list (nat * jsstring)),
    (length mid <= fuel)%nat ->
    exists tl, starLoop body fuel (mkCursor bf (mid ++ s) cp)
               = mkCursor (rev mid ++ bf) s cp :: tl.
Proof.
  intros Hmid Hs. induction mid as [|a mid IH]; intros fuel bf cp Hfuel.
  - destruct fuel as [|fuel]; [exists []; reflexivity|].
    rewrite starLoop_S, Hbody. unfold step1. cbn [rest app].
    destruct s as [|y s]; [exists []; reflexivity|].
    rewrite Hs. exists []. reflexivity.
  - destruct fuel as [|fuel]; [simpl in Hfuel; lia|].
    cbn [forallb] in Hmid. apply andb_true_iff in Hmid. destruct Hmid as [Ha Hmid].
    rewrite starLoop_S, Hbody. unfold step1. cbn [rest app before caps]. rewrite Ha.
    cbn [filter]. rewrite advances_cons. cbn [flat_map]. rewrite app_nil_r.
    destruct (IH Hmid fuel (a :: bf) cp) as [tl E]; [simpl in Hfuel; lia|].
    rewrite E. exists (tl ++ [mkCursor bf (a :: mid ++ s) cp]).
    cbn [rev]. rewrite <- app_assoc. reflexivity.
Qed.

Lemma run_Seq (icase : bool) (r1 r2 : regex) (c : cursor) :
  JS.run icase (Seq r1 r2) c = flat_map (JS.run icase r2) (JS.run icase r1 c).
Proof. reflexivity. Qed.

Lemma without_bracket (x : jsstring) :
  includes (js "]") x = false ->
  forallb (fun y => negb (existsb (N.eqb y) (js "]"))) x = true.
Proof.
  intros H. apply includes_single in H. apply forallb_forall. intros y Hy.
  change (js "]") with [93%N]. cbn [existsb]. rewrite orb_false_r.
  apply negb_true_iff, N.eqb_neq. intros ->. exact (H Hy).
Qed.

Lemma run_Group_Plus (i : nat) (r : regex) (c : cursor) :
  JS.run false (Group i (Plus r)) c
  = map (fun c' => mkCursor (before c') (rest c') ((i, consumed c c') :: caps c'))
      (flat_map (fun c1 => starLoop (JS.run false r) (length (rest c1)) c1)
         (JS.run false r c)).
Proof. reflexivity. Qed.

Lemma run_NotClass (cs : jsstring) (c : cursor) :
  JS.run false (NotClass cs) c = step1 (fun x => negb (existsb (N.eqb x) cs)) c.
Proof. reflexivity. Qed.

Lemma run_Str_all (k bf : jsstring) (cp : list (nat * jsstring)) :
  exists bf', JS.run false (Str k) (mkCursor bf k cp) = [mkCursor bf' [] cp].
Proof.
  destruct (run_Str k [] bf cp) as [bf' E]. rewrite app_nil_r in E.
  exists bf'. exact E.
Qed.

Lemma deletePattern_match (b x : jsstring) (a : N) :
  isWhiteSpace a = false ->
  includes (js "]") (a :: x) = false ->
  exists bf, matchAt false deletePattern b (js "[DELETED: " ++ (a :: x) ++ js "]")
             = Some (mkCursor bf [] [(1%nat, a :: x)]).
Proof.
  intros Ha Hx. apply without_bracket in Hx. cbn [forallb] in Hx.
  apply andb_true_iff in Hx. destruct Hx as [Hb Hx].
  set (close := js "]") in *.
  replace (js "[DELETED: " ++ (a :: x) ++ close)
    with (js "[DELETED:" ++ [32%N] ++ ((a :: x) ++ close)) by reflexivity.
  unfold matchAt, deletePattern. fold close. rewrite run_Seq.
  destruct (run_Str (js "[DELETED:") ([32%N] ++ (a :: x) ++ close) b []) as [bf1 E1].
  rewrite E1. cbn [flat_map]. rewrite app_nil_r, run_Seq.
  change (JS.run false (Star Space) (mkCursor bf1 ([32%N] ++ (a :: x) ++ close) []))
    with (starLoop (JS.run false Space)
            (length ([32%N] ++ (a :: x) ++ close))
            (mkCursor bf1 ([32%N] ++ (a :: x) ++ close) [])).
  destruct (starLoop_greedy (JS.run false Space) isWhiteSpace (fun c => eq_refl)
              [32%N] ((a :: x) ++ close) eq_refl Ha
              (length ([32%N] ++ (a :: x) ++ close)) bf1 [])
    as [tl2 E2]; [simpl; lia|].
  rewrite E2. cbn [flat_map]. rewrite run_Seq.
  set (c2 := mkCursor (rev [32%N] ++ bf1) ((a :: x) ++ close) []).
  assert (G : exists bf3 tl3,
             JS.run false (Group 1 (Plus (NotClass close))) c2
             = mkCursor bf3 close [(1%nat, a :: x)] :: tl3).
  { rewrite run_Group_Plus, run_NotClass. unfold step1, c2. cbn [rest before caps].
    change ((a :: x) ++ close) with (a :: (x ++ close)). cbv iota beta. rewrite Hb.
    cbn [flat_map rest]. rewrite app_nil_r.
    destruct (starLoop_greedy (JS.run false (NotClass close))
                (fun y => negb (existsb (N.eqb y) close)) (fun c => eq_refl)
                x close Hx eq_refl
                (length (x ++ close)) (a :: rev [32%N] ++ bf1) [])
      as [tl3 E3]; [rewrite length_app; lia|].
    rewrite E3. cbn [map before rest caps].
    eexists. eexists. f_equal. f_equal. f_equal. f_equal.
    unfold consumed. cbn [rest].
    replace (length (a :: x ++ close) - length close)%nat with (length (a :: x))
      by (cbn [length]; rewrite length_app; lia).
    change (a :: x ++ close) with ((a :: x) ++ close).
    rewrite firstn_app, firstn_all, Nat.sub_diag. cbn [firstn]. apply app_nil_r. }
  destruct G as (bf3 & tl3 & G). rewrite G. cbn [flat_map].
  destruct (run_Str_all close bf3 [(1%nat, a :: x)]) as [bf4 E4].
  rewrite E4. exists bf4. reflexivity.
Qed.

End MarkerProofs.

(* ===================================================================== *)
(** ** From the content script to the batch *)
(* ===================================================================== *)

Module CaptureToBatchProofs.
Import Tandem TandemSpec Content ContentSpec JSFacts.

Lemma deleted_stage_on_marker (x : jsstring) (a : N) :
  isWhiteSpace a = false ->
  includes (js "]") (a :: x) = false ->
  replaceAll false deletePattern deletedTag (deleted (a :: x))
  = js "<deleted>" ++ (a :: x) ++ js "</deleted>".
Proof.
  intros Ha Hx. unfold replaceAll, deleted.
  destruct (MarkerProofs.deletePattern_match [] x a Ha Hx) as [bf E].
  cbn [replaceAllFrom]. rewrite E.
  unfold consumed. cbn [rest length]. rewrite Nat.sub_0_r, firstn_all.
  change (js "[DELETED: " ++ (a :: x) ++ js "]")
    with (91%N :: (skipn 1 (js "[DELETED: ") ++ (a :: x) ++ js "]")).
  cbv iota. cbn [length replaceAllFrom]. unfold matchAt.
  cbn [JS.run deletePattern rest matchStr]. cbn [flat_map hd_error].
  unfold deletedTag, captured, group. cbn [caps find fst Nat.eqb option_map snd].
  rewrite app_nil_r. reflexivity.
Qed.

(** X13. A pure deletion reaches the batch as a deleted element: the
    marker the content script writes for a removed text that does not
    start with white space and holds no closing bracket is rewritten to
    the element around that very text, and the slash of its closing tag
    makes [processDiff] tag the change as mathematical content. *)
Theorem deletion_reaches_the_batch (removedPart fullText : jsstring)
    (Hstart : option_map isWhiteSpace (hd_error removedPart) = Some false)
    (Hbracket : includes (js "]") removedPart = false) :
  normalizeMarkers (deleted removedPart)
  = js "<deleted>" ++ removedPart ++ js "</deleted>"
  /\ includes (js "<mathematical_content>") (processDiff (deleted removedPart) fullText)
     = true.
Proof.
  destruct removedPart as [|a x]; [discriminate Hstart|].
  cbn [hd_error option_map] in Hstart. injection Hstart as Ha.
  assert (N1 : normalizeMarkers (deleted (a :: x))
               = js "<deleted>" ++ (a :: x) ++ js "</deleted>").
  { rewrite MarkerProofs.normalizeMarkers_eq, (deleted_stage_on_marker x a Ha Hbracket).
    apply (MarkerProofs.changed_stage_id 93%N); [auto|].
    intros K. apply in_app_or in K. destruct K as [K|K].
    - vm_compute in K. repeat (destruct K as [K|K]; [discriminate K|]). exact K.
    - apply in_app_or in K. destruct K as [K|K].
      + revert K. apply MarkerProofs.includes_single, Hbracket.
      + vm_compute in K. repeat (destruct K as [K|K]; [discriminate K|]). exact K. }
  split; [exact N1|].
  apply DiffProofs.processDiff_marks_math; [reflexivity|].
  rewrite N1. unfold isMathematicalContent.
  replace (test false mathSymbols (js "<deleted>" ++ (a :: x) ++ js "</deleted>")) with true;
    [rewrite orb_true_r; reflexivity|].
  symmetry.
  replace (js "<deleted>" ++ (a :: x) ++ js "</deleted>")
    with ((js "<deleted>" ++ (a :: x) ++ js "<") ++ 47%N :: js "deleted>")
    by (rewrite <- !app_assoc; reflexivity).
  apply (test_Class _ _ _ 47%N). reflexivity.
Qed.

Lemma deletion_reaches_the_batch_witness :
  calculateDiff Scenarios.removedLine [] = deleted Scenarios.removedLine
  /\ normalizeMarkers (deleted Scenarios.removedLine)
     = js "<deleted>" ++ Scenarios.removedLine ++ js "</deleted>".
Proof.
  split; [vm_compute; reflexivity|].
  exact (proj1 (deletion_reaches_the_batch Scenarios.removedLine []
                  eq_refl ltac:(vm_compute; reflexivity))).
Defined.

Lemma render_incl (r a : jsstring) (x : N) :
  In x (render r a) -> In x (js "[CHANGED: ] â†’ [DELETED: ]" ++ dq) \/ In x r \/ In x a.
Proof.
  unfold render, changed, deleted. destruct r as [|y r], a as [|z a]; intros H.
  - destruct H.
  - auto.
  - apply in_app_or in H. destruct H as [H|H]; [left; vm_compute in H |- *; tauto|].
    apply in_app_or in H. destruct H as [H|H]; [auto|]. left. vm_compute in H |- *. tauto.
  - repeat (apply in_app_or in H; destruct H as [H|H];
            [first [right; left; exact H | right; right; exact H
                   | left; vm_compute in H |- *; tauto]|]).
    left. vm_compute in H |- *. tauto.
Qed.

(** X14. The marker the content script writes for a replacement never
    becomes a changed element: the file spells the arrow between the two
    quoted parts with three other characters, and the pattern of
    [processDiff] asks for the arrow itself, so on the diff of two texts
    without that arrow the second replacement of [processDiff] does
    nothing. *)
Theorem replacement_marker_stays_raw (oldText newText : jsstring)
    (Hold : includes (js "→") oldText = false)
    (Hnew : includes (js "→") newText = false) :
  normalizeMarkers (calculateDiff oldText newText)
  = replaceAll false deletePattern deletedTag (calculateDiff oldText newText).
Proof.
  rewrite MarkerProofs.normalizeMarkers_eq.
  apply (MarkerProofs.changed_stage_id 8594%N); [auto|].
  intros K. apply MarkerProofs.deleted_stage_incl in K. apply in_app_or in K.
  destruct K as [K|K].
  { vm_compute in K. repeat (destruct K as [K|K]; [discriminate K|]). exact K. }
  destruct (ContentProofs.calculateDiff_window oldText newText)
    as (pre & r & a & suf & Eo & En & _ & R).
  rewrite R in K. apply render_incl in K. destruct K as [K|[K|K]].
  - vm_compute in K. repeat (destruct K as [K|K]; [discriminate K|]). exact K.
  - apply MarkerProofs.includes_single in Hold. apply Hold. rewrite Eo.
    apply in_or_app. right. apply in_or_app. left. exact K.
  - apply MarkerProofs.includes_single in Hnew. apply Hnew. rewrite En.
    apply in_or_app. right. apply in_or_app. left. exact K.
Qed.

Lemma replacement_marker_stays_raw_witness :
  normalizeMarkers (calculateDiff (js "the cat") (js "the cot"))
  = changed (js "a") (js "o").
Proof.
  rewrite (replacement_marker_stays_raw (js "the cat") (js "the cot"));
    vm_compute; reflexivity.
Defined.

End CaptureToBatchProofs.

(* ===================================================================== *)
(** ** The analysis and the nudges *)
(* ===================================================================== *)

Module EngineProofs.
Import Nudge NudgeSpec JSFacts.

(** X20. The analysis of any text is consistent: the score is between 0
    and 14 and is 0 exactly when no weighted flag is set, the urgency is
    read off the score at 3 and 6, success is only found in mathematical
    content, and a potential incorrect answer counts for 2 at least. *)
Theorem analysis_is_consistent (structuredText : jsstring) :
  let a := analyzeStructuredText structuredText in
  0 <= concerningSignals a <= 14
  /\ (concerningSignals a = 0 <-> anyConcern (patterns a) = false)
  /\ urgency a = (if concerningSignals a >=? 6 then high
                  else if concerningSignals a >=? 3 then medium else low)
  /\ (hasSuccessIndicators (patterns a) = true -> hasMathematicalContent (patterns a) = true)
  /\ (hasPotentialIncorrectAnswer (patterns a) = true -> 2 <= concerningSignals a).
Proof.
  cbv zeta. set (t := structuredText).
  pose proof (AnalyzerProofs.analyze_score t) as Hs.
  pose proof (AnalyzerProofs.analyze_urgency t) as Hu.
  pose proof (fun n => AnalyzerProofs.analyze_pattern n t) as Hp.
  pose proof (Hp Errors) as P1. pose proof (Hp Confusion) as P2.
  pose proof (Hp Repetition) as P3. pose proof (Hp LongDelays) as P4.
  pose proof (Hp ContextSwitching) as P5. pose proof (Hp FrequentErrors) as P6.
  pose proof (Hp ProlongedFocus) as P7. pose proof (Hp MathematicalContent) as P8.
  pose proof (Hp PotentialIncorrectAnswer) as P9. pose proof (Hp SuccessIndicators) as P10.
  cbn [getPattern] in P1, P2, P3, P4, P5, P6, P7, P8, P9, P10. clear Hp.
  unfold anyConcern. rewrite Hu, P1, P2, P3, P4, P5, P6, P7, P8, P9, P10, Hs.
  unfold scoreTable, weight.
  destruct (rowErrorTag t), (rowConfusionTag t), (rowRepetitionTag t), (rowLongDelay t),
    (rowContextSwitching t), (rowFrequentErrors t), (rowProlongedFocus t),
    (rowIncorrectMath t), (rowIncorrectTag t);
    cbn [orb andb];
    (split; [lia|]); (split; [split; intros H; first [reflexivity | discriminate H | lia]|]);
    (split; [reflexivity|]);
    (split; [intros H; apply andb_true_iff in H; tauto | intros H; first [lia | discriminate H]]).
Qed.

Lemma trimStart_suffix (s : jsstring) : exists w, s = w ++ trimStart s.
Proof.
  induction s as [|c s [w IH]]; [exists []; reflexivity|].
  simpl. destruct (isWhiteSpace c); [|exists []; reflexivity].
  exists (c :: w). simpl. f_equal. exact IH.
Qed.

Lemma trim_inside (s : jsstring) : exists a b, s = a ++ trim s ++ b.
Proof.
  unfold trim. destruct (trimStart_suffix s) as [w1 E1].
  destruct (trimStart_suffix (rev (trimStart s))) as [w2 E2].
  exists w1, (rev w2).
  rewrite <- rev_app_distr, <- E2, rev_involutive. exact E1.
Qed.

Lemma isGenericText_trim (y : jsstring) :
  isGenericText y = false -> isGenericText (trim y) = false.
Proof.
  intros H. destruct (isGenericText (trim y)) eqn:E; [|reflexivity].
  rewrite <- H. symmetry. unfold isGenericText in *.
  apply existsb_exists in E. destruct E as (p & Hp & E).
  apply existsb_exists. exists p. split; [exact Hp|].
  destruct (trim_inside y) as (a & b & Ey). rewrite Ey at 1.
  rewrite !toLowerCase_app. apply includes_split in E. destruct E as (u & v & ->).
  replace (toLowerCase a ++ (u ++ toLowerCase p ++ v) ++ toLowerCase b)
    with ((toLowerCase a ++ u) ++ toLowerCase p ++ (v ++ toLowerCase b))
    by (rewrite <- !app_assoc; reflexivity).
  apply includes_app.
Qed.

Lemma callPrisma_not_generic (s : System) (reply : ApiReply) (t : jsstring) :
  callPrisma s reply = Returned (Some t) -> isGenericText t = false.
Proof.
  unfold callPrisma. destruct reply as [|r]; [discriminate|].
  destruct (negb (truthy r)); [discriminate|].
  destruct (eqb _ _); [discriminate|].
  fold (isGenericText (trim r)).
  destruct (isGenericText (trim r)) eqn:G.
  - destruct (_ >=? 3); [|destruct (_ >=? 2)]; intros E; inversion E;
      vm_compute; reflexivity.
  - intros E. inversion E; subst. exact G.
Qed.


(** X24. The text of a nudge is never blank and never holds one of the
    phrases the filter of [callPrisma] lists, whichever path emitted it
    and whatever the model replied. *)
Theorem emitted_text_is_usable (s s' : System) (op : Op) (n : Nudge)
    (H : apply s op = (s', Some n)) :
  truthy (text n) = true /\ isGenericText (text n) = false.
Proof.
  destruct op as [[b|] k r n1 n2 n3 | [b|] k r now | ]; unfold apply in H;
    try (simpl in H; discriminate).
  - unfold analyzeAndNudge in H.
    destruct (negb (truthy k)); [discriminate|].
    destruct (shouldNudge _ _ _); [|discriminate].
    set (s1 := updateInterferenceLevel s _ n1) in *.
    unfold generateNudge in H.
    destruct (callPrisma s1 r) as [|t] eqn:C; [discriminate|].
    destruct (negb (truthy (trim _))) eqn:T.
    + destruct (_ >? 0); [|discriminate]. inversion H; subst s' n.
      cbn [text]. split; vm_compute; reflexivity.
    + inversion H; subst s' n. cbn [text]. split.
      * apply negb_false_iff in T. exact T.
      * destruct t as [t|]; [|vm_compute; reflexivity].
        apply isGenericText_trim. apply (callPrisma_not_generic s1 r), C.
  - unfold forceAnalyzeAndNudge in H.
    destruct (negb (truthy k)); [discriminate|].
    unfold generateForcedNudge in H.
    destruct (callPrisma _ r) as [|t] eqn:C; [discriminate|].
    inversion H; subst s' n. cbn [text markManual].
    destruct t as [t|]; [destruct (truthy t) eqn:T|]; try (split; vm_compute; reflexivity).
    split; [exact T|]. eapply callPrisma_not_generic, C.
Qed.

(** A generic reply to an automatic analysis is replaced by the canned
    hint of the level. *)
Lemma emitted_text_is_usable_witness :
  apply new Scenarios.genericReply
  = (fst (apply new Scenarios.genericReply), Some Scenarios.cannedNudge)
  /\ truthy (text Scenarios.cannedNudge) = true
  /\ isGenericText (text Scenarios.cannedNudge) = false.
Proof.
  assert (H : apply new Scenarios.genericReply
              = (fst (apply new Scenarios.genericReply), Some Scenarios.cannedNudge))
    by (vm_compute; reflexivity).
  split; [exact H|].
  exact (emitted_text_is_usable new (fst (apply new Scenarios.genericReply))
           Scenarios.genericReply Scenarios.cannedNudge H).
Defined.



(** X21. A batch with no concerning signal and no sign of success never
    reaches the model: whatever the reply would be, the automatic path
    returns no nudge, leaves the history and the time of the last nudge as
    they are, and does not raise the level. *)
Theorem quiet_batch_makes_no_call (s : System) (b : Tandem.Batch) (apiKey : jsstring)
    (reply : ApiReply) (nowUpdate nowCheck now : Z)
    (Hscore : concerningSignals (analyzeStructuredText (Tandem.structuredText b)) = 0)
    (Hsuccess : hasSuccessIndicators
                  (patterns (analyzeStructuredText (Tandem.structuredText b))) = false) :
  snd (analyzeAndNudge s (Some b) apiKey reply nowUpdate nowCheck now) = None
  /\ analyzeAndNudge s (Some b) apiKey reply nowUpdate nowCheck now
     = analyzeAndNudge s (Some b) apiKey RequestFailed nowUpdate nowCheck now
  /\ nudgeHistory (fst (analyzeAndNudge s (Some b) apiKey reply nowUpdate nowCheck now))
     = nudgeHistory s
  /\ lastNudgeTime (fst (analyzeAndNudge s (Some b) apiKey reply nowUpdate nowCheck now))
     = lastNudgeTime s
  /\ (0 <= interferenceLevel s ->
      interferenceLevel (fst (analyzeAndNudge s (Some b) apiKey reply nowUpdate nowCheck now))
      <= interferenceLevel s).
Proof.
  unfold analyzeAndNudge. destruct (negb (truthy apiKey)).
  { cbn [fst snd]. repeat split; lia. }
  set (a := analyzeStructuredText (Tandem.structuredText b)) in *.
  replace (shouldNudge (updateInterferenceLevel s a nowUpdate) a nowCheck) with false.
  - cbn [fst snd]. destruct (NudgeProofs.update_keeps s a nowUpdate) as [K1 K2].
    repeat split; try assumption.
    intros Hl. destruct (NudgeProofs.update_cases s a nowUpdate)
      as [(_ & _ & E)|[(C & _)|[(C & _)|[(C & _)|[(_ & _ & E)|(_ & E)]]]]];
      cbv zeta in *; lia.
  - unfold shouldNudge. rewrite Hscore, Hsuccess. reflexivity.
Qed.

Lemma quiet_batch_makes_no_call_witness :
  snd (analyzeAndNudge new (Some (Samples.batchOf Samples.calmText)) Samples.apiKey
         (ReplyText (js "Read the question again.")) 1700000000000 1700000000000
         1700000000000) = None.
Proof.
  apply (quiet_batch_makes_no_call new (Samples.batchOf Samples.calmText) Samples.apiKey
           (ReplyText (js "Read the question again.")) 1700000000000 1700000000000
           1700000000000); vm_compute; reflexivity.
Defined.

(** X22. Without a batch, without a key, or when the request fails or
    comes back empty, neither path returns a nudge and neither the
    history nor the time of the last nudge moves; a manual trigger whose
    request fails has raised the level from 0 to 1 all the same. *)
Theorem failed_call_emits_nothing (s : System) (b : Tandem.Batch) (apiKey : jsstring)
    (reply : ApiReply) (nowUpdate nowCheck now : Z) :
  analyzeAndNudge s None apiKey reply nowUpdate nowCheck now = (s, None)
  /\ forceAnalyzeAndNudge s None apiKey reply now = (s, None)
  /\ analyzeAndNudge s (Some b) [] reply nowUpdate nowCheck now = (s, None)
  /\ forceAnalyzeAndNudge s (Some b) [] reply now = (s, None)
  /\ Forall (fun failure =>
               snd (analyzeAndNudge s (Some b) apiKey failure nowUpdate nowCheck now) = None
               /\ nudgeHistory
                    (fst (analyzeAndNudge s (Some b) apiKey failure nowUpdate nowCheck now))
                  = nudgeHistory s
               /\ lastNudgeTime
                    (fst (analyzeAndNudge s (Some b) apiKey failure nowUpdate nowCheck now))
                  = lastNudgeTime s
               /\ snd (forceAnalyzeAndNudge s (Some b) apiKey failure now) = None
               /\ nudgeHistory (fst (forceAnalyzeAndNudge s (Some b) apiKey failure now))
                  = nudgeHistory s
               /\ lastNudgeTime (fst (forceAnalyzeAndNudge s (Some b) apiKey failure now))
                  = lastNudgeTime s
               /\ interferenceLevel (fst (forceAnalyzeAndNudge s (Some b) apiKey failure now))
                  = if truthy apiKey
                    then (if interferenceLevel s =? 0 then 1 else interferenceLevel s)
                    else interferenceLevel s)
       [RequestFailed; ReplyText []].
Proof.
  repeat split; try reflexivity.
  assert (A : forall failure, callPrisma
                (updateInterferenceLevel s
                   (analyzeStructuredText (Tandem.structuredText b)) nowUpdate) failure = Threw ->
              snd (analyzeAndNudge s (Some b) apiKey failure nowUpdate nowCheck now) = None
              /\ nudgeHistory
                   (fst (analyzeAndNudge s (Some b) apiKey failure nowUpdate nowCheck now))
                 = nudgeHistory s
              /\ lastNudgeTime
                   (fst (analyzeAndNudge s (Some b) apiKey failure nowUpdate nowCheck now))
                 = lastNudgeTime s).
  { intros failure C. unfold analyzeAndNudge. destruct (negb (truthy apiKey)); [auto|].
    destruct (NudgeProofs.update_keeps s
                (analyzeStructuredText (Tandem.structuredText b)) nowUpdate) as [K1 K2].
    destruct (shouldNudge _ _ _); [|cbn [fst snd]; auto].
    unfold generateNudge. rewrite C. cbn [fst snd]. auto. }
  assert (F : forall failure, (forall s0, callPrisma s0 failure = Threw) ->
              snd (forceAnalyzeAndNudge s (Some b) apiKey failure now) = None
              /\ nudgeHistory (fst (forceAnalyzeAndNudge s (Some b) apiKey failure now))
                 = nudgeHistory s
              /\ lastNudgeTime (fst (forceAnalyzeAndNudge s (Some b) apiKey failure now))
                 = lastNudgeTime s
              /\ interferenceLevel (fst (forceAnalyzeAndNudge s (Some b) apiKey failure now))
                 = if truthy apiKey
                   then (if interferenceLevel s =? 0 then 1 else interferenceLevel s)
                   else interferenceLevel s).
  { intros failure C. rewrite NudgeProofs.level_forceAnalyzeAndNudge.
    unfold forceAnalyzeAndNudge. destruct (negb (truthy apiKey)); [auto|].
    unfold generateForcedNudge. rewrite C. cbn [fst snd nudgeHistory lastNudgeTime
      withLastNudgeTime]. destruct (_ =? 0); auto. }
  constructor; [|constructor; [|constructor]].
  - destruct (A RequestFailed eq_refl) as (A1 & A2 & A3).
    destruct (F RequestFailed (fun _ => eq_refl)) as (F1 & F2 & F3 & F4).
    repeat split; assumption.
  - destruct (A (ReplyText []) eq_refl) as (A1 & A2 & A3).
    destruct (F (ReplyText []) (fun _ => eq_refl)) as (F1 & F2 & F3 & F4).
    repeat split; assumption.
Qed.

Lemma callPrisma_replies (s : System) (t : jsstring) :
  truthy t = true ->
  exists x, callPrisma s (ReplyText t) = Returned x
            /\ (eqb (toUpperCase (trim t)) (js "SILENT") = true -> x = None).
Proof.
  intros Hreply. unfold callPrisma. rewrite Hreply. cbn [negb].
  destruct (eqb (toUpperCase (trim t)) (js "SILENT")).
  - eexists. split; [reflexivity | auto].
  - destruct (existsb _ _); [destruct (_ >=? 3); [|destruct (_ >=? 2)]|];
      eexists; (split; [reflexivity | discriminate]).
Qed.

(** A manual trigger that gets a reply returns a nudge with a text. *)
Lemma forceAnalyzeAndNudge_some (s : System) (b : Tandem.Batch) (apiKey t : jsstring)
    (now : Z) :
  truthy apiKey = true ->
  truthy t = true ->
  exists n, snd (forceAnalyzeAndNudge s (Some b) apiKey (ReplyText t) now) = Some n
            /\ truthy (text n) = true.
Proof.
  intros Hkey Hreply. unfold forceAnalyzeAndNudge. rewrite Hkey. cbn [negb].
  unfold generateForcedNudge.
  match goal with |- context [callPrisma ?s1 (ReplyText t)] =>
    destruct (callPrisma_replies s1 t Hreply) as (x & C & _); rewrite C end.
  eexists. cbn [snd text markManual]. split; [reflexivity|].
  destruct x as [x|]; [destruct (truthy x) eqn:T; [exact T|]|]; reflexivity.
Qed.




(** X23. A manual trigger with a batch, a key and a reply that is not
    empty always returns a nudge: forced, marked manual, with a text that
    is not blank, and recorded without moving the time of the last nudge.
    A reply of SILENT is answered with the encouragement. *)
Theorem manual_trigger_always_answers (s : System) (b : Tandem.Batch)
    (apiKey t : jsstring) (now : Z)
    (Hkey : truthy apiKey = true)
    (Hreply : truthy t = true) :
  exists n,
    snd (forceAnalyzeAndNudge s (Some b) apiKey (ReplyText t) now) = Some n
    /\ forced n = true
    /\ manualTrigger n = true
    /\ truthy (text n) = true
    /\ batchId n = Tandem.batchId b
    /\ nudge_timestamp n = now
    /\ last (map Some (nudgeHistory
                         (fst (forceAnalyzeAndNudge s (Some b) apiKey (ReplyText t) now))))
            None = Some n
    /\ lastNudgeTime (fst (forceAnalyzeAndNudge s (Some b) apiKey (ReplyText t) now))
       = lastNudgeTime s
    /\ (eqb (toUpperCase (trim t)) (js "SILENT") = true ->
        text n = js "Keep doing what you're doing - you're on the right track!").
Proof.
  unfold forceAnalyzeAndNudge. rewrite Hkey. cbn [negb].
  set (s1 := if interferenceLevel (withLastNudgeTime s 0) =? 0
             then withLevel (withLastNudgeTime s 0) 1 else withLastNudgeTime s 0).
  unfold generateForcedNudge.
  destruct (callPrisma_replies s1 t Hreply) as (x & C & Hx). rewrite C.
  eexists. cbn [fst snd nudgeHistory lastNudgeTime withLastNudgeTime record markManual
                forced manualTrigger text batchId nudge_timestamp].
  rewrite cut_lastn. change 20%nat with (S 19). rewrite lastn_snoc, NudgeProofs.markLast_snoc.
  rewrite last_snoc_Some.
  repeat split.
  - destruct x as [x|]; [destruct (truthy x) eqn:T; [exact T|]|]; reflexivity.
  - intros Hs. rewrite (Hx Hs). reflexivity.
Qed.

Lemma manual_trigger_always_answers_witness :
  option_map text
    (snd (forceAnalyzeAndNudge new (Some (Samples.batchOf Samples.calmText)) Samples.apiKey
            (ReplyText (js "silent")) 1700000000000))
  = Some (js "Keep doing what you're doing - you're on the right track!").
Proof.
  destruct (manual_trigger_always_answers new (Samples.batchOf Samples.calmText)
              Samples.apiKey (js "silent") 1700000000000 eq_refl eq_refl)
    as (n & H1 & _ & _ & _ & _ & _ & _ & _ & H9).
  rewrite H1. cbn [option_map]. rewrite H9; [reflexivity | vm_compute; reflexivity].
Defined.

End EngineProofs.

(* ===================================================================== *)
(** ** The background script *)
(* ===================================================================== *)

Module BackgroundProofs.
Import Background JSFacts.




Lemma eqb_refl (id : jsstring) : eqb id id = true.
Proof. unfold eqb. destruct (list_eq_dec N.eq_dec id id); congruence. Qed.

Lemma markAnalyzed_new (ids : list jsstring) (id : jsstring) :
  existsb (eqb id) ids = false ->
  existsb (eqb id) (markAnalyzed ids id) = true
  /\ (length (markAnalyzed ids id) <= Nat.max 50 (length ids))%nat.
Proof.
  intros H. unfold markAnalyzed. rewrite H.
  destruct (Nat.ltb_spec 50 (length (ids ++ [id]))) as [L|L].
  - split.
    + change 25%nat with (S 24). rewrite lastn_snoc, existsb_app. cbn [existsb].
      rewrite eqb_refl, orb_true_r. reflexivity.
    + pose proof (lastn_length 25 (ids ++ [id])). lia.
  - split; [|lia].
    rewrite existsb_app. cbn [existsb]. rewrite eqb_refl, orb_true_r. reflexivity.
Qed.

(** X16. The monitor analyses a batch once: a firing of the monitor
    right after another one, with no batch sealed in between, does
    nothing, whatever the model replied to the first; and the set of
    analysed ids never grows beyond 50. *)
Theorem monitor_analyses_each_batch_once (st : State) (reply reply' : Nudge.ApiReply)
    (nowUpdate nowCheck now nowUpdate' nowCheck' now' : Z) :
  let st' := fst (monitorTick st reply nowUpdate nowCheck now) in
  monitorTick st' reply' nowUpdate' nowCheck' now' = (st', None)
  /\ tandemProcessor st' = tandemProcessor st
  /\ (length (analyzedBatches st') <= Nat.max 50 (length (analyzedBatches st)))%nat.
Proof.
  cbv zeta. unfold monitorTick at 2 3 4 5.
  destruct (tandemProcessor st) as [p|] eqn:Ep;
    [|cbn [fst]; unfold monitorTick; rewrite Ep; repeat split; lia].
  destruct (prismaNudgeSystem st) as [s|] eqn:Es;
    [|cbn [fst]; unfold monitorTick; rewrite Ep, Es; repeat split; lia].
  destruct (truthy (storedApiKey st)) eqn:Ek;
    [|cbn [fst]; unfold monitorTick; rewrite Ep, Es, Ek; repeat split; lia].
  destruct (Tandem.getLatestStructuredBatch p) as [b|] eqn:Eb;
    [|cbn [fst]; unfold monitorTick; rewrite Ep, Es, Ek, Eb; repeat split; lia].
  destruct (shouldAnalyzeBatch st b) eqn:Ea;
    [|cbn [fst]; unfold monitorTick; rewrite Ep, Es, Ek, Eb, Ea; repeat split; lia].
  unfold shouldAnalyzeBatch in Ea. apply negb_true_iff in Ea.
  destruct (markAnalyzed_new _ _ Ea) as [M1 M2].
  unfold analyzeBatchWithPrisma.
  destruct (Nudge.analyzeAndNudge s (Some b) (storedApiKey st) reply nowUpdate nowCheck now)
    as [s' nudge].
  cbn [fst]. unfold monitorTick. cbn [tandemProcessor prismaNudgeSystem storedApiKey].
  rewrite Ep, Ek, Eb. unfold shouldAnalyzeBatch. cbn [analyzedBatches]. rewrite M1.
  repeat split. exact M2.
Qed.

Section Trigger.

Variable parseURL : jsstring -> option (jsstring * jsstring).

(** X17. A manual trigger that is refused changes nothing: without the
    processors, without a key, or with an empty buffer the state is
    returned as it was with the matching error; in no case does a manual
    trigger touch the capture store, the key or the set of analysed
    batch ids. *)
Theorem refused_trigger_changes_nothing (st : State) (reply : Nudge.ApiReply)
    (now nowText nowNudge : Z) :
  match tandemProcessor st, prismaNudgeSystem st with
  | Some p, Some s =>
      match storedApiKey st, Tandem.rawCaptureData p with
      | [], _ =>
          handleManualAITrigger parseURL st reply now nowText nowNudge
          = (st, KeyNotConfigured)
      | _ :: _, [] =>
          handleManualAITrigger parseURL st reply now nowText nowNudge = (st, NoData)
      | _ :: _, _ :: _ =>
          snd (handleManualAITrigger parseURL st reply now nowText nowNudge)
          <> NotInitialized
          /\ snd (handleManualAITrigger parseURL st reply now nowText nowNudge)
             <> KeyNotConfigured
      end
  | _, _ =>
      handleManualAITrigger parseURL st reply now nowText nowNudge = (st, NotInitialized)
  end
  /\ captureDataStore (fst (handleManualAITrigger parseURL st reply now nowText nowNudge))
     = captureDataStore st
  /\ storedApiKey (fst (handleManualAITrigger parseURL st reply now nowText nowNudge))
     = storedApiKey st
  /\ analyzedBatches (fst (handleManualAITrigger parseURL st reply now nowText nowNudge))
     = analyzedBatches st.
Proof.
  unfold handleManualAITrigger.
  destruct st as [store [p|] [s|] key ids]; cbn [tandemProcessor prismaNudgeSystem
    storedApiKey captureDataStore analyzedBatches]; try (repeat split; reflexivity).
  destruct key as [|k key]; cbn [truthy negb]; [repeat split; reflexivity|].
  destruct (Tandem.rawCaptureData p) as [|x raw] eqn:E.
  - unfold Tandem.forceProcessBatch. rewrite E. repeat split; reflexivity.
  - destruct (Tandem.forceProcessBatch parseURL p now nowText) as [p' [b|]];
      [destruct (Nudge.forceAnalyzeAndNudge s (Some b) _ reply nowNudge) as [s' [n|]]|];
      cbn [fst snd captureDataStore storedApiKey analyzedBatches withProcessor withSystem];
      repeat split; discriminate.
Qed.

(** What a manual trigger does when the buffer holds entries received
    at positive clock readings. *)
Lemma handleManualAITrigger_seals (st : State) (p : Tandem.Processor) (s : Nudge.System)
    (reply : Nudge.ApiReply) (now nowText nowNudge : Z) :
  tandemProcessor st = Some p ->
  prismaNudgeSystem st = Some s ->
  truthy (storedApiKey st) = true ->
  Tandem.rawCaptureData p <> [] ->
  (forall e, In e (Tandem.rawCaptureData p) -> Tandem.receivedAt e > 0) ->
  let b := Tandem.sealed parseURL (Tandem.withLastProcessTime p 0) now nowText in
  let forcedCall := Nudge.forceAnalyzeAndNudge s (Some b) (storedApiKey st) reply nowNudge in
  handleManualAITrigger parseURL st reply now nowText nowNudge
  = (withSystem
       (withProcessor st
          (Some (fst (Tandem.forceProcessBatch parseURL p now nowText))))
       (Some (fst forcedCall)),
     match snd forcedCall with
     | Some n => NudgeGenerated (Nudge.text n)
     | None => NoNudge
     end)
  /\ Tandem.getLatestStructuredBatch (fst (Tandem.forceProcessBatch parseURL p now nowText))
     = Some b.
Proof.
  intros Ep Es Ek Hne Hclock. cbv zeta.
  unfold handleManualAITrigger. rewrite Ep, Es, Ek. cbn [negb].
  rewrite (HistoryProofs.forceProcessBatch_seals parseURL p now nowText Hne Hclock).
  cbn [fst snd storedApiKey withProcessor].
  split.
  - destruct (Nudge.forceAnalyzeAndNudge s _ (storedApiKey st) reply nowNudge) as [s' [n|]];
      reflexivity.
  - unfold Tandem.getLatestStructuredBatch. cbn [Tandem.structuredBatches].
    change 10%nat with (S 9). rewrite lastn_snoc. apply last_snoc_Some.
Qed.

(** X18. A manual trigger on a buffer that holds entries seals them into
    a batch named after the clock and answers: with the text of the forced
    nudge, never blank, when the model replied, and with no nudge when the
    request failed, the batch being sealed all the same. *)
Theorem manual_trigger_seals_and_answers (st : State) (p : Tandem.Processor)
    (s : Nudge.System) (reply : Nudge.ApiReply) (now nowText nowNudge : Z)
    (Hprocessor : tandemProcessor st = Some p)
    (Hsystem : prismaNudgeSystem st = Some s)
    (Hkey : truthy (storedApiKey st) = true)
    (Hbuffer : Tandem.rawCaptureData p <> [])
    (Hclock : forall e, In e (Tandem.rawCaptureData p) -> Tandem.receivedAt e > 0) :
  let result := handleManualAITrigger parseURL st reply now nowText nowNudge in
  (exists p' b,
     tandemProcessor (fst result) = Some p'
     /\ Tandem.getLatestStructuredBatch p' = Some b
     /\ Tandem.batchId b = js "batch_" ++ decimal now
     /\ Tandem.rawEntryCount b = Z.of_nat (length (Tandem.rawCaptureData p))
     /\ Tandem.rawCaptureData p' = Tandem.rawCaptureData p
     /\ Tandem.lastProcessTime p' = Tandem.lastProcessTime p)
  /\ match reply with
     | Nudge.RequestFailed => snd result = NoNudge
     | Nudge.ReplyText [] => snd result = NoNudge
     | Nudge.ReplyText (_ :: _) =>
         exists message, snd result = NudgeGenerated message /\ truthy message = true
     end.
Proof.
  cbv zeta.
  destruct (handleManualAITrigger_seals st p s reply now nowText nowNudge
              Hprocessor Hsystem Hkey Hbuffer Hclock) as [E L]. cbv zeta in E, L.
  rewrite E. cbn [fst snd tandemProcessor withSystem withProcessor]. split.
  - eexists. eexists. split; [reflexivity|]. split; [exact L|].
    rewrite (HistoryProofs.forceProcessBatch_seals parseURL p now nowText Hbuffer Hclock).
    cbn [fst Tandem.rawCaptureData Tandem.lastProcessTime Tandem.batchId Tandem.sealed
         Tandem.rawEntryCount]. repeat split.
    rewrite (HistoryProofs.batchData_all p Hclock). reflexivity.
  - destruct reply as [|[|c t]].
    + unfold Nudge.forceAnalyzeAndNudge. rewrite Hkey. reflexivity.
    + unfold Nudge.forceAnalyzeAndNudge. rewrite Hkey. reflexivity.
    + destruct (EngineProofs.forceAnalyzeAndNudge_some s
                  (Tandem.sealed parseURL (Tandem.withLastProcessTime p 0) now nowText)
                  (storedApiKey st) (c :: t) nowNudge Hkey eq_refl)
        as (n & H1 & H2).
      rewrite H1. exists (Nudge.text n). split; [reflexivity | exact H2].
Qed.

(** X19. The batch a manual trigger seals is analysed a second time: the
    trigger does not add its id to the set of analysed batches, so unless
    the id was there already the next firing of the monitor finds it as
    the latest batch and runs the automatic analysis on it. *)
Theorem forced_batch_is_analysed_again (st : State) (p : Tandem.Processor)
    (s : Nudge.System) (reply reply' : Nudge.ApiReply)
    (now nowText nowNudge nowUpdate' nowCheck' now' : Z)
    (Hprocessor : tandemProcessor st = Some p)
    (Hsystem : prismaNudgeSystem st = Some s)
    (Hkey : truthy (storedApiKey st) = true)
    (Hbuffer : Tandem.rawCaptureData p <> [])
    (Hclock : forall e, In e (Tandem.rawCaptureData p) -> Tandem.receivedAt e > 0)
    (Hnew : existsb (eqb (js "batch_" ++ decimal now)) (analyzedBatches st) = false) :
  let st' := fst (handleManualAITrigger parseURL st reply now nowText nowNudge) in
  let b := Tandem.sealed parseURL (Tandem.withLastProcessTime p 0) now nowText in
  exists s',
    prismaNudgeSystem st' = Some s'
    /\ Tandem.structuredText b
       = Tandem.createStructuredBatch parseURL (Tandem.rawCaptureData p) nowText
    /\ monitorTick st' reply' nowUpdate' nowCheck' now'
       = analyzeBatchWithPrisma st' s' b reply' nowUpdate' nowCheck' now'
    /\ snd (monitorTick st' reply' nowUpdate' nowCheck' now')
       = snd (Nudge.analyzeAndNudge s' (Some b) (storedApiKey st) reply'
                nowUpdate' nowCheck' now')
    /\ existsb (eqb (Tandem.batchId b))
         (analyzedBatches (fst (monitorTick st' reply' nowUpdate' nowCheck' now'))) = true.
Proof.
  cbv zeta.
  destruct (handleManualAITrigger_seals st p s reply now nowText nowNudge
              Hprocessor Hsystem Hkey Hbuffer Hclock) as [E L]. cbv zeta in E, L.
  rewrite E. cbn [fst]. eexists. split; [reflexivity|].
  split.
  { unfold Tandem.sealed. cbn [Tandem.structuredText].
    rewrite (HistoryProofs.batchData_all p Hclock). reflexivity. }
  assert (M : monitorTick
                (withSystem
                   (withProcessor st
                      (Some (fst (Tandem.forceProcessBatch parseURL p now nowText))))
                   (Some (fst (Nudge.forceAnalyzeAndNudge s
                                 (Some (Tandem.sealed parseURL
                                          (Tandem.withLastProcessTime p 0) now nowText))
                                 (storedApiKey st) reply nowNudge))))
                reply' nowUpdate' nowCheck' now'
              = analyzeBatchWithPrisma
                  (withSystem
                     (withProcessor st
                        (Some (fst (Tandem.forceProcessBatch parseURL p now nowText))))
                     (Some (fst (Nudge.forceAnalyzeAndNudge s
                                   (Some (Tandem.sealed parseURL
                                            (Tandem.withLastProcessTime p 0) now nowText))
                                   (storedApiKey st) reply nowNudge))))
                  (fst (Nudge.forceAnalyzeAndNudge s
                          (Some (Tandem.sealed parseURL
                                   (Tandem.withLastProcessTime p 0) now nowText))
                          (storedApiKey st) reply nowNudge))
                  (Tandem.sealed parseURL (Tandem.withLastProcessTime p 0) now nowText)
                  reply' nowUpdate' nowCheck' now').
  { unfold monitorTick. cbn [tandemProcessor prismaNudgeSystem storedApiKey withSystem
      withProcessor]. rewrite Hkey, L. unfold shouldAnalyzeBatch.
    cbn [analyzedBatches withSystem withProcessor Tandem.batchId Tandem.sealed].
    rewrite Hnew. reflexivity. }
  split; [exact M|]. rewrite M. unfold analyzeBatchWithPrisma.
  cbn [storedApiKey withSystem withProcessor analyzedBatches].
  destruct (Nudge.analyzeAndNudge _ _ (storedApiKey st) reply' nowUpdate' nowCheck' now')
    as [s2 nudge].
  cbn [fst snd analyzedBatches]. split; [reflexivity|].
  apply markAnalyzed_new. exact Hnew.
Qed.

End Trigger.

Ltac positive_clock :=
  let e := fresh "e" in let He := fresh "He" in
  intros e He; vm_compute in He;
  repeat (destruct He as [He|He]; [subst e; reflexivity|]); destruct He.

Lemma manual_trigger_seals_and_answers_witness :
  exists message,
    snd (handleManualAITrigger Samples.parseURL Scenarios.fed
           (Nudge.ReplyText (js "Check the sign of x."))
           (Samples.t0 + 5000) (Samples.t0 + 5000) (Samples.t0 + 5000))
    = NudgeGenerated message
    /\ truthy message = true.
Proof.
  assert (Hclock : forall e, In e (Tandem.rawCaptureData Scenarios.fedProcessor) ->
                             Tandem.receivedAt e > 0) by positive_clock.
  exact (proj2 (manual_trigger_seals_and_answers Samples.parseURL Scenarios.fed
                  Scenarios.fedProcessor Nudge.new
                  (Nudge.ReplyText (js "Check the sign of x."))
                  (Samples.t0 + 5000) (Samples.t0 + 5000) (Samples.t0 + 5000)
                  eq_refl eq_refl eq_refl
                  ltac:(vm_compute; discriminate) Hclock)).
Defined.

Lemma forced_batch_is_analysed_again_witness :
  existsb (eqb (js "batch_" ++ decimal (Samples.t0 + 5000)))
    (analyzedBatches (fst Scenarios.triggered)) = false
  /\ exists s',
       prismaNudgeSystem (fst Scenarios.triggered) = Some s'
       /\ snd (monitorTick (fst Scenarios.triggered) Nudge.RequestFailed
                 (Samples.t0 + 6000) (Samples.t0 + 6000) (Samples.t0 + 6000))
          = snd (Nudge.analyzeAndNudge s'
                   (Some (Tandem.sealed Samples.parseURL
                            (Tandem.withLastProcessTime Scenarios.fedProcessor 0)
                            (Samples.t0 + 5000) (Samples.t0 + 5000)))
                   (storedApiKey Scenarios.fed) Nudge.RequestFailed
                   (Samples.t0 + 6000) (Samples.t0 + 6000) (Samples.t0 + 6000)).
Proof.
  split; [vm_compute; reflexivity|].
  assert (Hclock : forall e, In e (Tandem.rawCaptureData Scenarios.fedProcessor) ->
                             Tandem.receivedAt e > 0) by positive_clock.
  destruct (forced_batch_is_analysed_again Samples.parseURL Scenarios.fed
              Scenarios.fedProcessor Nudge.new
              (Nudge.ReplyText (js "Check the sign of x.")) Nudge.RequestFailed
              (Samples.t0 + 5000) (Samples.t0 + 5000) (Samples.t0 + 5000)
              (Samples.t0 + 6000) (Samples.t0 + 6000) (Samples.t0 + 6000)
              eq_refl eq_refl eq_refl
              ltac:(vm_compute; discriminate) Hclock
              ltac:(vm_compute; reflexivity))
    as (s' & H1 & _ & _ & H4 & _).
  exists s'. split; [exact H1 | exact H4].
Defined.

End BackgroundProofs.

(* ===================================================================== *)
(** ** From repeated errors to a raised level *)
(* ===================================================================== *)

Module StruggleProofs.
Import Tandem TandemSpec PipelineSpec Nudge JSFacts.

Lemma starts_with_bracket (r : regex) (k : jsstring) (c c' : cursor) :
  In 91%N k -> In c' (JS.run false (Seq (Str k) r) c) -> In 91%N (rest c).
Proof.
  intros Hk H. cbn [JS.run] in H. apply in_flat_map in H. destruct H as (c1 & K1 & _).
  apply (MarkerProofs.str_needs k 91%N c c1 Hk K1).
Qed.

(** A diff without a bracket holds no marker. *)
Lemma normalizeMarkers_plain (d : jsstring) :
  includes (js "[") d = false -> normalizeMarkers d = d.
Proof.
  intros H. apply MarkerProofs.includes_single in H.
  rewrite MarkerProofs.normalizeMarkers_eq. unfold replaceAll.
  rewrite (MarkerProofs.replaceAllFrom_without 91%N deletePattern deletedTag);
    [apply (MarkerProofs.replaceAllFrom_without 91%N changePattern changedTag)| |];
    try exact H.
  - intros c c'. apply starts_with_bracket. vm_compute. auto.
  - intros c c'. apply starts_with_bracket. vm_compute. auto.
Qed.

Lemma trimStart_spec (s : jsstring) :
  exists w, s = w ++ trimStart s /\ forallb isWhiteSpace w = true.
Proof.
  induction s as [|c s (w & E & W)]; [exists []; split; reflexivity|].
  simpl. destruct (isWhiteSpace c) eqn:C; [|exists []; split; reflexivity].
  exists (c :: w). split; [simpl; f_equal; exact E | simpl; rewrite C; exact W].
Qed.

(** A text with a character that is no white space is not blank. *)
Lemma trim_truthy (x : N) (s : jsstring) :
  In x s -> isWhiteSpace x = false -> truthy (trim s) = true.
Proof.
  intros Hx Hw. destruct (trim s) eqn:T; [|reflexivity]. exfalso.
  unfold trim in T. destruct (trimStart_spec s) as (w1 & E1 & W1).
  destruct (trimStart_spec (rev (trimStart s))) as (w2 & E2 & W2).
  apply (f_equal (@rev N)) in T. rewrite rev_involutive in T. cbn [rev] in T.
  rewrite T, app_nil_r in E2.
  assert (A : forall y, In y s -> isWhiteSpace y = true).
  { intros y Hy. rewrite E1 in Hy. apply in_app_or in Hy. destruct Hy as [Hy|Hy].
    - rewrite forallb_forall in W1. apply W1, Hy.
    - rewrite forallb_forall in W2. apply W2. rewrite <- E2. apply in_rev in Hy. exact Hy. }
  rewrite (A x Hx) in Hw. discriminate Hw.
Qed.

(** A text that holds the opening of a tag is not blank. *)
Lemma tag_not_blank (k t : jsstring) :
  includes (js "<" ++ k) t = true -> truthy (trim t) = true.
Proof.
  intros P. apply includes_split in P. destruct P as (a & b & ->).
  apply (trim_truthy 60%N); [|reflexivity].
  apply in_or_app. right. left. reflexivity.
Qed.

Lemma includes_prefix (k t s : jsstring) :
  includes k t = true -> includes k (t ++ s) = true.
Proof.
  intros H. apply (DiffProofs.includes_mid k [] t s) in H. exact H.
Qed.

Lemma includes_skip (k a s : jsstring) :
  includes k s = true -> includes k (a ++ s) = true.
Proof.
  intros H. apply (DiffProofs.includes_mid k a s []) in H.
  rewrite app_nil_r in H. exact H.
Qed.

Lemma processDiff_error (d fullText : jsstring) :
  containsErrorKeywords d = true ->
  includes (js "[") d = false ->
  includes (js "<error_signal>") (processDiff d fullText) = true.
Proof.
  intros He Hb.
  assert (Hd : truthy d = true) by (unfold containsErrorKeywords in He;
                                    apply andb_true_iff in He; tauto).
  rewrite DiffProofs.processDiff_stages, Hd, (normalizeMarkers_plain d Hb).
  cbn [negb]. rewrite DiffProofs.tagContent_stages.
  do 4 apply DiffProofs.stage_includes.
  unfold stage at 1.
  rewrite (DiffProofs.stage_keeps_error isRepetitiveContent "repetitive" d He).
  unfold wrap.
  assert (Hlit : forall X, js "<" ++ js "error_signal" ++ js ">" ++ X
                           = js "<error_signal>" ++ X)
    by (intros X; vm_compute; reflexivity).
  rewrite Hlit. apply (includes_app _ []).
Qed.

Lemma composeEntry_error (acc : jsstring * option Z) (e : RawEntry) :
  plainError e = true ->
  includes (js "<error_signal>") (fst (composeEntry acc e)) = true.
Proof.
  intros H. unfold plainError in H. apply andb_true_iff in H. destruct H as [He Hb].
  apply negb_true_iff in Hb.
  pose proof (processDiff_error (diff (entry e)) (fullText (entry e)) He Hb) as P.
  assert (T : truthy (trim (processDiff (diff (entry e)) (fullText (entry e)))) = true).
  { apply (tag_not_blank (js "error_signal>")).
    replace (js "<" ++ js "error_signal>") with (js "<error_signal>")
      by (vm_compute; reflexivity).
    exact P. }
  unfold composeEntry. cbv zeta. rewrite T. cbn [fst].
  do 7 apply includes_skip. apply includes_prefix, P.
Qed.

(** Sorting a batch does not change how many of its entries pass a
    test. *)
Lemma filter_length_perm {A : Type} (f : A -> bool) (l l' : list A) :
  Permutation l l' -> length (filter f l) = length (filter f l').
Proof.
  induction 1 as [|x l l' _ IH|x y l|l l' l'' _ IH1 _ IH2].
  - reflexivity.
  - simpl. destruct (f x); simpl; rewrite IH; reflexivity.
  - simpl. destruct (f x), (f y); reflexivity.
  - rewrite IH1. exact IH2.
Qed.

Lemma filter_length_le {A : Type} (f g : A -> bool) (l : list A) :
  (forall x, f x = true -> g x = true) ->
  (length (filter f l) <= length (filter g l))%nat.
Proof.
  intros H. induction l as [|x l IH]; [reflexivity|]. simpl.
  destruct (f x) eqn:F.
  - rewrite (H x F). simpl. lia.
  - destruct (g x); simpl; lia.
Qed.

Lemma filter_inhabited {A : Type} (f : A -> bool) (l : list A) :
  (1 <= length (filter f l))%nat -> exists x, In x l /\ f x = true.
Proof.
  intros H. destruct (filter f l) as [|x r] eqn:E; [simpl in H; lia|].
  exists x. apply filter_In. rewrite E. left. reflexivity.
Qed.

Lemma plainError_has_keyword (e : RawEntry) :
  plainError e = true -> containsErrorKeywords (diff (entry e)) = true.
Proof. unfold plainError. intros H. apply andb_true_iff in H. tauto. Qed.

(** More than two entries with an error keyword, among any others, give
    the marker of frequent errors. *)
Lemma frequent_errors_tag (l : list RawEntry) :
  (3 <= length (filter (fun e => containsErrorKeywords (diff (entry e))) l))%nat ->
  includes (js "type=" ++ dq ++ js "frequent_errors" ++ dq) (analyzeBehaviorPatterns l) = true.
Proof.
  intros Hl. unfold analyzeBehaviorPatterns. cbv zeta.
  replace (Z.of_nat (length (filter (fun e => containsErrorKeywords (diff (entry e))) l)) >? 2)
    with true by (symmetry; apply Z.gtb_lt; lia).
  apply includes_skip.
  assert (Hlit : forall X, js "<behavior type=" ++ dq ++ js "frequent_errors" ++ dq ++ X
                           = js "<behavior " ++ (js "type=" ++ dq ++ js "frequent_errors" ++ dq)
                             ++ X)
    by (intros X; vm_compute; reflexivity).
  rewrite Hlit. apply includes_app.
Qed.

(** What one entry surely adds shows in the text of the whole walk. *)
Lemma compose_includes (k : jsstring) (e : RawEntry) (l : list RawEntry) :
  (forall acc, includes k (fst (composeEntry acc e)) = true) ->
  In e l ->
  forall acc, includes k (fst (fold_left composeEntry l acc)) = true.
Proof.
  intros He. induction l as [|x l IH]; intros Hin acc; [destruct Hin|].
  cbn [fold_left]. destruct Hin as [->|Hin]; [|apply IH, Hin].
  destruct (PipelineProofs.compose_extends l (composeEntry acc e)) as [suffix E].
  rewrite E. apply includes_prefix, He.
Qed.

Section Pipeline.

Variable parseURL : jsstring -> option (jsstring * jsstring).

Lemma batch_of_errors (data : list RawEntry) (now : Z) :
  (3 <= length (filter plainError data))%nat ->
  includes (js "<error_signal>") (createStructuredBatch parseURL data now) = true
  /\ includes (js "type=" ++ dq ++ js "frequent_errors" ++ dq)
       (createStructuredBatch parseURL data now) = true.
Proof.
  intros Hl.
  pose proof (SchedulerProofs.sortByTime_perm data) as Pm.
  assert (Hn : (3 <= length (filter plainError (sortByTime data)))%nat)
    by (rewrite (filter_length_perm plainError _ _ Pm); exact Hl).
  destruct (filter_inhabited plainError (sortByTime data)) as (e & Hin & He); [lia|].
  unfold createStructuredBatch. cbv zeta. set (sorted := sortByTime data) in *.
  split.
  - do 2 apply includes_prefix.
    assert (F : forall acc, includes (js "<error_signal>")
                  (fst (fold_left composeEntry sorted acc)) = true).
    { apply (compose_includes _ e); [|exact Hin].
      intros acc. apply composeEntry_error, He. }
    destruct (last (map Some sorted) None) as [lastEntry|];
      [destruct (truthy (url (entry lastEntry)))|]; try apply F.
    apply includes_prefix, F.
  - apply includes_prefix. apply includes_skip. apply frequent_errors_tag.
    pose proof (filter_length_le plainError
                  (fun e => containsErrorKeywords (diff (entry e))) sorted
                  plainError_has_keyword).
    lia.
Qed.

(** X26. Three captures or more whose diffs hold an error keyword (and no
    bracket, so no marker), among any number of other captures of the
    same batch, make a batch that the nudge system reads as a struggle:
    the batch text has the error tag and the frequent-errors marker, so
    the analysis has both flags, a score of 3 at least and an urgency
    above low, and the update of the level leaves it at 1 at least,
    whatever it was. *)
Theorem repeated_errors_raise_the_level (data : list RawEntry) (now : Z)
    (s : System) (nowUpdate : Z)
    (Herrors : (3 <= length (filter plainError data))%nat) :
  let t := createStructuredBatch parseURL data now in
  let a := analyzeStructuredText t in
  includes (js "<error_signal>") t = true
  /\ includes (js "type=" ++ dq ++ js "frequent_errors" ++ dq) t = true
  /\ hasErrors (patterns a) = true
  /\ hasFrequentErrors (patterns a) = true
  /\ 3 <= concerningSignals a
  /\ urgency a <> low
  /\ 1 <= interferenceLevel (updateInterferenceLevel s a nowUpdate).
Proof.
  cbv zeta. destruct (batch_of_errors data now Herrors) as [H1 H2].
  set (t := createStructuredBatch parseURL data now) in *.
  pose proof (AnalyzerProofs.analyze_pattern Errors t) as P1.
  pose proof (AnalyzerProofs.analyze_pattern FrequentErrors t) as P2.
  cbn [getPattern] in P1, P2. unfold rowErrorTag in P1. unfold rowFrequentErrors in P2.
  rewrite H1 in P1. rewrite H2 in P2.
  assert (Hs : 3 <= concerningSignals (analyzeStructuredText t)).
  { rewrite AnalyzerProofs.analyze_score. unfold scoreTable.
    unfold rowErrorTag at 1. unfold rowFrequentErrors at 1. rewrite H1, H2.
    cbn [weight].
    pose proof (AnalyzerProofs.weight_nonneg (rowConfusionTag t) 2).
    pose proof (AnalyzerProofs.weight_nonneg (rowRepetitionTag t) 1).
    pose proof (AnalyzerProofs.weight_nonneg (rowLongDelay t) 1).
    pose proof (AnalyzerProofs.weight_nonneg (rowContextSwitching t) 1).
    pose proof (AnalyzerProofs.weight_nonneg (rowProlongedFocus t) 1).
    pose proof (AnalyzerProofs.weight_nonneg (rowIncorrectMath t) 2).
    pose proof (AnalyzerProofs.weight_nonneg (rowIncorrectTag t) 3).
    lia. }
  split; [exact H1|]. split; [exact H2|].
  split; [exact P1|]. split; [exact P2|]. split; [exact Hs|]. split.
  - rewrite AnalyzerProofs.analyze_urgency, <- AnalyzerProofs.analyze_score.
    destruct (Z.geb_spec (concerningSignals (analyzeStructuredText t)) 6); [discriminate|].
    destruct (Z.geb_spec (concerningSignals (analyzeStructuredText t)) 3); [discriminate|lia].
  - destruct (NudgeProofs.update_cases s (analyzeStructuredText t) nowUpdate)
      as [(_ & C & _)|[(C & E)|[(C & E)|[(C & E)|[(C & _)|(C & _)]]]]];
      cbv zeta in *; lia.
Qed.

End Pipeline.

Lemma repeated_errors_raise_the_level_witness :
  (length Scenarios.errorsAmongTyping = 4)%nat
  /\ (length (filter plainError Scenarios.errorsAmongTyping) = 3)%nat
  /\ 3 <= concerningSignals
            (analyzeStructuredText
               (createStructuredBatch Samples.parseURL Scenarios.errorsAmongTyping
                  (Samples.t0 + 21000)))
  /\ 1 <= interferenceLevel
            (updateInterferenceLevel new
               (analyzeStructuredText
                  (createStructuredBatch Samples.parseURL Scenarios.errorsAmongTyping
                     (Samples.t0 + 21000)))
               (Samples.t0 + 22000)).
Proof.
  assert (C : (length (filter plainError Scenarios.errorsAmongTyping) = 3)%nat)
    by (vm_compute; reflexivity).
  destruct (repeated_errors_raise_the_level Samples.parseURL Scenarios.errorsAmongTyping
              (Samples.t0 + 21000) new (Samples.t0 + 22000))
    as (_ & _ & _ & _ & H3 & _ & H5).
  - rewrite C. lia.
  - split; [reflexivity|]. split; [exact C|]. split; [exact H3 | exact H5].
Defined.

(** *** From a wrong answer to the scenario of the incorrect tag *)

Lemma stage_keeps_answer (test : jsstring -> bool) (tag : string) (q : jsstring) :
  existsb (fun answer => includes answer q) incorrectDiceAnswers = true ->
  existsb (fun answer => includes answer (stage test tag q)) incorrectDiceAnswers = true.
Proof.
  intros H. apply existsb_exists in H. destruct H as (k & Hk & H).
  apply existsb_exists. exists k. split; [exact Hk|].
  apply DiffProofs.stage_includes, H.
Qed.

Lemma stage_truthy (test : jsstring -> bool) (tag : string) (q : jsstring) :
  truthy q = true -> truthy (stage test tag q) = true.
Proof.
  intros H. unfold stage. destruct (test q); [apply DiffProofs.wrap_truthy | exact H].
Qed.

Lemma hasIncorrectMathAnswer_intro (q : jsstring) :
  truthy q = true ->
  existsb (fun answer => includes answer q) incorrectDiceAnswers = true ->
  hasIncorrectMathAnswer q = true.
Proof. intros H1 H2. unfold hasIncorrectMathAnswer. rewrite H1, H2. reflexivity. Qed.

Lemma processDiff_incorrect (d fullText : jsstring) :
  existsb (fun answer => includes answer d) incorrectDiceAnswers = true ->
  includes (js "[") d = false ->
  includes (js "<incorrect_answer_signal>") (processDiff d fullText) = true.
Proof.
  intros Ha Hb.
  assert (Hd : truthy d = true).
  { destruct d; [|reflexivity]. vm_compute in Ha. discriminate Ha. }
  rewrite DiffProofs.processDiff_stages, Hd, (normalizeMarkers_plain d Hb).
  cbn [negb]. rewrite DiffProofs.tagContent_stages.
  rewrite DiffProofs.stage_true.
  - assert (Hlit : js "<" ++ js "incorrect_answer_signal" ++ js ">"
                   = js "<incorrect_answer_signal>") by (vm_compute; reflexivity).
    rewrite <- Hlit. apply DiffProofs.wrap_opening.
  - apply hasIncorrectMathAnswer_intro.
    + do 5 apply stage_truthy. exact Hd.
    + do 5 apply stage_keeps_answer. exact Ha.
Qed.

Lemma composeEntry_incorrect (acc : jsstring * option Z) (e : RawEntry) :
  wrongAnswer e = true ->
  includes (js "<incorrect_answer_signal>") (fst (composeEntry acc e)) = true.
Proof.
  intros H. unfold wrongAnswer in H. apply andb_true_iff in H. destruct H as [Ha Hb].
  apply negb_true_iff in Hb.
  pose proof (processDiff_incorrect (diff (entry e)) (fullText (entry e)) Ha Hb) as P.
  assert (T : truthy (trim (processDiff (diff (entry e)) (fullText (entry e)))) = true).
  { apply (tag_not_blank (js "incorrect_answer_signal>")).
    replace (js "<" ++ js "incorrect_answer_signal>") with (js "<incorrect_answer_signal>")
      by (vm_compute; reflexivity).
    exact P. }
  unfold composeEntry. cbv zeta. rewrite T. cbn [fst].
  do 7 apply includes_skip. apply includes_prefix, P.
Qed.

Section Answers.

Variable parseURL : jsstring -> option (jsstring * jsstring).

(** X28. A capture whose diff holds one of the listed wrong answers to
    the dice problem (and no bracket) is enough for the scenario of the
    incorrect tag: the batch text has the incorrect_answer_signal tag, so
    the analysis flags a potential incorrect answer with a score of 3 at
    least, its urgency is above low, and the update of the level leaves it
    at 1 at least. *)
Theorem wrong_answer_is_flagged (data : list RawEntry) (e : RawEntry) (now : Z)
    (s : System) (nowUpdate : Z)
    (Hentry : In e data)
    (Hanswer : wrongAnswer e = true) :
  let t := createStructuredBatch parseURL data now in
  let a := analyzeStructuredText t in
  includes (js "<incorrect_answer_signal>") t = true
  /\ hasPotentialIncorrectAnswer (patterns a) = true
  /\ 3 <= concerningSignals a
  /\ urgency a <> low
  /\ 1 <= interferenceLevel (updateInterferenceLevel s a nowUpdate).
Proof.
  cbv zeta.
  assert (H1 : includes (js "<incorrect_answer_signal>")
                 (createStructuredBatch parseURL data now) = true).
  { unfold createStructuredBatch. cbv zeta. do 2 apply includes_prefix.
    assert (F : forall acc, includes (js "<incorrect_answer_signal>")
                  (fst (fold_left composeEntry (sortByTime data) acc)) = true).
    { apply (compose_includes _ e).
      - intros acc. apply composeEntry_incorrect, Hanswer.
      - apply (Permutation_in _ (Permutation_sym (SchedulerProofs.sortByTime_perm data))).
        exact Hentry. }
    destruct (last (map Some (sortByTime data)) None) as [lastEntry|];
      [destruct (truthy (url (entry lastEntry)))|]; try apply F.
    apply includes_prefix, F. }
  set (t := createStructuredBatch parseURL data now) in *.
  pose proof (AnalyzerProofs.analyze_pattern PotentialIncorrectAnswer t) as P1.
  cbn [getPattern] in P1. unfold rowIncorrectTag in P1. rewrite H1, orb_true_r in P1.
  assert (Hs : 3 <= concerningSignals (analyzeStructuredText t)).
  { rewrite AnalyzerProofs.analyze_score. unfold scoreTable.
    unfold rowIncorrectTag at 1. rewrite H1. cbn [weight].
    pose proof (AnalyzerProofs.weight_nonneg (rowErrorTag t) 1).
    pose proof (AnalyzerProofs.weight_nonneg (rowConfusionTag t) 2).
    pose proof (AnalyzerProofs.weight_nonneg (rowRepetitionTag t) 1).
    pose proof (AnalyzerProofs.weight_nonneg (rowLongDelay t) 1).
    pose proof (AnalyzerProofs.weight_nonneg (rowContextSwitching t) 1).
    pose proof (AnalyzerProofs.weight_nonneg (rowFrequentErrors t) 2).
    pose proof (AnalyzerProofs.weight_nonneg (rowProlongedFocus t) 1).
    pose proof (AnalyzerProofs.weight_nonneg (rowIncorrectMath t) 2).
    lia. }
  split; [exact H1|]. split; [exact P1|]. split; [exact Hs|]. split.
  - rewrite AnalyzerProofs.analyze_urgency, <- AnalyzerProofs.analyze_score.
    destruct (Z.geb_spec (concerningSignals (analyzeStructuredText t)) 6); [discriminate|].
    destruct (Z.geb_spec (concerningSignals (analyzeStructuredText t)) 3); [discriminate|lia].
  - destruct (NudgeProofs.update_cases s (analyzeStructuredText t) nowUpdate)
      as [(_ & C & _)|[(C & E)|[(C & E)|[(C & E)|[(C & _)|(C & _)]]]]];
      cbv zeta in *; lia.
Qed.

End Answers.

Lemma wrong_answer_is_flagged_witness :
  includes (js "<incorrect_answer_signal>")
    (createStructuredBatch Samples.parseURL Scenarios.wrongAnswerBatch
       (Samples.t0 + 21000)) = true
  /\ 3 <= concerningSignals
            (analyzeStructuredText
               (createStructuredBatch Samples.parseURL Scenarios.wrongAnswerBatch
                  (Samples.t0 + 21000))).
Proof.
  destruct (wrong_answer_is_flagged Samples.parseURL Scenarios.wrongAnswerBatch
              {| entry :=
                   {| timestamp := js "14";
                      diff := js "so it must be 1/89";
                      fullText := js "Exercise 4. so it must be 1/89";
                      url := js "https://course.example/sheet4?user=7";
                      capturedAt := Samples.t0 + 14000 |};
                 receivedAt := Samples.t0 + 14000 |}
              (Samples.t0 + 21000) new (Samples.t0 + 22000))
    as (H1 & _ & H3 & _).
  - right. left. reflexivity.
  - vm_compute. reflexivity.
  - split; [exact H1 | exact H3].
Defined.

End StruggleProofs.

(* ===================================================================== *)
(** ** The prompts *)
(* ===================================================================== *)

Module PromptProofs.
Import Nudge JSFacts.

Lemma includes_here (k s : jsstring) : includes k (k ++ s) = true.
Proof. apply (includes_app k []). Qed.

Lemma includes_last (k : jsstring) : includes k k = true.
Proof. rewrite <- (app_nil_r k) at 2. apply includes_here. Qed.

Lemma includes_three (x y z r : jsstring) :
  includes (x ++ y ++ z) (x ++ y ++ z ++ r) = true.
Proof.
  replace (x ++ y ++ z ++ r) with ((x ++ y ++ z) ++ r)
    by (rewrite <- !app_assoc; reflexivity).
  apply includes_here.
Qed.

(** Walks a concatenation up to the part looked for. *)
Ltac find_part :=
  first [ apply includes_here
        | apply includes_last
        | apply StruggleProofs.includes_skip; find_part ].

(** X27. Every prompt carries the text of the batch and the list of the
    detected signals word for word; the prompt of a manual trigger also
    names the urgency, and the automatic prompt for anything but a clean
    success names the sentinel SILENT between quotes. *)
Theorem prompts_carry_the_batch (s : System) (b : Tandem.Batch) (a : Analysis) :
  includes (Tandem.structuredText b) (buildPrismaPrompt s b a) = true
  /\ includes (join (js ", ") (signalTypes a)) (buildPrismaPrompt s b a) = true
  /\ includes (Tandem.structuredText b) (buildForcedPrismaPrompt b a) = true
  /\ includes (join (js ", ") (signalTypes a)) (buildForcedPrismaPrompt b a) = true
  /\ includes (urgencyName (urgency a)) (buildForcedPrismaPrompt b a) = true
  /\ (hasSuccessIndicators (patterns a) && negb (concerningSignals a >? 0) = false ->
      includes (dq ++ js "SILENT" ++ dq) (buildPrismaPrompt s b a) = true
      /\ includes (urgencyName (urgency a)) (buildPrismaPrompt s b a) = true).
Proof.
  unfold buildPrismaPrompt, buildForcedPrismaPrompt. cbv zeta.
  set (t := Tandem.structuredText b). set (sigs := join (js ", ") (signalTypes a)).
  set (u := urgencyName (urgency a)).
  repeat split.
  - destruct (_ && _); [unfold successPrompt | apply StruggleProofs.includes_prefix;
                                               unfold regularPrompt]; find_part.
  - destruct (_ && _); [unfold successPrompt | apply StruggleProofs.includes_prefix;
                                               unfold regularPrompt];
      fold sigs; find_part.
  - find_part.
  - find_part.
  - find_part.
  - rewrite H. apply StruggleProofs.includes_prefix. unfold regularPrompt.
    repeat first [ apply includes_three | apply StruggleProofs.includes_skip ].
  - rewrite H. apply StruggleProofs.includes_prefix. unfold regularPrompt. fold u.
    find_part.
Qed.

End PromptProofs.
